(** * TrueMoneyX: the authorize-then-transfer protocol

    A shallow embedding of the parts of the repository that carry the
    protocol: the Solidity [TokenContract], the Forge test script
    [TestTokenTransfer], the TypeScript attestation request builder
    ([executeTokenTransfer], [executeKrnl], [toWei]) and the Express
    risk proxy ([processValue], [renameTopAddressKey], [filterRiskFields],
    [processBatchResults]).

    Layout: EVM primitives (bytes, words, Keccak-256, ABI coding), then
    the contract, the test script, the builder and the proxy, then a
    concrete scenario, then the theorems. *)

From Stdlib Require Import ZArith List String Ascii Lia Bool.
From Stdlib.Strings Require Import Byte.
From stdpp Require Import base option gmap strings list pretty.
Import ListNotations.

Set Warnings "-register-all".

Local Open Scope string_scope.
Local Open Scope Z_scope.
Local Open Scope list_scope.

(** ** Bytes and machine words *)

Module Word.

Definition byte_of_Z (z : Z) : byte :=
  match Byte.of_N (Z.to_N (z mod 256)) with
  | Some b => b
  | None => x00
  end.

Definition Z_of_byte (b : byte) : Z := Z.of_N (Byte.to_N b).

(** Big-endian encoding of [z] on exactly [n] bytes (the low [8n] bits). *)
Fixpoint be_bytes (n : nat) (z : Z) : list byte :=
  match n with
  | O => []
  | S k => be_bytes k (z / 256) ++ [byte_of_Z z]
  end.

Definition be_value (bs : list byte) : Z :=
  fold_left (fun acc b => acc * 256 + Z_of_byte b) bs 0.

(** Little-endian reading, used by the Keccak sponge for its lanes. *)
Fixpoint le_value (bs : list byte) : Z :=
  match bs with
  | [] => 0
  | b :: rest => Z_of_byte b + 256 * le_value rest
  end.

Fixpoint le_bytes (n : nat) (z : Z) : list byte :=
  match n with
  | O => []
  | S k => byte_of_Z z :: le_bytes k (z / 256)
  end.

Definition uint256_max : Z := 2 ^ 256 - 1.
Definition is_uint256 (z : Z) : bool := (0 <=? z) && (z <=? uint256_max).
Definition is_address (z : Z) : bool := (0 <=? z) && (z <? 2 ^ 160).

End Word.

(** ** Keccak-256, the EVM's [keccak256] *)

Module Keccak.
Import Word.

Definition lane_mask : Z := 0xFFFFFFFFFFFFFFFF.

Definition rotl64 (v : Z) (n : Z) : Z :=
  Z.lor (Z.land (Z.shiftl v n) lane_mask) (Z.shiftr v (64 - n)).

Definition round_constants : list Z :=
  [ 0x0000000000000001; 0x0000000000008082; 0x800000000000808A;
    0x8000000080008000; 0x000000000000808B; 0x0000000080000001;
    0x8000000080008081; 0x8000000000008009; 0x000000000000008A;
    0x0000000000000088; 0x0000000080008009; 0x000000008000000A;
    0x000000008000808B; 0x800000000000008B; 0x8000000000008089;
    0x8000000000008003; 0x8000000000008002; 0x8000000000000080;
    0x000000000000800A; 0x800000008000000A; 0x8000000080008081;
    0x8000000000008080; 0x0000000080000001; 0x8000000080008008 ].

(** Rotation offsets, indexed [x + 5 * y]. *)
Definition rotation_offsets : list Z :=
  [ 0; 1; 62; 28; 27;
    36; 44; 6; 55; 20;
    3; 10; 43; 25; 39;
    41; 45; 15; 21; 8;
    18; 2; 61; 56; 14 ].

Definition lane (A : list Z) (x y : nat) : Z :=
  nth (x mod 5 + 5 * (y mod 5))%nat A 0.

Definition grid (f : nat -> nat -> Z) : list Z :=
  map (fun i => f (i mod 5)%nat (i / 5)%nat) (seq 0 25).

Definition theta (A : list Z) : list Z :=
  let C :=
    map (fun x => Z.lxor (lane A x 0) (Z.lxor (lane A x 1)
                   (Z.lxor (lane A x 2) (Z.lxor (lane A x 3) (lane A x 4)))))
        (seq 0 5) in
  let D :=
    map (fun x => Z.lxor (nth ((x + 4) mod 5)%nat C 0)
                         (rotl64 (nth ((x + 1) mod 5)%nat C 0) 1))
        (seq 0 5) in
  grid (fun x y => Z.lxor (lane A x y) (nth x D 0)).

(** rho and pi together: [B[y, 2x+3y] = rot (A[x,y], r[x,y])], read from
    the target position [(X, Y)], whose source is [((X + 3Y) mod 5, X)]. *)
Definition rho_pi (A : list Z) : list Z :=
  grid (fun X Y =>
    let x := ((X + 3 * Y) mod 5)%nat in
    rotl64 (lane A x X) (nth (x + 5 * X)%nat rotation_offsets 0)).

Definition chi (B : list Z) : list Z :=
  grid (fun x y =>
    Z.lxor (lane B x y)
      (Z.land (Z.lxor (lane B (x + 1) y) lane_mask) (lane B (x + 2) y))).

Definition iota (rc : Z) (A : list Z) : list Z :=
  match A with
  | [] => []
  | a :: rest => Z.lxor a rc :: rest
  end.

Definition keccak_f (A : list Z) : list Z :=
  fold_left (fun st rc => iota rc (chi (rho_pi (theta st)))) round_constants A.

Definition rate : nat := 136.

Definition pad (msg : list byte) : list byte :=
  let q := (rate - (length msg mod rate))%nat in
  if (q =? 1)%nat then msg ++ [x81]
  else msg ++ [x01] ++ repeat x00 (q - 2) ++ [x80].

Fixpoint lanes_of_bytes (n : nat) (bs : list byte) : list Z :=
  match n with
  | O => []
  | S k => le_value (firstn 8 bs) :: lanes_of_bytes k (skipn 8 bs)
  end.

Fixpoint xor_lanes (A B : list Z) : list Z :=
  match A, B with
  | a :: A', b :: B' => Z.lxor a b :: xor_lanes A' B'
  | _, [] => A
  | [], _ => []
  end.

Fixpoint absorb (blocks : nat) (bs : list byte) (A : list Z) : list Z :=
  match blocks with
  | O => A
  | S k =>
      let A' := keccak_f (xor_lanes A (lanes_of_bytes 17 (firstn rate bs))) in
      absorb k (skipn rate bs) A'
  end.

Definition digest (msg : list byte) : list byte :=
  let p := pad msg in
  let A := absorb (length p / rate) p (repeat 0 25) in
  concat (map (le_bytes 8) (firstn 4 A)).

(** The 32-byte digest read as a [bytes32] / [uint256] value. *)
Definition keccak256 (msg : list byte) : Z := be_value (digest msg).

End Keccak.

(** ** Contract ABI coding

    The head/tail encoding of the Solidity ABI for the types the protocol
    uses: [uint256], [address], [bytes], [string], tuples (structs) and
    dynamic arrays.  [encode] is Solidity's [abi.encode] and ethers'
    [AbiCoder.encode]; [decode] is [abi.decode] / [AbiCoder.decode]. *)

Module Abi.
Import Word.

Inductive ty : Type :=
| TUint256
| TAddress
| TBytes
| TString
| TTuple (ts : list ty)
| TArray (t : ty).

Inductive val : Type :=
| VUint (z : Z)
| VAddress (a : Z)
| VBytes (bs : list byte)
| VString (s : string)
| VTuple (vs : list val)
| VArray (vs : list val).

Fixpoint ty_dynamic (t : ty) : bool :=
  match t with
  | TUint256 | TAddress => false
  | TBytes | TString | TArray _ => true
  | TTuple ts => existsb ty_dynamic ts
  end.

Fixpoint val_dynamic (v : val) : bool :=
  match v with
  | VUint _ | VAddress _ => false
  | VBytes _ | VString _ | VArray _ => true
  | VTuple vs => existsb val_dynamic vs
  end.

(** Size of the head slot of a component: a dynamic component leaves a
    32-byte offset, a static one its whole encoding. *)
Fixpoint head_size (t : ty) : nat :=
  match t with
  | TUint256 | TAddress => 32
  | TBytes | TString | TArray _ => 32
  | TTuple ts =>
      if existsb ty_dynamic ts then 32
      else fold_right (fun t acc => head_size t + acc)%nat O ts
  end.

Definition pad_right (bs : list byte) : list byte :=
  bs ++ repeat x00 ((32 - length bs mod 32) mod 32).

Definition enc_bytes (bs : list byte) : list byte :=
  be_bytes 32 (Z.of_nat (length bs)) ++ pad_right bs.

(** Heads then tails; the offset of a dynamic component counts from the
    start of the sequence. *)
Fixpoint assemble_from (parts : list (bool * list byte)) (off : nat)
  : list byte * list byte :=
  match parts with
  | [] => ([], [])
  | (dyn, e) :: rest =>
      let '(hs, ts) :=
        assemble_from rest (if dyn : bool then off + length e else off)%nat in
      if dyn then (be_bytes 32 (Z.of_nat off) ++ hs, e ++ ts)
      else (e ++ hs, ts)
  end.

Definition assemble (parts : list (bool * list byte)) : list byte :=
  let head_total :=
    fold_right
      (fun p acc => (if fst p : bool then 32 else length (snd p)) + acc)%nat
      O parts in
  let '(hs, ts) := assemble_from parts head_total in
  hs ++ ts.

Fixpoint enc (v : val) : list byte :=
  match v with
  | VUint z => be_bytes 32 z
  | VAddress a => be_bytes 32 a
  | VBytes bs => enc_bytes bs
  | VString s => enc_bytes (list_byte_of_string s)
  | VTuple vs => assemble (map (fun v => (val_dynamic v, enc v)) vs)
  | VArray vs =>
      be_bytes 32 (Z.of_nat (length vs))
      ++ assemble (map (fun v => (val_dynamic v, enc v)) vs)
  end.

(** [abi.encode(v1, ..., vn)]. *)
Definition encode (vs : list val) : list byte := enc (VTuple vs).

Definition word_at (data : list byte) (pos : nat) : option Z :=
  let w := firstn 32 (skipn pos data) in
  if (length w =? 32)%nat then Some (be_value w) else None.

(** A length or offset read from the data, refused when it points past
    the end of the data. *)
Definition index_at (data : list byte) (pos : nat) : option nat :=
  match word_at data pos with
  | Some w => if w <=? Z.of_nat (length data) then Some (Z.to_nat w) else None
  | None => None
  end.

Definition bytes_at (data : list byte) (pos : nat) : option (list byte) :=
  match index_at data pos with
  | Some len =>
      let bs := firstn len (skipn (pos + 32) data) in
      if (length bs =? len)%nat then Some bs else None
  | None => None
  end.

Fixpoint dec (t : ty) (data : list byte) (pos : nat) {struct t} : option val :=
  match t with
  | TUint256 => option_map VUint (word_at data pos)
  | TAddress =>
      match word_at data pos with
      | Some w => if is_address w then Some (VAddress w) else None
      | None => None
      end
  | TBytes => option_map VBytes (bytes_at data pos)
  | TString =>
      option_map (fun bs => VString (string_of_list_byte bs)) (bytes_at data pos)
  | TTuple ts =>
      option_map VTuple
      ((fix components (ts : list ty) (hd : nat) {struct ts} : option (list val) :=
         match ts with
         | [] => Some []
         | t :: ts' =>
             let here :=
               if ty_dynamic t then
                 match index_at data hd with
                 | Some off => dec t data (pos + off)
                 | None => None
                 end
               else dec t data hd in
             match here, components ts' (hd + head_size t)%nat with
             | Some v, Some vs => Some (v :: vs)
             | _, _ => None
             end
         end) ts pos)
  | TArray t =>
      match index_at data pos with
      | Some n =>
          let base := (pos + 32)%nat in
          option_map VArray
          ((fix elements (k : nat) (hd : nat) {struct k} : option (list val) :=
             match k with
             | O => Some []
             | S k' =>
                 let here :=
                   if ty_dynamic t then
                     match index_at data hd with
                     | Some off => dec t data (base + off)
                     | None => None
                     end
                   else dec t data hd in
                 match here, elements k' (hd + head_size t)%nat with
                 | Some v, Some vs => Some (v :: vs)
                 | _, _ => None
                 end
             end) n base)
      | None => None
      end
  end.

(** [abi.decode(data, (t1, ..., tn))]. *)
Definition decode (ts : list ty) (data : list byte) : option (list val) :=
  match dec (TTuple ts) data 0 with
  | Some (VTuple vs) => Some vs
  | _ => None
  end.

(** [abi.encodePacked] of an [address] and of a [uint256]: no padding. *)
Definition packed_address (a : Z) : list byte := be_bytes 20 a.
Definition packed_uint256 (z : Z) : list byte := be_bytes 32 z.

End Abi.

(** ** Solidity: data of the KRNL platform and of the token contract *)

Module Sol.

(** [KrnlPayload] and [KernelResponse] are declared in [KRNL.sol]. *)
Record KrnlPayload := {
  auth : list byte;
  kernelResponses : list byte;
  kernelParams : list byte
}.

Record KernelResponse := {
  kernelId : Z;
  result : list byte;
  err : string
}.

(** The main payload with the transaction decision; the contract and the
    test script declare the same struct, field for field. *)
Record WebhookPayload := {
  createdAt : string;
  customerId : string;
  externalTransactionId : string;
  id : string;
  reason : string;
  riskLevel : string;
  riskScore : Z;
  status : string;
  transactionDate : string;
  transactionId : string;
  transactionType : string;
  updatedAt : string;
  workspaceId : string
}.

Record WebhookResponse := {
  eventType : string;
  payload : WebhookPayload
}.

(** The value a Solidity mapping returns for a key never written. *)
Definition empty_WebhookPayload : WebhookPayload :=
  {| createdAt := EmptyString; customerId := EmptyString;
     externalTransactionId := EmptyString; id := EmptyString;
     reason := EmptyString; riskLevel := EmptyString; riskScore := 0;
     status := EmptyString; transactionDate := EmptyString;
     transactionId := EmptyString; transactionType := EmptyString;
     updatedAt := EmptyString; workspaceId := EmptyString |}.

Definition empty_WebhookResponse : WebhookResponse :=
  {| eventType := EmptyString; payload := empty_WebhookPayload |}.

(** The events that [ERC20] and [TokenContract] declare; the log of a
    storage holds these. *)
Inductive Event :=
| TransferAssessed (from to : Z) (amount : Z) (status : string)
                   (allowed : bool) (timestamp : Z)
| Transfer (from to : Z) (value : Z)
| Approval (owner spender : Z) (value : Z).

Inductive RevertReason :=
| Error (message : string)
| UnauthorizedTransaction
| AbiDecodeFailure
| ERC20InsufficientBalance (sender : Z) (balance needed : Z)
| ERC20InvalidSender (sender : Z)
| ERC20InvalidReceiver (receiver : Z)
| ERC20InsufficientAllowance (spender : Z) (allowance needed : Z)
| ERC20InvalidApprover (approver : Z)
| ERC20InvalidSpender (spender : Z).

(** Contract storage, with the event log of the running transaction. *)
Record State := {
  _balances : gmap Z Z;
  _allowances : gmap (Z * Z) Z;
  _totalSupply : Z;
  contractOwner : Z;
  transferAssessments : gmap Z WebhookResponse;
  logs : list Event
}.

(** [msg.sender] and [block.timestamp] of a call. *)
Record Call := {
  msg_sender : Z;
  block_timestamp : Z
}.

Inductive Outcome (A : Type) :=
| Return (a : A) (st : State)
| Revert (r : RevertReason).
Arguments Return {A} a st.
Arguments Revert {A} r.

Definition M (A : Type) : Type := State -> Outcome A.

Definition ret {A} (a : A) : M A := fun st => Return a st.

Definition bind {A B} (c : M A) (k : A -> M B) : M B :=
  fun st =>
    match c st with
    | Return a st' => k a st'
    | Revert r => Revert r
    end.

Definition revert {A} (r : RevertReason) : M A := fun _ => Revert r.

Definition require (cond : bool) (message : string) : M unit :=
  if cond then ret tt else revert (Error message).

Definition emit (e : Event) : M unit :=
  fun st =>
    Return tt {| _balances := _balances st; _allowances := _allowances st;
                 _totalSupply := _totalSupply st;
                 contractOwner := contractOwner st;
                 transferAssessments := transferAssessments st;
                 logs := logs st ++ [e] |}.

Definition get : M State := fun st => Return st st.

Definition returned {A} (o : Outcome A) : option A :=
  match o with
  | Return a _ => Some a
  | Revert _ => None
  end.

(** A transaction: the storage after it, and the revert reason if it
    failed.  A reverted call leaves the storage and the log as they were. *)
Definition execute {A} (c : M A) (st : State) : State * option RevertReason :=
  match c st with
  | Return _ st' => (st', None)
  | Revert r => (st, Some r)
  end.

End Sol.

Declare Scope sol_scope.
Delimit Scope sol_scope with sol.
Notation "'let*' x ':=' c 'in' k" :=
  (Sol.bind c (fun x => k))
  (at level 10, x pattern, c at level 100, k at level 200) : sol_scope.
Notation "c ';;' k" :=
  (Sol.bind c (fun _ => k))
  (at level 100, k at level 200, right associativity) : sol_scope.

(** ** ABI coding of the contract's structs *)

Module SolAbi.
Import Sol Abi.

Definition KernelResponse_ty : ty := TTuple [TUint256; TBytes; TString].

Definition WebhookPayload_ty : ty :=
  TTuple [TString; TString; TString; TString; TString; TString; TUint256;
          TString; TString; TString; TString; TString; TString].

Definition WebhookResponse_ty : ty := TTuple [TString; WebhookPayload_ty].

Definition val_of_KernelResponse (r : KernelResponse) : val :=
  VTuple [VUint (kernelId r); VBytes (result r); VString (err r)].

Definition KernelResponse_of_val (v : val) : option KernelResponse :=
  match v with
  | VTuple [VUint k; VBytes r; VString e] =>
      Some {| kernelId := k; result := r; err := e |}
  | _ => None
  end.

Definition val_of_WebhookPayload (p : WebhookPayload) : val :=
  VTuple [VString (createdAt p); VString (customerId p);
          VString (externalTransactionId p); VString (id p);
          VString (reason p); VString (riskLevel p); VUint (riskScore p);
          VString (status p); VString (transactionDate p);
          VString (transactionId p); VString (transactionType p);
          VString (updatedAt p); VString (workspaceId p)].

Definition WebhookPayload_of_val (v : val) : option WebhookPayload :=
  match v with
  | VTuple [VString a; VString b; VString c; VString d; VString e; VString f;
            VUint g; VString h; VString i; VString j; VString k; VString l;
            VString m] =>
      Some {| createdAt := a; customerId := b; externalTransactionId := c;
              id := d; reason := e; riskLevel := f; riskScore := g;
              status := h; transactionDate := i; transactionId := j;
              transactionType := k; updatedAt := l; workspaceId := m |}
  | _ => None
  end.

Definition val_of_WebhookResponse (r : WebhookResponse) : val :=
  VTuple [VString (eventType r); val_of_WebhookPayload (payload r)].

Definition WebhookResponse_of_val (v : val) : option WebhookResponse :=
  match v with
  | VTuple [VString e; p] =>
      option_map (fun p => {| eventType := e; payload := p |})
                 (WebhookPayload_of_val p)
  | _ => None
  end.

Fixpoint all_some {A} (xs : list (option A)) : option (list A) :=
  match xs with
  | [] => Some []
  | Some x :: rest => option_map (cons x) (all_some rest)
  | None :: _ => None
  end.

(** [abi.encode(response)] for a [WebhookResponse] *)
Definition encode_WebhookResponse (r : WebhookResponse) : list byte :=
  encode [val_of_WebhookResponse r].

(** [abi.decode(data, (WebhookResponse))] *)
Definition decode_WebhookResponse (data : list byte) : option WebhookResponse :=
  match decode [WebhookResponse_ty] data with
  | Some [v] => WebhookResponse_of_val v
  | _ => None
  end.

(** [abi.encode(kernelResponses)] for a [KernelResponse[]] *)
Definition encode_KernelResponses (rs : list KernelResponse) : list byte :=
  encode [VArray (map val_of_KernelResponse rs)].

(** [abi.decode(data, (KernelResponse[]))] *)
Definition decode_KernelResponses (data : list byte)
  : option (list KernelResponse) :=
  match decode [TArray KernelResponse_ty] data with
  | Some [VArray vs] => all_some (map KernelResponse_of_val vs)
  | _ => None
  end.

End SolAbi.

(** ** OpenZeppelin's [ERC20], the base contract of [TokenContract]

    The library is imported by the contract and is not part of the
    repository; these are its internal functions as published (v5). *)

Module ERC20.
Import Word Sol.
Local Open Scope sol_scope.

Definition balanceOf (st : State) (account : Z) : Z :=
  default 0 (_balances st !! account).

Definition allowance (st : State) (owner spender : Z) : Z :=
  default 0 (_allowances st !! (owner, spender)).

Definition set_balance (account value : Z) : M unit :=
  fun st =>
    Return tt {| _balances := <[account := value]> (_balances st);
                 _allowances := _allowances st;
                 _totalSupply := _totalSupply st;
                 contractOwner := contractOwner st;
                 transferAssessments := transferAssessments st;
                 logs := logs st |}.

Definition set_totalSupply (value : Z) : M unit :=
  fun st =>
    Return tt {| _balances := _balances st;
                 _allowances := _allowances st;
                 _totalSupply := value;
                 contractOwner := contractOwner st;
                 transferAssessments := transferAssessments st;
                 logs := logs st |}.

Definition set_allowance (owner spender value : Z) : M unit :=
  fun st =>
    Return tt {| _balances := _balances st;
                 _allowances := <[(owner, spender) := value]> (_allowances st);
                 _totalSupply := _totalSupply st;
                 contractOwner := contractOwner st;
                 transferAssessments := transferAssessments st;
                 logs := logs st |}.

Definition _update (from to value : Z) : M unit :=
  (if from =? 0 then
     (* checked addition: overflow reverts with a panic *)
     let* st := get in
     if _totalSupply st + value <=? uint256_max
     then set_totalSupply (_totalSupply st + value)
     else revert (Error "panic: arithmetic overflow")
   else
     let* st := get in
     let fromBalance := balanceOf st from in
     if fromBalance <? value
     then revert (ERC20InsufficientBalance from fromBalance value)
     else set_balance from (fromBalance - value)) ;;
  (if to =? 0 then
     let* st := get in
     set_totalSupply ((_totalSupply st - value) mod 2 ^ 256)
   else
     let* st := get in
     set_balance to ((balanceOf st to + value) mod 2 ^ 256)) ;;
  emit (Transfer from to value).

Definition _transfer (from to value : Z) : M unit :=
  if from =? 0 then revert (ERC20InvalidSender 0)
  else if to =? 0 then revert (ERC20InvalidReceiver 0)
  else _update from to value.

Definition _mint (account value : Z) : M unit :=
  if account =? 0 then revert (ERC20InvalidReceiver 0)
  else _update 0 account value.

Definition _approve (owner spender value : Z) (emitEvent : bool) : M unit :=
  if owner =? 0 then revert (ERC20InvalidApprover 0)
  else if spender =? 0 then revert (ERC20InvalidSpender 0)
  else
    set_allowance owner spender value ;;
    if emitEvent then emit (Approval owner spender value) else ret tt.

Definition _spendAllowance (owner spender value : Z) : M unit :=
  let* st := get in
  let currentAllowance := allowance st owner spender in
  if currentAllowance <? uint256_max then
    if currentAllowance <? value
    then revert (ERC20InsufficientAllowance spender currentAllowance value)
    else _approve owner spender (currentAllowance - value) false
  else ret tt.

End ERC20.

(** ** [TokenContract] *)

Module TokenContract.
Import Word Sol ERC20.
Local Open Scope sol_scope.

(** What the contract takes from its platform: the ABI decoder of the
    compiler for the two types it decodes, and the check behind the
    [onlyAuthorized] modifier that it inherits from [KRNL]. *)
Class Platform := {
  abi_decode_KernelResponses : list byte -> option (list KernelResponse);
  abi_decode_WebhookResponse : list byte -> option WebhookResponse;
  isAuthorized : KrnlPayload -> list byte -> bool
}.

Section Contract.
Context {platform : Platform}.

Definition set_contractOwner (owner : Z) : M unit :=
  fun st =>
    Return tt {| _balances := _balances st;
                 _allowances := _allowances st;
                 _totalSupply := _totalSupply st;
                 contractOwner := owner;
                 transferAssessments := transferAssessments st;
                 logs := logs st |}.

(** [constructor(address _tokenAuthorityPublicKey)
    KRNL(_tokenAuthorityPublicKey) ERC20("TrueMoney", "TM")].  The
    constructor of [KRNL] runs first.  [KRNL.sol] is not in the
    repository, so what it does is the parameter [KRNL]: for the call
    and the key it is given, it reverts with a reason or it runs
    through.  Its storage is its own, that of [ERC20] and of
    [TokenContract] is out of its reach, and what it may emit is none of
    [Event].  The constructor of [ERC20] keeps the name and the symbol,
    which no function of the contract reads.  Then the body: the
    deployer owns the contract and receives the initial supply of one
    million tokens. *)
Definition constructor (KRNL : Call -> Z -> option RevertReason)
    (ctx : Call) (_tokenAuthorityPublicKey : Z) : M unit :=
  match KRNL ctx _tokenAuthorityPublicKey with
  | Some reason => revert reason
  | None =>
      set_contractOwner (msg_sender ctx) ;;
      _mint (msg_sender ctx) (1000000 * 10 ^ 18)
  end.

(** [modifier onlyContractOwner] *)
Definition onlyContractOwner (ctx : Call) : M unit :=
  let* st := get in
  require (msg_sender ctx =? contractOwner st) "Not owner".

Definition setContractOwner (ctx : Call) (_contractOwner : Z) : M unit :=
  onlyContractOwner ctx ;;
  set_contractOwner _contractOwner.

(** [modifier onlyAuthorized(krnlPayload, params)] *)
Definition onlyAuthorized (krnlPayload : KrnlPayload) (params : list byte)
  : M unit :=
  if isAuthorized krnlPayload params then ret tt
  else revert UnauthorizedTransaction.

(** [keccak256(bytes(a)) == keccak256(bytes(b))] *)
Definition keccak_eq (a b : string) : bool :=
  Keccak.keccak256 (list_byte_of_string a)
  =? Keccak.keccak256 (list_byte_of_string b).

(** [keccak256(abi.encodePacked(from, to, amount, block.timestamp))] *)
Definition transferHash (from to amount timestamp : Z) : Z :=
  Keccak.keccak256
    (Abi.packed_address from ++ Abi.packed_address to
     ++ Abi.packed_uint256 amount ++ Abi.packed_uint256 timestamp).

Definition store_assessment (key : Z) (response : WebhookResponse) : M unit :=
  fun st =>
    Return tt {| _balances := _balances st;
                 _allowances := _allowances st;
                 _totalSupply := _totalSupply st;
                 contractOwner := contractOwner st;
                 transferAssessments :=
                   <[key := response]> (transferAssessments st);
                 logs := logs st |}.

(** The loop of [checkTransferAllowed] over the decoded responses: the
    first entry with kernel id 1657 decides, and ends the loop. *)
Fixpoint checkTransferAllowed_loop (ctx : Call)
    (kernelResponses : list KernelResponse) (from to amount : Z) : M bool :=
  match kernelResponses with
  | [] => ret false
  | r :: rest =>
      if kernelId r =? 1657 then
        match abi_decode_WebhookResponse (result r) with
        | None => revert AbiDecodeFailure
        | Some response =>
            store_assessment
              (transferHash from to amount (block_timestamp ctx)) response ;;
            let allowed :=
              if keccak_eq (status (payload response)) "approved"
              then true else false in
            emit (TransferAssessed from to amount (status (payload response))
                    allowed (block_timestamp ctx)) ;;
            ret allowed
        end
      else checkTransferAllowed_loop ctx rest from to amount
  end.

Definition checkTransferAllowed (ctx : Call) (krnlPayload : KrnlPayload)
    (from to amount : Z) : M bool :=
  match abi_decode_KernelResponses (kernelResponses krnlPayload) with
  | None => revert AbiDecodeFailure
  | Some kernelResponses =>
      checkTransferAllowed_loop ctx kernelResponses from to amount
  end.

Definition getTransferAssessment (st : State) (transferHash : Z)
  : WebhookResponse :=
  default empty_WebhookResponse (transferAssessments st !! transferHash).

Definition transfer (ctx : Call) (to amount : Z) : M bool :=
  revert (Error "Use transfer with KRNL payload").

Definition transferWithKRNL (ctx : Call) (to amount : Z)
    (krnlPayload : KrnlPayload) : M bool :=
  onlyAuthorized krnlPayload (Abi.encode [Abi.VAddress to; Abi.VUint amount]) ;;
  require (negb (to =? 0)) "ERC20: transfer to the zero address" ;;
  let* allowed :=
    checkTransferAllowed ctx krnlPayload (msg_sender ctx) to amount in
  require allowed "Transfer denied due to risk assessment" ;;
  _transfer (msg_sender ctx) to amount ;;
  ret true.

Definition transferFrom (ctx : Call) (from to amount : Z) : M bool :=
  revert (Error "Use transferFrom with KRNL payload").

Definition transferFromWithKRNL (ctx : Call) (from to amount : Z)
    (krnlPayload : KrnlPayload) : M bool :=
  onlyAuthorized krnlPayload
    (Abi.encode [Abi.VAddress from; Abi.VAddress to; Abi.VUint amount]) ;;
  require (negb (from =? 0)) "ERC20: transfer from the zero address" ;;
  require (negb (to =? 0)) "ERC20: transfer to the zero address" ;;
  let* allowed := checkTransferAllowed ctx krnlPayload from to amount in
  require allowed "Transfer denied due to risk assessment" ;;
  _spendAllowance from (msg_sender ctx) amount ;;
  _transfer from to amount ;;
  ret true.

End Contract.
End TokenContract.

(** ** The Forge script [TestTokenTransfer] *)

Module TestTokenTransfer.
Import Sol.

Record TestCase := {
  name : string;
  tc_status : string;
  tc_riskLevel : string;
  tc_reason : string;
  tc_riskScore : Z;
  expectedApproval : bool
}.

(** The five cases of [runTestCases]. *)
Definition testCases : list TestCase :=
  [ {| name := "Approved Low Risk Transfer"; tc_status := "approved";
       tc_riskLevel := "Low";
       tc_reason := "Transaction approved after risk assessment";
       tc_riskScore := 15; expectedApproval := true |};
    {| name := "Approved Medium Risk Transfer"; tc_status := "approved";
       tc_riskLevel := "Medium";
       tc_reason := "Transaction approved with enhanced monitoring";
       tc_riskScore := 45; expectedApproval := true |};
    {| name := "Rejected High Risk Transfer"; tc_status := "rejected";
       tc_riskLevel := "High";
       tc_reason := "High risk indicators detected - transaction blocked";
       tc_riskScore := 85; expectedApproval := false |};
    {| name := "Under Review Transfer"; tc_status := "under_review";
       tc_riskLevel := "Medium";
       tc_reason := "Transaction requires manual review";
       tc_riskScore := 55; expectedApproval := false |};
    {| name := "Pending Transfer"; tc_status := "pending";
       tc_riskLevel := "Low";
       tc_reason := "Awaiting risk assessment completion";
       tc_riskScore := 0; expectedApproval := false |} ].

(** The [WebhookResponse] that [generateTestPayload] builds. *)
Definition testResponse (status riskLevel reason : string) (riskScore : Z)
    (externalTransactionId : string) : WebhookResponse :=
  {| eventType := "transaction.updated";
     payload :=
       {| createdAt := "2024-01-15T10:30:00Z";
          customerId := "78d29773-8aa6-4b33-aa53-2ffca3adbe7e";
          externalTransactionId := externalTransactionId;
          id := "review-456789";
          reason := reason;
          riskLevel := riskLevel;
          riskScore := riskScore;
          status := status;
          transactionDate := "2024-01-15T10:30:00Z";
          transactionId := "compilot-tx-789";
          transactionType := "crypto";
          updatedAt := "2024-01-15T10:35:00Z";
          workspaceId := "workspace-123" |} |}.

Definition generateTestPayload (status riskLevel reason : string)
    (riskScore : Z) (externalTransactionId : string) : list byte :=
  let response :=
    testResponse status riskLevel reason riskScore externalTransactionId in
  let kernelResponses :=
    [ {| kernelId := 1657;
         result := SolAbi.encode_WebhookResponse response;
         err := EmptyString |} ] in
  SolAbi.encode_KernelResponses kernelResponses.

Definition simulateTokenTransferVerification (payload : WebhookPayload) : bool :=
  if negb (TokenContract.keccak_eq (status payload) "approved") then false
  else if TokenContract.keccak_eq (riskLevel payload) "High" then false
  else if riskScore payload >? 90 then false
  else true.

End TestTokenTransfer.

(** ** JavaScript values

    A number is kept as the decimal numeral that [toString] prints for
    it: [Finite m e] is [m * 10^-e].  The binary rounding of doubles is
    outside the model.  An object is the list of its properties in the
    order in which they were written, which is the order of JavaScript
    for keys that are not array indices (those JavaScript lists first);
    an array has its items and no named property. *)

Module JS.

Inductive number :=
| NaN
| Infinity (negative : bool)
| Finite (mantissa : Z) (scale : nat).

Inductive value :=
| JUndefined
| JNull
| JBool (b : bool)
| JNumber (n : number)
| JString (s : string)
| JArray (items : list value)
| JObject (props : list (string * value)).

Definition number_truthy (n : number) : bool :=
  match n with
  | NaN => false
  | Infinity _ => true
  | Finite m _ => negb (m =? 0)
  end.

(** [n <= 0] *)
Definition number_le_zero (n : number) : bool :=
  match n with
  | NaN => false
  | Infinity negative => negative
  | Finite m _ => m <=? 0
  end.

Definition truthy (v : value) : bool :=
  match v with
  | JUndefined | JNull => false
  | JBool b => b
  | JNumber n => number_truthy n
  | JString s => negb (String.eqb s EmptyString)
  | JArray _ | JObject _ => true
  end.

(** [a || b] *)
Definition or_else (a b : value) : value := if truthy a then a else b.

Fixpoint lookup_prop (props : list (string * value)) (key : string)
  : option value :=
  match props with
  | [] => None
  | (k, v) :: rest => if String.eqb k key then Some v else lookup_prop rest key
  end.

(** [v.key] on a value that is neither [null] nor [undefined]. *)
Definition member (v : value) (key : string) : value :=
  match v with
  | JObject props =>
      match lookup_prop props key with
      | Some x => x
      | None => JUndefined
      end
  | _ => JUndefined
  end.

(** [key in v] for a plain object. *)
Definition has_prop (props : list (string * value)) (key : string) : bool :=
  match lookup_prop props key with Some _ => true | None => false end.

(** [obj.key = v]: an existing key keeps its place, a new one goes last. *)
Fixpoint set_prop (props : list (string * value)) (key : string) (v : value)
  : list (string * value) :=
  match props with
  | [] => [(key, v)]
  | (k, old) :: rest =>
      if String.eqb k key then (k, v) :: rest
      else (k, old) :: set_prop rest key v
  end.

Definition remove_prop (props : list (string * value)) (key : string)
  : list (string * value) :=
  List.filter (fun kv => negb (String.eqb (fst kv) key)) props.

(** [{ ...a, ...b }] on property lists. *)
Definition spread (a b : list (string * value)) : list (string * value) :=
  fold_left (fun acc kv => set_prop acc (fst kv) (snd kv)) b a.

Definition digit_ascii (d : Z) : ascii := ascii_of_N (48 + Z.to_N d).

(** Exactly [k] decimal digits of [n], most significant first. *)
Fixpoint digits_fixed (k : nat) (n : Z) : list ascii :=
  match k with
  | O => []
  | S k' => digits_fixed k' (n / 10) ++ [digit_ascii (n mod 10)]
  end.

Fixpoint strip_leading_zeros (cs : list ascii) : list ascii :=
  match cs with
  | c :: ((_ :: _) as rest) =>
      if Ascii.eqb c "0" then strip_leading_zeros rest else cs
  | _ => cs
  end.

(** An upper bound on the number of decimal digits of an integer. *)
Definition digit_count (n : Z) : nat := S (Z.to_nat (Z.log2 n)).

Definition integer_chars (n : Z) : list ascii :=
  strip_leading_zeros (digits_fixed (digit_count n) n).

(** Drop the trailing zeros of the fraction. *)
Fixpoint normalize (m : Z) (e : nat) : Z * nat :=
  match e with
  | O => (m, O)
  | S e' => if m mod 10 =? 0 then normalize (m / 10) e' else (m, e)
  end.

(** Whole trailing zeros of an integer mantissa, for the exponent form. *)
Fixpoint strip_trailing_zeros (fuel : nat) (m : Z) : Z :=
  match fuel with
  | O => m
  | S f => if (m mod 10 =? 0) && negb (m =? 0)
           then strip_trailing_zeros f (m / 10) else m
  end.

(** A number prints in exponent form from [1e21] on and below [1e-6]. *)
Definition uses_exponent (a : Z) (e : nat) : bool :=
  (10 ^ 21 * 10 ^ Z.of_nat e <=? a) || (a * 10 ^ 6 <? 10 ^ Z.of_nat e).

(** [d.ddd e+-x] *)
Definition exponent_chars (a : Z) (e : nat) : list ascii :=
  let all := integer_chars a in
  let sig := integer_chars (strip_trailing_zeros (length all) a) in
  let x := Z.of_nat (length all) - 1 - Z.of_nat e in
  take 1 sig
  ++ (if (length sig =? 1)%nat then [] else "."%char :: drop 1 sig)
  ++ "e"%char :: (if x <? 0 then "-"%char else "+"%char)
     :: integer_chars (Z.abs x).

Definition number_chars (n : number) : list ascii :=
  match n with
  | NaN => list_ascii_of_string "NaN"
  | Infinity negative =>
      list_ascii_of_string (if negative then "-Infinity" else "Infinity")
  | Finite m e =>
      let '(m', e') := normalize m e in
      let a := Z.abs m' in
      if a =? 0 then ["0"%char]
      else
        (if m' <? 0 then ["-"%char] else [])
        ++ (if uses_exponent a e' then exponent_chars a e'
            else
              integer_chars (a / 10 ^ Z.of_nat e')
              ++ (if (e' =? 0)%nat then []
                  else "."%char :: digits_fixed e' (a mod 10 ^ Z.of_nat e')))
  end.

(** [Number.prototype.toString()] *)
Definition number_toString (n : number) : string :=
  string_of_list_ascii (number_chars n).

End JS.

(** ** The ethers library, as far as the builder calls it *)

Module Ethers.
Import Word.

Definition is_digit (c : ascii) : bool :=
  (48 <=? N_of_ascii c)%N && (N_of_ascii c <=? 57)%N.

(** The longest prefix of digits, and what follows it. *)
Fixpoint span_digits (cs : list ascii) : list ascii * list ascii :=
  match cs with
  | c :: rest =>
      if is_digit c then
        let '(ds, tl) := span_digits rest in (c :: ds, tl)
      else ([], cs)
  | [] => ([], [])
  end.

Definition digit_value (c : ascii) : Z := Z.of_N (N_of_ascii c) - 48.

(** [BigInt(s)] for a string of digits. *)
Definition digits_value (cs : list ascii) : Z :=
  fold_left (fun acc c => acc * 10 + digit_value c) cs 0.

(** The digits of a fixed-point value, once the sign is read: digits, an
    optional point, digits, and nothing else; then the padding of the
    fraction, the refusal of excess decimals and of overflow. *)
Definition parse_unsigned (negative : bool) (s1 : list ascii) (decimals : nat)
  : option Z :=
  let '(whole, s2) := span_digits s1 in
  let s3 :=
    match s2 with
    | c :: rest => if Ascii.eqb c "." then rest else s2
    | [] => s2
    end in
  let '(frac, s4) := span_digits s3 in
  match s4 with
  | _ :: _ => None
  | [] =>
      if (length whole + length frac =? 0)%nat then None
      else
        let whole := match whole with [] => ["0"%char] | _ => whole end in
        let padded := frac ++ repeat "0"%char (decimals - length frac) in
        if negb (forallb (Ascii.eqb "0") (drop decimals padded)) then None
        else
          let magnitude := digits_value (whole ++ take decimals padded) in
          let v := if negative then - magnitude else magnitude in
          if (- 2 ^ 511 <=? v) && (v <? 2 ^ 511) then Some v else None
  end.

(** [FixedNumber.fromString(value, {decimals, width: 512}).value] on the
    characters of [value]. *)
Definition parse_fixed (cs : list ascii) (decimals : nat) : option Z :=
  match cs with
  | c :: rest =>
      if Ascii.eqb c "-" then parse_unsigned true rest decimals
      else parse_unsigned false cs decimals
  | [] => parse_unsigned false cs decimals
  end.

(** [parseUnits(value, decimals)] *)
Definition parseUnits (value : string) (decimals : nat) : option Z :=
  parse_fixed (list_ascii_of_string value) decimals.

(** [getAddress], the address parser behind the ["address"] coder and
    [isAddress]: it accepts hexadecimal addresses (checking the checksum
    of a mixed-case one) and ICAP addresses, and throws on anything else. *)
Class AddressParser := {
  getAddress : string -> option Z
}.

(** The ["uint256"] coder refuses a value outside [0, 2^256). *)
Definition check_uint256 (v : Z) : option Z :=
  if is_uint256 v then Some v else None.

(** [AbiCoder.decode(["address", "uint256"], data)] *)
Definition decode_address_uint256 (data : list byte) : option (Z * Z) :=
  match Abi.decode [Abi.TAddress; Abi.TUint256] data with
  | Some [Abi.VAddress a; Abi.VUint v] => Some (a, v)
  | _ => None
  end.

End Ethers.

(** ** The attestation request builder *)

Module Builder.
Import Word JS Ethers.

(** The module [./config]. *)
Record Config := {
  ENTRY_ID : string;
  ACCESS_TOKEN : string;
  KERNEL_ID : string
}.

(** What one run reads from its surroundings: [Date.now()],
    [new Date().toISOString()] and [Math.random().toString(36)]. *)
Record Ambient := {
  Date_now : Z;
  Date_toISOString : string;
  Math_random_toString36 : string
}.

Inductive Exception :=
| Error (message : string)
| TypeError
| InvalidArgument (argument : string).

(** How a run of a builder function ends: by throwing, or by its one
    network call, [krnlProvider.executeKernels], whose answer it returns
    as it is. *)
Inductive Step :=
| Throw (e : Exception)
| ExecuteKernels (entryId accessToken : string) (kernelRequestData : value)
                 (functionParams : list byte).

(** [ethers.parseUnits(amount.toString(), 18)], for [amount: number | string] *)
Definition toWei (amount : value) : option Z :=
  match amount with
  | JNumber n => parseUnits (number_toString n) 18
  | JString s => parseUnits s 18
  | _ => None
  end.

(** [`tx-${Date.now()}-${Math.random().toString(36).substring(2, 10)}`] *)
Definition generateTransactionId (amb : Ambient) : string :=
  "tx-" +:+ pretty (Date_now amb) +:+ "-"
  +:+ substring 2 8 (Math_random_toString36 amb).

(** The object literal under ["body"], shared by both builders up to the
    transaction id and the amount. *)
Definition requestBody (amb : Ambient) (uniqueTransactionId amount : value)
  : value :=
  JObject [
    ("customerId", JString "78d29773-8aa6-4b33-aa53-2ffca3adbe7e");
    ("externalTransactionId", uniqueTransactionId);
    ("transactionDate", JString (Date_toISOString amb));
    ("transactionType", JString "crypto");
    ("transactionSubType", JString "wallet transfer");
    ("transactionInfo", JObject [
       ("direction", JString "IN");
       ("currencyCode", JString "ETH");
       ("blockchain", JString "eip155");
       ("chainId", JString "1");
       ("hash", JString
          "0x89c195a8b61fb201ce1fb31c6c5c28d3915d49bbb83b86d634f5646e02d6b323");
       ("amount", amount);
       ("fees", JObject [
          ("networkFeeAmount", JNumber (Finite 2 3));
          ("platformFeeAmount", JNumber (Finite 1 3));
          ("networkFeeCurrencyCode", JString "ETH");
          ("platformFeeCurrencyCode", JString "ETH")])]);
    ("originator", JObject [
       ("type", JString "individual");
       ("name", JString "Bob Smith");
       ("transactionMethod", JObject [
          ("type", JString "crypto");
          ("accountId", JString "0x7B5f55aE4f1Cb8a6bE0a9cD1FeE8F8C4cCfF9a3D")])]);
    ("beneficiary", JObject [
       ("type", JString "individual");
       ("name", JString "Alice Carter");
       ("transactionMethod", JObject [
          ("type", JString "crypto");
          ("accountId", JString "0x4E6f1cB8C7A2E3A2DeAb69c4e0A9F798D6FcF8B8")]);
       ("institution", JObject [
          ("name", JString "Binance");
          ("code", JString "BINANCE123")])])].

Definition kernelRequest (sender : value) (kernelId : string) (body : value)
  : value :=
  JObject [
    ("senderAddress", sender);
    ("kernelPayload", JObject [
       (kernelId, JObject [
          ("parameters", JObject [
             ("query", JObject [("waitForWebhook", JString "true")]);
             ("header", JObject []);
             ("body", body)])])])].

Section Functions.
Context {parser : AddressParser} (config : Config).

(** The ["address"] coder: a string that [getAddress] accepts, written
    as the 20 bytes it stands for. *)
Definition encode_address (v : value) : option Z :=
  match v with
  | JString s =>
      match getAddress s with
      | Some a => if is_address a then Some a else None
      | None => None
      end
  | _ => None
  end.

(** [abiCoder.encode(["address", "uint256"], [recipient, amount])] *)
Definition encode_address_uint256 (recipient : value) (amount : Z)
  : option (list byte) :=
  match encode_address recipient, check_uint256 amount with
  | Some a, Some v => Some (Abi.encode [Abi.VAddress a; Abi.VUint v])
  | _, _ => None
  end.

(** [abiCoder.encode(["string", "uint256", "address"], [id, amount, address])] *)
Definition encode_string_uint256_address (id : value) (amount : Z)
    (address : value) : option (list byte) :=
  match id, check_uint256 amount, encode_address address with
  | JString s, Some v, Some a =>
      Some (Abi.encode [Abi.VString s; Abi.VUint v; Abi.VAddress a])
  | _, _, _ => None
  end.

Definition executeTokenTransfer (amb : Ambient)
    (sender recipient : value) (amount : number) : Step :=
  if negb (truthy sender) || negb (truthy recipient) then
    Throw (Error "Sender and recipient addresses are required")
  else if negb (number_truthy amount) || number_le_zero amount then
    Throw (Error "Amount must be greater than 0")
  else
    let kernelId := KERNEL_ID config in
    let uniqueTransactionId := generateTransactionId amb in
    let transactionAmount := amount in
    let kernelRequestData :=
      kernelRequest sender kernelId
        (requestBody amb (JString uniqueTransactionId) (JNumber (Finite 5 1))) in
    match toWei (JNumber transactionAmount) with
    | None => Throw (InvalidArgument "value")
    | Some wei =>
        match encode_address_uint256 recipient wei with
        | None => Throw (InvalidArgument "address")
        | Some functionParams =>
            ExecuteKernels (ENTRY_ID config) (ACCESS_TOKEN config)
                           kernelRequestData functionParams
        end
    end.

(** [customKernelId || KERNEL_ID] *)
Definition chosenKernelId (customKernelId : option string) : string :=
  match customKernelId with
  | Some k => if String.eqb k EmptyString then KERNEL_ID config else k
  | None => KERNEL_ID config
  end.

(** [target.key = v], which throws on a primitive.  On an array
    JavaScript adds a named property, for which [JArray] has no place:
    the array is left as it is, and the statements about [assign] leave
    arrays out. *)
Definition assign (target : value) (key : string) (v : value) : option value :=
  match target with
  | JObject props => Some (JObject (set_prop props key v))
  | JArray items => Some (JArray items)
  | _ => None
  end.

(** [executeKrnl] also writes to the [transactionData] it was given: the
    second component is that object as the run leaves it. *)
Definition executeKrnl (amb : Ambient) (address : value)
    (transactionData : value) (customKernelId : option string)
  : Step * value :=
  if negb (truthy address) then
    (Throw (Error "Wallet address is required"), transactionData)
  else if negb (truthy transactionData)
          || negb (truthy (member transactionData "externalTransactionId")) then
    (Throw (Error "Transaction data with externalTransactionId is required"),
     transactionData)
  else
    let kernelId := chosenKernelId customKernelId in
    let uniqueTransactionId :=
      or_else (member transactionData "externalTransactionId")
              (JString (generateTransactionId amb)) in
    let transactionAmount :=
      or_else (member transactionData "amount") (JNumber (Finite 1 1)) in
    let kernelRequestData :=
      kernelRequest address kernelId
        (requestBody amb uniqueTransactionId transactionAmount) in
    match assign transactionData "externalTransactionId" uniqueTransactionId with
    | None => (Throw TypeError, transactionData)
    | Some td1 =>
        let td2 :=
          if negb (truthy (member td1 "transactionInfo"))
          then assign td1 "transactionInfo" (JObject [])
          else Some td1 in
        match td2 with
        | None => (Throw TypeError, td1)
        | Some td2 =>
            match assign (member td2 "transactionInfo") "amount" transactionAmount with
            | None => (Throw TypeError, td2)
            | Some info =>
                match assign td2 "transactionInfo" info with
                | None => (Throw TypeError, td2)
                | Some td3 =>
                    match assign td3 "address" address with
                    | None => (Throw TypeError, td3)
                    | Some td4 =>
                        match toWei transactionAmount with
                        | None => (Throw (InvalidArgument "value"), td4)
                        | Some wei =>
                            match encode_string_uint256_address
                                    uniqueTransactionId wei address with
                            | None => (Throw (InvalidArgument "params"), td4)
                            | Some functionParams =>
                                (ExecuteKernels (ENTRY_ID config)
                                   (ACCESS_TOKEN config)
                                   kernelRequestData functionParams, td4)
                            end
                        end
                    end
                end
            end
        end
    end.

End Functions.
End Builder.

(** ** The risk proxy *)

Module RiskProxy.
Import JS.

Fixpoint processValue (value : JS.value) : JS.value :=
  match value with
  | JNull => JString "null"
  | JArray items => JArray (map processValue items)
  | JObject props => JObject (map (fun kv => (fst kv, processValue (snd kv))) props)
  | other => other
  end.

(** [{ walletAddress: address, ...rest }] with [rest] all of [data] but
    its [address]. *)
Definition renameTopAddressKey (data : value) : value :=
  match data with
  | JObject props =>
      if has_prop props "address" then
        let address := member data "address" in
        let rest := remove_prop props "address" in
        JObject (spread [("walletAddress", address)] rest)
      else data
  | _ => data
  end.

(** Destructuring throws on [null] and [undefined]; a property that is
    not there reads as [undefined]. *)
Definition filterRiskFields (data : value) : option value :=
  let renamed := renameTopAddressKey data in
  match renamed with
  | JNull | JUndefined => None
  | _ =>
      Some (JObject [
        ("walletAddress", member renamed "walletAddress");
        ("risk", member renamed "risk");
        ("riskReason", member renamed "riskReason");
        ("status", member renamed "status")])
  end.

(** One entry of the bulk endpoint's [batchResults]:
    [{ address, assessment }] or [{ address, error }]. *)
Definition batchResult (address : string) (outcome : value + value) : value :=
  match outcome with
  | inl assessment =>
      JObject [("address", JString address); ("assessment", assessment)]
  | inr error => JObject [("address", JString address); ("error", error)]
  end.

Fixpoint sequence {A} (xs : list (option A)) : option (list A) :=
  match xs with
  | [] => Some []
  | Some x :: rest => option_map (cons x) (sequence rest)
  | None :: _ => None
  end.

Definition processBatchResults (results : list value) : option (list value) :=
  sequence
    (map (fun result =>
            if truthy (member result "error") then
              Some (JObject [("walletAddress", member result "address");
                             ("error", member result "error")])
            else filterRiskFields (member result "assessment"))
         results).

(** What [res.json] sends: [JSON.stringify] leaves out the properties
    whose value is [undefined], and writes [null] for such an array item. *)
Fixpoint json (v : value) : value :=
  match v with
  | JArray items =>
      JArray (map (fun x => match x with JUndefined => JNull | _ => json x end)
                  items)
  | JObject props =>
      JObject (flat_map (fun kv => match snd kv with
                                   | JUndefined => []
                                   | _ => [(fst kv, json (snd kv))]
                                   end) props)
  | other => other
  end.

(** The body that [GET /api/risk/v2/entities/:address] and
    [POST /api/risk/v2/entities] answer with for the upstream [data]. *)
Definition entityResponse (data : value) : option value :=
  option_map json (filterRiskFields (processValue data)).

(** The [results] that [POST /api/wallet/analyze/bulk] answers with, for
    the upstream answers of one batch. *)
Definition bulkResults (batchResults : list value) : option value :=
  option_map (fun rs => json (JArray rs)) (processBatchResults batchResults).

End RiskProxy.

(** ** Vocabulary of the statements *)

Module Terms.
Import Sol TokenContract.

(** What the loop of [checkTransferAllowed] finds in a payload. *)
Inductive Decision :=
| Undecodable
| NoKernel1657
| Decided (response : WebhookResponse).

Definition is_1657 (r : KernelResponse) : bool := kernelId r =? 1657.

Definition decision `{Platform} (krnlPayload : KrnlPayload) : Decision :=
  match abi_decode_KernelResponses (kernelResponses krnlPayload) with
  | None => Undecodable
  | Some rs =>
      match List.find is_1657 rs with
      | None => NoKernel1657
      | Some r =>
          match abi_decode_WebhookResponse (result r) with
          | None => Undecodable
          | Some response => Decided response
          end
      end
  end.

(** The contract compares strings by their Keccak-256 digests; a string
    collides with ["approved"] when it has the digest without being the
    word. *)
Definition collision_free (s : string) : Prop :=
  keccak_eq s "approved" = true -> s = "approved".

(** The storage as [checkTransferAllowed] leaves it after a decision. *)
Definition assessed (ctx : Call) (from to amount : Z)
    (response : WebhookResponse) (allowed : bool) (st : State) : State :=
  {| _balances := _balances st;
     _allowances := _allowances st;
     _totalSupply := _totalSupply st;
     contractOwner := contractOwner st;
     transferAssessments :=
       <[transferHash from to amount (block_timestamp ctx) := response]>
         (transferAssessments st);
     logs := logs st ++ [TransferAssessed from to amount
                           (status (payload response)) allowed
                           (block_timestamp ctx)] |}.

(** The storage after [_update from to value], for two real accounts. *)
Definition moved (from to value : Z) (st : State) : State :=
  let debited :=
    <[from := ERC20.balanceOf st from - value]> (_balances st) in
  {| _balances :=
       <[to := (default 0 (debited !! to) + value) mod 2 ^ 256]> debited;
     _allowances := _allowances st;
     _totalSupply := _totalSupply st;
     contractOwner := contractOwner st;
     transferAssessments := transferAssessments st;
     logs := logs st ++ [Transfer from to value] |}.

(** The storage after [_approve owner spender value false]. *)
Definition spent (owner spender value : Z) (st : State) : State :=
  {| _balances := _balances st;
     _allowances := <[(owner, spender) := value]> (_allowances st);
     _totalSupply := _totalSupply st;
     contractOwner := contractOwner st;
     transferAssessments := transferAssessments st;
     logs := logs st |}.

(** The decision is an answer of kernel 1657 with status ["approved"]. *)
Definition approves (d : Decision) : Prop :=
  exists response,
    d = Decided response /\ status (payload response) = "approved".

(** [amount] tokens have gone from [from] to [to] between the storages
    [st] and [st']: the balance of [from] is lower by [amount] and that
    of [to] higher by it (added unchecked, so modulo [2^256]; an account
    that pays itself keeps its balance), and every other balance and the
    total supply are as they were. *)
Definition transferred (from to amount : Z) (st st' : State) : Prop :=
  (from <> to ->
   ERC20.balanceOf st' from = ERC20.balanceOf st from - amount
   /\ ERC20.balanceOf st' to
      = (ERC20.balanceOf st to + amount) mod 2 ^ 256)
  /\ (from = to ->
      ERC20.balanceOf st' to = ERC20.balanceOf st to mod 2 ^ 256)
  /\ (forall a, a <> from -> a <> to ->
                ERC20.balanceOf st' a = ERC20.balanceOf st a)
  /\ _totalSupply st' = _totalSupply st.

(** What the transfer has cost in allowances.  Nothing, when the owner
    sends the tokens ([spender] is [None]).  Else the allowance of
    [spender] over the tokens of [from] is lower by [amount], unless it
    is the largest [uint256], which is not spent, and no other allowance
    has changed. *)
Definition charged (from amount : Z) (spender : option Z) (st st' : State)
  : Prop :=
  match spender with
  | None =>
      forall owner other,
        ERC20.allowance st' owner other = ERC20.allowance st owner other
  | Some caller =>
      ERC20.allowance st' from caller
      = (if ERC20.allowance st from caller <? Word.uint256_max
         then ERC20.allowance st from caller - amount
         else ERC20.allowance st from caller)
      /\ (forall owner other,
            (owner, other) <> (from, caller) ->
            ERC20.allowance st' owner other = ERC20.allowance st owner other)
  end.

(** A call performs the transfer of [amount] from [from] to [to] on the
    storage [st] when it returns [true] and leaves a storage in which
    the tokens have gone from the one to the other, the allowance is
    charged, and the log has two more events, the assessment and then
    the [Transfer]. *)
Definition performed (from to amount : Z) (spender : option Z) (st : State)
    (o : Outcome bool) : Prop :=
  exists st',
    o = Return true st'
    /\ transferred from to amount st st'
    /\ charged from amount spender st st'
    /\ exists assessment,
         logs st' = logs st ++ [assessment; Transfer from to amount].

(** The value of [toWei] on the number [m * 10^-e]: nothing where the
    number prints in exponent form or with more than 18 decimals. *)
Definition scaled (m : Z) (e : nat) : option Z :=
  let '(m', e') := JS.normalize m e in
  if m' =? 0 then Some 0
  else if JS.uses_exponent (Z.abs m') e' then None
  else if (e' <=? 18)%nat then Some (m' * 10 ^ Z.of_nat (18 - e'))
  else None.

(** Where the builder puts the attestation body in its request. *)
Definition bodyOf (kernelId : string) (kernelRequestData : JS.value) : JS.value :=
  JS.member
    (JS.member
       (JS.member (JS.member kernelRequestData "kernelPayload") kernelId)
       "parameters")
    "body".

Definition is_alnum (c : ascii) : bool :=
  let n := N_of_ascii c in
  ((48 <=? n) && (n <=? 57) || (97 <=? n) && (n <=? 122)
   || (65 <=? n) && (n <=? 90))%N.

Fixpoint all_alnum (s : string) : bool :=
  match s with
  | String c rest => is_alnum c && all_alnum rest
  | EmptyString => true
  end.

(** What follows ["0."] in a printed number. *)
Definition fraction (s : string) : string :=
  substring 2 (String.length s - 2) s.

(** The keys of the object that the risk proxy answers with. *)
Definition keys (v : JS.value) : list string :=
  match v with
  | JS.JObject props => map fst props
  | _ => []
  end.

Definition riskFields : list string :=
  ["walletAddress"; "risk"; "riskReason"; "status"].

End Terms.

(** ** A concrete platform and sample data *)

Module Scenario.
Import Word Sol TokenContract.

Definition authority_key : list byte := list_byte_of_string "token-authority".

(** The token authority signs the encoded parameters of a call, here by
    a keyed digest of them. *)
Definition sign (params : list byte) : list byte :=
  be_bytes 32 (Keccak.keccak256 (authority_key ++ params)).

(** Modelled from the spec: [KRNL.sol], which holds the check behind
    [onlyAuthorized], is not among the sources.  The spec has [auth] an
    opaque signature of the token authority over the encoded parameters,
    which must match the parameters of the call byte for byte. *)
Definition verify (krnlPayload : KrnlPayload) (params : list byte) : bool :=
  (length (auth krnlPayload) =? 32)%nat
  && (be_value (auth krnlPayload) =? be_value (sign params)).

Definition evm : Platform :=
  {| abi_decode_KernelResponses := SolAbi.decode_KernelResponses;
     abi_decode_WebhookResponse := SolAbi.decode_WebhookResponse;
     isAuthorized := verify |}.

Definition hex_digit (c : ascii) : option Z :=
  let n := Z.of_N (N_of_ascii c) in
  if (48 <=? n) && (n <=? 57) then Some (n - 48)
  else if (97 <=? n) && (n <=? 102) then Some (n - 87)
  else if (65 <=? n) && (n <=? 70) then Some (n - 55)
  else None.

Fixpoint hex_value_from (acc : Z) (s : string) : option Z :=
  match s with
  | EmptyString => Some acc
  | String c rest =>
      match hex_digit c with
      | Some d => hex_value_from (acc * 16 + d) rest
      | None => None
      end
  end.

Definition to_lower (c : ascii) : ascii :=
  let n := N_of_ascii c in
  if ((65 <=? n) && (n <=? 90))%N then ascii_of_N (n + 32) else c.

Definition to_upper (c : ascii) : ascii :=
  let n := N_of_ascii c in
  if ((97 <=? n) && (n <=? 122))%N then ascii_of_N (n - 32) else c.

Fixpoint map_string (f : ascii -> ascii) (s : string) : string :=
  match s with
  | EmptyString => EmptyString
  | String c rest => String (f c) (map_string f rest)
  end.

Fixpoint exists_string (f : ascii -> bool) (s : string) : bool :=
  match s with
  | EmptyString => false
  | String c rest => f c || exists_string f rest
  end.

Definition nibbles (bs : list byte) : list Z :=
  flat_map (fun b => [Z_of_byte b / 16; Z_of_byte b mod 16]) bs.

Fixpoint apply_checksum (s : string) (ns : list Z) : string :=
  match s, ns with
  | String c rest, n :: ns' =>
      String (if 8 <=? n then to_upper c else c) (apply_checksum rest ns')
  | _, _ => s
  end.

(** The mixed-case checksum of a hexadecimal address (EIP-55). *)
Definition getChecksumAddress (hex40 : string) : string :=
  let lower := map_string to_lower hex40 in
  apply_checksum lower (nibbles (Keccak.digest (list_byte_of_string lower))).

Definition is_upper_hex (c : ascii) : bool :=
  let n := N_of_ascii c in ((65 <=? n) && (n <=? 70))%N.

Definition is_lower_hex (c : ascii) : bool :=
  let n := N_of_ascii c in ((97 <=? n) && (n <=? 102))%N.

(** The hexadecimal branch of ethers' [getAddress]: forty hexadecimal
    digits, with or without [0x], and the right checksum when the letters
    are of both cases.  (The ICAP branch is left out.) *)
Definition parse_hex_address (s : string) : option Z :=
  let body :=
    match s with
    | String "0" (String "x" rest) => rest
    | _ => s
    end in
  if (String.length body =? 40)%nat then
    match hex_value_from 0 body with
    | Some v =>
        if exists_string is_upper_hex body && exists_string is_lower_hex body
        then if String.eqb body (getChecksumAddress body) then Some v else None
        else Some v
    | None => None
    end
  else None.

Definition hexParser : Ethers.AddressParser :=
  {| Ethers.getAddress := parse_hex_address |}.

Definition config : Builder.Config :=
  {| Builder.ENTRY_ID := "entry-1";
     Builder.ACCESS_TOKEN := "token-1";
     Builder.KERNEL_ID := "1657" |}.

Definition alice : Z := 0x70997970C51812dc3A010C7d01b50e0d17dc79C8.
Definition bob : Z := 0x742d35cc6634c0532925A3B8d8c3C4D8e6C8a8c8.

Definition call (sender : Z) : Call :=
  {| msg_sender := sender; block_timestamp := 1705314600 |}.

Definition blank : State :=
  {| _balances := ∅;
     _allowances := ∅;
     _totalSupply := 0;
     contractOwner := 0;
     transferAssessments := ∅;
     logs := [] |}.

(** In the scenario the constructor of [KRNL] runs through, for the
    address of the token authority. *)
Definition tokenAuthority : Z := 0x90F79bf6EB2c4f870365E785982E1f101E93b906.

Definition deploys : Call -> Z -> option RevertReason := fun _ _ => None.

(** The storage after [alice] has deployed the contract. *)
Definition genesis : State :=
  fst (execute (constructor deploys (call alice) tokenAuthority) blank).

(** The same, after [alice] has let [bob] spend one token of hers. *)
Definition genesisWithAllowance : State :=
  fst (execute (ERC20._approve alice bob (10 ^ 18) true) genesis).

(** A bundle for [transferWithKRNL(to, amount, _)], signed for exactly
    these parameters, around the given encoded kernel responses. *)
Definition bundle (to amount : Z) (encodedResponses : list byte) : KrnlPayload :=
  {| auth := sign (Abi.encode [Abi.VAddress to; Abi.VUint amount]);
     kernelResponses := encodedResponses;
     kernelParams := Abi.encode [Abi.VAddress to; Abi.VUint amount] |}.

(** The same for [transferFromWithKRNL(from, to, amount, _)]. *)
Definition bundleFrom (from to amount : Z) (encodedResponses : list byte)
  : KrnlPayload :=
  {| auth := sign (Abi.encode [Abi.VAddress from; Abi.VAddress to;
                               Abi.VUint amount]);
     kernelResponses := encodedResponses;
     kernelParams := [] |}.

(** Half a token. *)
Definition half : Z := 5 * 10 ^ 17.

Definition approvedLowResponse : WebhookResponse :=
  TestTokenTransfer.testResponse "approved" "Low"
    "Transaction approved after risk assessment" 15 "tx-1705314600-test1".

Definition approvedLow : list byte :=
  TestTokenTransfer.generateTestPayload "approved" "Low"
    "Transaction approved after risk assessment" 15 "tx-1705314600-test1".

Definition rejectedHighResponse : WebhookResponse :=
  TestTokenTransfer.testResponse "rejected" "High"
    "High risk indicators detected - transaction blocked" 85
    "tx-1705314600-test3".

Definition rejectedHigh : list byte :=
  TestTokenTransfer.generateTestPayload "rejected" "High"
    "High risk indicators detected - transaction blocked" 85
    "tx-1705314600-test3".

(** An approval that names a high risk. *)
Definition approvedHighResponse : WebhookResponse :=
  TestTokenTransfer.testResponse "approved" "High"
    "Transaction approved with enhanced monitoring" 85 "tx-1705314600-test6".

Definition approvedHighAnswer : KernelResponse :=
  {| kernelId := 1657;
     result := SolAbi.encode_WebhookResponse approvedHighResponse;
     err := EmptyString |}.

Definition approvedHigh : list byte :=
  TestTokenTransfer.generateTestPayload "approved" "High"
    "Transaction approved with enhanced monitoring" 85 "tx-1705314600-test6".

(** Two answers of kernel 1657 in one bundle: a rejection, then an
    approval. *)
Definition rejectedAnswer : KernelResponse :=
  {| kernelId := 1657;
     result := SolAbi.encode_WebhookResponse rejectedHighResponse;
     err := EmptyString |}.

Definition approvedAnswer : KernelResponse :=
  {| kernelId := 1657;
     result := SolAbi.encode_WebhookResponse approvedLowResponse;
     err := EmptyString |}.

Definition rejectedThenApproved : list byte :=
  SolAbi.encode_KernelResponses [rejectedAnswer; approvedAnswer].

Definition ambient : Builder.Ambient :=
  {| Builder.Date_now := 1705314600000;
     Builder.Date_toISOString := "2024-01-15T10:30:00.000Z";
     Builder.Math_random_toString36 := "0.4fzyo82mvyr" |}.

(** [Math.random()] returning one half, which prints as [0.i] in base 36. *)
Definition ambientHalf : Builder.Ambient :=
  {| Builder.Date_now := 1705314600000;
     Builder.Date_toISOString := "2024-01-15T10:30:00.000Z";
     Builder.Math_random_toString36 := "0.i" |}.

Definition aliceHex : string := "0x70997970C51812dc3A010C7d01b50e0d17dc79C8".
Definition bobHex : string := "0x742d35cc6634c0532925a3b8d8c3c4d8e6c8a8c8".

(** An upstream answer of the risk service with no reason given. *)
Definition upstreamLowRisk : JS.value :=
  JS.JObject [
    ("address", JS.JString bobHex);
    ("risk", JS.JString "Low");
    ("cluster", JS.JNull);
    ("riskReason", JS.JNull);
    ("addressType", JS.JString "PRIVATE_WALLET");
    ("addressIdentifications", JS.JArray []);
    ("exposures", JS.JArray []);
    ("triggers", JS.JArray []);
    ("status", JS.JString "COMPLETE")].

End Scenario.

(** ** The contract's external functions, one transaction after another *)

Module Ledger.
Import Word Sol ERC20 TokenContract.
Local Open Scope sol_scope.

(** [approve], which the contract inherits from OpenZeppelin's [ERC20]
    as it is. *)
Definition approve (ctx : Call) (spender value : Z) : M bool :=
  _approve (msg_sender ctx) spender value true ;;
  ret true.

(** A call of one of the external functions that write to the storage. *)
Inductive Invocation :=
| CallTransfer (to amount : Z)
| CallTransferFrom (from to amount : Z)
| CallTransferWithKRNL (to amount : Z) (krnlPayload : KrnlPayload)
| CallTransferFromWithKRNL (from to amount : Z) (krnlPayload : KrnlPayload)
| CallApprove (spender value : Z)
| CallSetContractOwner (_contractOwner : Z).

(** The [uint256] arguments of a call are in range. *)
Definition uint256_arguments (i : Invocation) : bool :=
  match i with
  | CallTransfer _ amount => is_uint256 amount
  | CallTransferFrom _ _ amount => is_uint256 amount
  | CallTransferWithKRNL _ amount _ => is_uint256 amount
  | CallTransferFromWithKRNL _ _ amount _ => is_uint256 amount
  | CallApprove _ value => is_uint256 value
  | CallSetContractOwner _ => true
  end.

Section Machine.
Context {platform : Platform}.

Definition invoke (ctx : Call) (i : Invocation) : M bool :=
  match i with
  | CallTransfer to amount => transfer ctx to amount
  | CallTransferFrom from to amount => transferFrom ctx from to amount
  | CallTransferWithKRNL to amount krnlPayload =>
      transferWithKRNL ctx to amount krnlPayload
  | CallTransferFromWithKRNL from to amount krnlPayload =>
      transferFromWithKRNL ctx from to amount krnlPayload
  | CallApprove spender value => approve ctx spender value
  | CallSetContractOwner _contractOwner =>
      setContractOwner ctx _contractOwner ;; ret true
  end.

(** One transaction: the storage it leaves. *)
Definition step (st : State) (tx : Call * Invocation) : State :=
  fst (execute (invoke (fst tx) (snd tx)) st).

Definition run (txs : list (Call * Invocation)) (st : State) : State :=
  fold_left step txs st.

(** The storage right after a deployment by [ctx].  The constructor
    of [KRNL] has run through, or there would be no contract; the body
    reads nothing of it, nor the key. *)
Definition deployed (ctx : Call) : State :=
  fst (execute (constructor (fun _ _ => None) ctx 0) Scenario.blank).

End Machine.

(** The sum of the values of a map, and of all balances. *)
Definition total (m : gmap Z Z) : Z :=
  map_fold (fun _ value sum => value + sum) 0 m.

Definition circulating (st : State) : Z := total (_balances st).

Definition nonnegative (m : gmap Z Z) : Prop :=
  forall k v, m !! k = Some v -> 0 <= v.

(** The books are in order: no balance is negative, and the balances
    add up to the total supply, which is a [uint256]. *)
Definition balanced (st : State) : Prop :=
  nonnegative (_balances st)
  /\ circulating st = _totalSupply st
  /\ _totalSupply st <= uint256_max.

Definition allowed_event (e : Event) : bool :=
  match e with
  | TransferAssessed _ _ _ _ allowed _ => allowed
  | _ => true
  end.

(** Every assessment in the storage, and every assessment event in the
    log, is one that allowed its transfer. *)
Definition approved_only (st : State) : Prop :=
  (forall key response,
      transferAssessments st !! key = Some response ->
      keccak_eq (status (payload response)) "approved" = true)
  /\ forallb allowed_event (logs st) = true.

End Ledger.

(** ** The Forge script, continued: its run over the test cases *)

Module Script.
Import Word Sol TestTokenTransfer.

(** [string(abi.encodePacked("tx-", block.timestamp, "-", testName))]:
    the timestamp goes in as the 32 bytes of a [uint256]. *)
Definition generateExternalTransactionId (ctx : Call) (testName : string)
  : string :=
  string_of_list_byte
    (list_byte_of_string "tx-" ++ Abi.packed_uint256 (block_timestamp ctx)
     ++ list_byte_of_string "-" ++ list_byte_of_string testName).

(** What an analysis prints, as values: that kernel 1657 is not among
    the responses (with the ids that are), or whether the transfer is
    allowed and whether that is the expected outcome; or the revert of a
    failed [abi.decode]. *)
Inductive Analysis :=
| Reverted
| KernelNotFound (kernelIds : list Z)
| Checked (isAllowed testPassed : bool).

Definition decodeWebhookResult (webhookData : list byte)
    (expectedApproval : bool) : Analysis :=
  match SolAbi.decode_WebhookResponse webhookData with
  | None => Reverted
  | Some response =>
      let isAllowed := simulateTokenTransferVerification (payload response) in
      Checked isAllowed (Bool.eqb isAllowed expectedApproval)
  end.

(** The loop of [analyzeTokenTransferPayload], which breaks at the first
    response of kernel 1657; [seen] are the responses already passed. *)
Fixpoint analyze_loop (kernelResponses seen : list KernelResponse)
    (expectedApproval : bool) : Analysis :=
  match kernelResponses with
  | [] => KernelNotFound (map kernelId seen)
  | r :: rest =>
      if kernelId r =? 1657 then decodeWebhookResult (result r) expectedApproval
      else analyze_loop rest (seen ++ [r]) expectedApproval
  end.

Definition analyzeTokenTransferPayload (encodedData : list byte)
    (expectedApproval : bool) : Analysis :=
  match SolAbi.decode_KernelResponses encodedData with
  | None => Reverted
  | Some kernelResponses => analyze_loop kernelResponses [] expectedApproval
  end.

Definition decodeTokenTransferPayload (encodedData : list byte) : Analysis :=
  analyzeTokenTransferPayload encodedData true.

(** The loop of [runTestCases] over the five cases. *)
Definition runTestCases (ctx : Call) : list Analysis :=
  map (fun tc =>
         let dynamicExternalTxId := generateExternalTransactionId ctx (name tc) in
         let payload :=
           generateTestPayload (tc_status tc) (tc_riskLevel tc) (tc_reason tc)
             (tc_riskScore tc) dynamicExternalTxId in
         analyzeTokenTransferPayload payload (expectedApproval tc))
      testCases.

Definition simulateTransferWithKRNLParams : Z * Z :=
  (0x742d35cc6634c0532925A3B8d8c3C4D8e6C8a8c8, 100 * 10 ^ 18).

Definition encodeTransferWithKRNLParams (to amount : Z) : list byte :=
  Abi.encode [Abi.VAddress to; Abi.VUint amount].

Definition generateMockKrnlPayload (ctx : Call)
    (status riskLevel reason : string) (riskScore : Z) : KrnlPayload :=
  let dynamicExternalTxId := generateExternalTransactionId ctx "mock" in
  {| auth := list_byte_of_string "mock_auth_data";
     kernelResponses :=
       generateTestPayload status riskLevel reason riskScore dynamicExternalTxId;
     kernelParams :=
       Abi.encode [Abi.VAddress 0x742d35cc6634c0532925A3B8d8c3C4D8e6C8a8c8;
                   Abi.VUint (100 * 10 ^ 18)] |}.

End Script.

(** ** ethers' [formatUnits] *)

Module Units.
Import JS.

(** Zeros in front until the digits are more than [decimals]. *)
Definition pad_whole (decimals : nat) (str : list ascii) : list ascii :=
  repeat "0"%char (S decimals - length str) ++ str.

(** Trailing zeros off, the first character staying. *)
Definition trim_fraction (frac : list ascii) : list ascii :=
  rev (strip_leading_zeros (rev frac)).

(** The print of the fixed-point value [val * 10^-decimals]: the whole
    part without leading zeros, the point, and the fraction without
    trailing zeros, at least one digit on either side. *)
Definition fixed_chars (val : Z) (decimals : nat) : list ascii :=
  let negative := if val <? 0 then ["-"%char] else [] in
  let str := integer_chars (Z.abs val) in
  if (decimals =? 0)%nat then negative ++ str
  else
    let str := pad_whole decimals str in
    let index := (length str - decimals)%nat in
    negative ++ strip_leading_zeros (take index str)
    ++ "."%char :: trim_fraction (drop index str).

(** [formatUnits(value, decimals)], which is
    [FixedNumber.fromValue(value, decimals, {decimals, width: 512}).toString()]
    and refuses a value outside the 512 bits. *)
Definition formatUnits (value : Z) (decimals : nat) : option string :=
  if (- 2 ^ 511 <=? value) && (value <? 2 ^ 511)
  then Some (string_of_list_ascii (fixed_chars value decimals))
  else None.

End Units.

(** ** The wallet side: sending the attested call to the contract *)

Module Wallet.
Import Word JS Ethers Builder.

(** [ethers.formatUnits(amount, 18)], for [amount: bigint] *)
Definition fromWei (amount : Z) : option string := Units.formatUnits amount 18.

(** The transaction that a function asks the contract for. *)
Inductive ContractCall :=
| SendTransferWithKRNL (recipient : value) (tokenAmount : Z)
                       (krnlPayload : value)
| SendTransferFromWithKRNL (from recipient : value) (tokenAmount : Z)
                           (krnlPayload : value)
| SendUnstake (krnlPayload externalTransactionId : value) (amount : Z)
              (beneficiary : value).

(** How a run ends: by throwing before it reaches the contract, or
    with the call it makes on the contract object, with the arguments
    as it passes them.  What ethers and the chain then do with the call,
    to refuse an argument or to mine the transaction, is not part of
    the model. *)
Inductive Sent :=
| Throws (e : Exception)
| Sends (call : ContractCall).

(** [{ auth: executeResult.auth, kernelResponses:
    executeResult.kernel_responses, kernelParams:
    executeResult.kernel_params }], which throws on [null] and
    [undefined]. *)
Definition formatPayload (executeResult : value) : option value :=
  match executeResult with
  | JUndefined | JNull => None
  | _ =>
      Some (JObject [
        ("auth", member executeResult "auth");
        ("kernelResponses", member executeResult "kernel_responses");
        ("kernelParams", member executeResult "kernel_params")])
  end.

Definition processTokenTransfer (executeResult recipient : value)
    (amount : number) (signer : value) : Sent :=
  if negb (truthy signer) then Throws (Error "Signer is required")
  else if negb (truthy recipient) then
    Throws (Error "Recipient address is required")
  else
    match formatPayload executeResult with
    | None => Throws TypeError
    | Some krnlPayload =>
        match toWei (JNumber amount) with
        | None => Throws (InvalidArgument "value")
        | Some tokenAmount =>
            Sends (SendTransferWithKRNL recipient tokenAmount krnlPayload)
        end
    end.

Definition processTokenTransferFrom (executeResult from recipient : value)
    (amount : number) (signer : value) : Sent :=
  if negb (truthy signer) then Throws (Error "Signer is required")
  else if negb (truthy from) || negb (truthy recipient) then
    Throws (Error "From and recipient addresses are required")
  else
    match formatPayload executeResult with
    | None => Throws TypeError
    | Some krnlPayload =>
        match toWei (JNumber amount) with
        | None => Throws (InvalidArgument "value")
        | Some tokenAmount =>
            Sends (SendTransferFromWithKRNL from recipient tokenAmount
                     krnlPayload)
        end
    end.

(** [getTokenBalance], with [balance] the answer of
    [contract.balanceOf(address)]. *)
Definition getTokenBalance (address provider : value) (balance : Z)
  : Exception + string :=
  if negb (truthy address) then inl (Error "Address is required")
  else if negb (truthy provider) then inl (Error "Provider is required")
  else
    match fromWei balance with
    | Some text => inr text
    | None => inl (InvalidArgument "value")
    end.

(** [processMonitoredTransaction], with [signerAddress] the outcome of
    [signer.getAddress()], should the run ask for it. *)
Definition processMonitoredTransaction (signerAddress : option value)
    (executeResult transactionData signer : value) : Sent :=
  if negb (truthy signer) then Throws (Error "Signer is required")
  else if negb (truthy transactionData)
          || negb (truthy (member transactionData "externalTransactionId")) then
    Throws (Error "Transaction data with externalTransactionId is required")
  else
    match formatPayload executeResult with
    | None => Throws TypeError
    | Some krnlPayload =>
        let externalTransactionId :=
          member transactionData "externalTransactionId" in
        match member transactionData "transactionInfo" with
        | JUndefined | JNull => Throws TypeError
        | transactionInfo =>
            match member transactionInfo "amount" with
            | JUndefined | JNull => Throws TypeError
            | stored =>
                match toWei stored with
                | None => Throws (InvalidArgument "value")
                | Some amount =>
                    let beneficiary := member transactionData "address" in
                    if truthy beneficiary then
                      Sends (SendUnstake krnlPayload externalTransactionId
                               amount beneficiary)
                    else
                      match signerAddress with
                      | None =>
                          Throws (Error
                            "Could not determine beneficiary address")
                      | Some beneficiary =>
                          Sends (SendUnstake krnlPayload externalTransactionId
                                   amount beneficiary)
                      end
                end
            end
        end
    end.

End Wallet.

(** ** The risk proxy, continued: the bulk endpoint *)

Module Bulk.
Import JS RiskProxy.

(** What the upstream service does with one request: it answers with
    [response.data], or the request fails, with
    [error.response?.data?.message] for a message. *)
Inductive Upstream :=
| Answered (data : value)
| Failed (message : value).

(** The entry of [batchResults] for one address. *)
Definition fetched (address : string) (u : Upstream) : value :=
  match u with
  | Answered data => batchResult address (inl data)
  | Failed message =>
      batchResult address
        (inr (or_else message (JString "Failed to fetch risk assessment")))
  end.

Definition batchSize : nat := 10.

Inductive Loop :=
| OutOfFuel
| Threw
| Finished (results : list value).

(** The loop [for (let i = 0; i < addresses.length; i += batchSize)]
    from index [i] on, over the addresses with what the upstream does
    for each. *)
Fixpoint analyzeLoop (fuel : nat) (requests : list (string * Upstream))
    (i : nat) (results : list value) : Loop :=
  match fuel with
  | O => OutOfFuel
  | S fuel' =>
      if (i <? length requests)%nat then
        let batch := take batchSize (drop i requests) in
        let batchResults := map (fun r => fetched (fst r) (snd r)) batch in
        match processBatchResults batchResults with
        | None => Threw
        | Some processed =>
            analyzeLoop fuel' requests (i + batchSize)%nat
                        (results ++ processed)
        end
      else Finished results
  end.

(** The answer of [POST /api/wallet/analyze/bulk] to a request that
    passed the validation: [res.json] of the results, or the status 500
    of the [catch] (with the message of the exception). *)
Inductive Reply :=
| Ok (body : value)
| InternalServerError.

Definition analyzeBulk (timestamp : string)
    (requests : list (string * Upstream)) : Reply :=
  match analyzeLoop (S (length requests)) requests 0 [] with
  | Finished results =>
      Ok (json (JObject [
        ("results", JArray results);
        ("totalAnalyzed", JNumber (Finite (Z.of_nat (length results)) 0));
        ("timestamp", JString timestamp)]))
  | _ => InternalServerError
  end.

(** What the endpoint answers for one address: the entry that
    [processBatchResults] makes of the one that [fetched] builds. *)
Definition answered (r : string * Upstream) : option value :=
  match snd r with
  | Answered data => filterRiskFields data
  | Failed message =>
      Some (JObject [
        ("walletAddress", JString (fst r));
        ("error",
         or_else message (JString "Failed to fetch risk assessment"))])
  end.

End Bulk.

(** ** The page: the transaction log it keeps *)

Module Page.

(** [setTransactionLogs(prev => [log, ...prev.slice(0, 9)])] *)
Definition handleTransactionLog {A} (log : A) (prev : list A) : list A :=
  log :: take 9 prev.

End Page.

(** ** Vocabulary of the further statements *)

Module Shapes.
Import Word JS Abi.


(** A value of the ABI is of a type. *)
Fixpoint has_ty (v : val) (t : ty) {struct v} : bool :=
  match v, t with
  | VUint z, TUint256 => is_uint256 z
  | VAddress a, TAddress => is_address a
  | VBytes _, TBytes => true
  | VString _, TString => true
  | VTuple vs, TTuple ts =>
      (fix all2 (vs : list val) (ts : list ty) {struct vs} : bool :=
         match vs, ts with
         | [], [] => true
         | v :: vs', t :: ts' => has_ty v t && all2 vs' ts'
         | _, _ => false
         end) vs ts
  | VArray vs, TArray t =>
      (0 <? head_size t)%nat && forallb (fun v => has_ty v t) vs
  | _, _ => false
  end.

(** The walk of [Abi.dec] over the heads of a sequence whose first head
    is at [base]: the component at [hd] and those after it. *)
Fixpoint dec_heads (data : list byte) (base : nat) (ts : list ty) (hd : nat)
  : option (list val) :=
  match ts with
  | [] => Some []
  | t :: ts' =>
      let here :=
        if ty_dynamic t then
          match index_at data hd with
          | Some off => dec t data (base + off)
          | None => None
          end
        else dec t data hd in
      match here, dec_heads data base ts' (hd + head_size t)%nat with
      | Some v, Some vs => Some (v :: vs)
      | _, _ => None
      end
  end.

(** The room that the heads of a sequence take. *)
Definition heads_size (ps : list (bool * list byte)) : nat :=
  fold_right
    (fun p acc => (if fst p : bool then 32 else length (snd p)) + acc)%nat
    O ps.

(** Decoding finds a value where its encoding lies in the data. *)
Definition decodes (v : val) : Prop :=
  forall (t : ty) (pre post : list byte),
    has_ty v t = true ->
    Z.of_nat (length (pre ++ enc v ++ post)) < 2 ^ 256 ->
    dec t (pre ++ enc v ++ post) (length pre) = Some v.

(** The encodings of the components, each with whether it is dynamic. *)
Definition parts (vs : list val) : list (bool * list byte) :=
  map (fun v => (val_dynamic v, enc v)) vs.

End Shapes.

(** ** Further sample data *)

Module Samples.
Import Sol Scenario.

(** Twelve addresses, so two batches; the last request fails. *)
Definition twelveRequests : list (string * Bulk.Upstream) :=
  repeat (bobHex, Bulk.Answered upstreamLowRisk) 11
  ++ [(aliceHex, Bulk.Failed JS.JUndefined)].

(** [alice] sends [bob] half a token with an approved bundle, tries
    again with a rejected one; [bob] tries the plain [transfer]; [alice]
    lets [bob] spend a token of hers, which he does by half, having it
    approved; and she hands the contract over to him. *)
Definition sampleTransactions : list (Call * Ledger.Invocation) :=
  [ (call alice,
     Ledger.CallTransferWithKRNL bob half (bundle bob half approvedLow));
    (call alice,
     Ledger.CallTransferWithKRNL bob half (bundle bob half rejectedHigh));
    (call bob, Ledger.CallTransfer alice half);
    (call alice, Ledger.CallApprove bob (10 ^ 18));
    (call bob,
     Ledger.CallTransferFromWithKRNL alice bob half
       (bundleFrom alice bob half approvedLow));
    (call alice, Ledger.CallSetContractOwner bob) ].

(** What [executeKernels] answered, a signer, and a transaction to
    monitor. *)
Definition executeResult : JS.value :=
  JS.JObject [("auth", JS.JString "0xa1");
              ("kernel_responses", JS.JString "0xb2");
              ("kernel_params", JS.JString "0xc3")].

Definition signer : JS.value := JS.JObject [].

Definition monitored : JS.value :=
  JS.JObject [("externalTransactionId", JS.JString "tx-1");
              ("amount", JS.JNumber (JS.Finite 5 1))].

End Samples.

(** * Properties *)

(** ** Keccak-256 on known digests *)

Example keccak256_empty :
  Keccak.keccak256 [] =
  0xc5d2460186f7233c927e7db2dcc703c0e500b653ca82273b7bfad8045d85a470.
Proof. vm_compute. reflexivity. Qed.

Example keccak256_abc :
  Keccak.keccak256 (list_byte_of_string "abc") =
  0x4e03657aea45a94fc7d47ba826c8d667c0d1e6e33a64a036ec44f58fa12d6c45.
Proof. vm_compute. reflexivity. Qed.

Example keccak256_two_blocks :
  Keccak.keccak256 (repeat "a"%byte 136) =
  0xa6c4d403279fe3e0af03729caada8374b5ca54d8065329a3ebcaeb4b60aa386e.
Proof. vm_compute. reflexivity. Qed.

(** The selector of [transfer(address,uint256)] is [a9059cbb]. *)
Example keccak256_selector :
  Keccak.keccak256 (list_byte_of_string "transfer(address,uint256)")
  / 2 ^ 224 = 0xa9059cbb.
Proof. vm_compute. reflexivity. Qed.

(** ** Words and the ABI coding of a static pair *)

Section WordFacts.
Import Word.

Lemma Z_of_byte_of_Z (z : Z) : Z_of_byte (byte_of_Z z) = z mod 256.
Proof.
  unfold Z_of_byte, byte_of_Z.
  assert (Hb : 0 <= z mod 256 < 256) by (apply Z.mod_pos_bound; lia).
  destruct (Byte.of_N (Z.to_N (z mod 256))) as [b|] eqn:E.
  - apply Byte.to_of_N in E. rewrite E. apply Z2N.id. lia.
  - apply Byte.of_N_None_iff in E. lia.
Qed.

Lemma length_be_bytes (n : nat) (z : Z) : length (be_bytes n z) = n.
Proof.
  revert z. induction n as [|n IH]; intros z; simpl; [reflexivity|].
  rewrite length_app, IH. simpl. lia.
Qed.

Lemma be_value_snoc (bs : list byte) (b : byte) :
  be_value (bs ++ [b]) = be_value bs * 256 + Z_of_byte b.
Proof. unfold be_value. rewrite fold_left_app. reflexivity. Qed.

Lemma be_value_be_bytes (n : nat) (z : Z) :
  be_value (be_bytes n z) = z mod 256 ^ Z.of_nat n.
Proof.
  revert z. induction n as [|n IH]; intros z.
  - simpl. rewrite Z.mod_1_r. reflexivity.
  - cbn [be_bytes]. rewrite be_value_snoc, IH, Z_of_byte_of_Z.
    rewrite Nat2Z.inj_succ, Z.pow_succ_r by lia.
    rewrite (Z.rem_mul_r z 256 (256 ^ Z.of_nat n)) by lia. lia.
Qed.

Lemma be_value_be_bytes_32 (z : Z) :
  is_uint256 z = true -> be_value (be_bytes 32 z) = z.
Proof.
  unfold is_uint256, uint256_max. intros H.
  apply andb_true_iff in H as [H1 H2].
  apply Z.leb_le in H1. apply Z.leb_le in H2.
  rewrite be_value_be_bytes. apply Z.mod_small.
  change (256 ^ Z.of_nat 32) with (2 ^ 256). lia.
Qed.

Lemma is_address_uint256 (a : Z) : is_address a = true -> is_uint256 a = true.
Proof.
  unfold is_address, is_uint256, uint256_max. intros H.
  apply andb_true_iff in H as [H1 H2].
  apply Z.leb_le in H1. apply Z.ltb_lt in H2.
  apply andb_true_iff. split; [apply Z.leb_le; lia|apply Z.leb_le].
  assert (2 ^ 160 <= 2 ^ 256) by (apply Z.pow_le_mono_r; lia). lia.
Qed.

Lemma word_at_head (x y : list byte) :
  length x = 32%nat -> Abi.word_at (x ++ y) 0 = Some (be_value x).
Proof.
  intros Hx. unfold Abi.word_at. rewrite drop_0.
  rewrite take_app_length' by (symmetry; exact Hx).
  rewrite Hx. reflexivity.
Qed.

Lemma word_at_second (x y : list byte) :
  length x = 32%nat -> length y = 32%nat ->
  Abi.word_at (x ++ y) 32 = Some (be_value y).
Proof.
  intros Hx Hy. unfold Abi.word_at.
  rewrite drop_app_length' by (symmetry; exact Hx).
  rewrite firstn_all2 by lia. rewrite Hy. reflexivity.
Qed.

(** Decoding the encoding of an address and an amount gives them back. *)
Lemma decode_encode_address_uint256 (a v : Z) :
  is_address a = true -> is_uint256 v = true ->
  Ethers.decode_address_uint256 (Abi.encode [Abi.VAddress a; Abi.VUint v])
  = Some (a, v).
Proof.
  intros Ha Hv.
  unfold Ethers.decode_address_uint256, Abi.decode, Abi.encode.
  cbn [Abi.enc map Abi.val_dynamic].
  unfold Abi.assemble. cbn [fold_right fst snd Abi.assemble_from].
  rewrite !app_nil_r.
  cbn [Abi.dec Abi.ty_dynamic Abi.head_size].
  rewrite word_at_head by apply length_be_bytes.
  rewrite Nat.add_0_l.
  rewrite word_at_second by apply length_be_bytes.
  rewrite (be_value_be_bytes_32 a) by (apply is_address_uint256; exact Ha).
  rewrite (be_value_be_bytes_32 v) by exact Hv.
  rewrite Ha. reflexivity.
Qed.

End WordFacts.

(** ** The contract *)

(** Digests are computed on concrete data only; in the proofs they stay
    folded. *)
Arguments TokenContract.transferHash : simpl never.
Arguments TokenContract.keccak_eq : simpl never.
Arguments Keccak.keccak256 : simpl never.
Arguments Abi.encode : simpl never.

Section ContractFacts.
Import Word Sol ERC20 TokenContract Terms.
Context {platform : Platform}.

Lemma checkTransferAllowed_loop_find ctx rs from to amount st :
  checkTransferAllowed_loop ctx rs from to amount st =
  match List.find is_1657 rs with
  | None => Return false st
  | Some r =>
      match abi_decode_WebhookResponse (result r) with
      | None => Revert AbiDecodeFailure
      | Some response =>
          let allowed := keccak_eq (status (payload response)) "approved" in
          Return allowed (assessed ctx from to amount response allowed st)
      end
  end.
Proof.
  induction rs as [|r rs IH]; cbn [checkTransferAllowed_loop List.find].
  - reflexivity.
  - unfold is_1657 at 1. destruct (kernelId r =? 1657).
    + destruct (abi_decode_WebhookResponse (result r)) as [response|];
        [|reflexivity].
      unfold bind, store_assessment, emit, ret, assessed. cbn.
      destruct (keccak_eq (status (payload response)) "approved"); reflexivity.
    + exact IH.
Qed.

(** [checkTransferAllowed] is decided by the first answer of kernel 1657. *)
Lemma checkTransferAllowed_decision ctx p from to amount st :
  checkTransferAllowed ctx p from to amount st =
  match decision p with
  | Undecodable => Revert AbiDecodeFailure
  | NoKernel1657 => Return false st
  | Decided response =>
      let allowed := keccak_eq (status (payload response)) "approved" in
      Return allowed (assessed ctx from to amount response allowed st)
  end.
Proof.
  unfold checkTransferAllowed, decision.
  destruct (abi_decode_KernelResponses (kernelResponses p)) as [rs|];
    [|reflexivity].
  rewrite checkTransferAllowed_loop_find.
  destruct (List.find is_1657 rs) as [r|]; [|reflexivity].
  destruct (abi_decode_WebhookResponse (result r)); reflexivity.
Qed.

Lemma _transfer_moves from to value st :
  from <> 0 -> to <> 0 ->
  _transfer from to value st =
  if balanceOf st from <? value
  then Revert (ERC20InsufficientBalance from (balanceOf st from) value)
  else Return tt (moved from to value st).
Proof.
  intros Hf Ht. unfold _transfer, _update.
  apply Z.eqb_neq in Hf. apply Z.eqb_neq in Ht. rewrite Hf, Ht.
  unfold bind, get. cbn.
  destruct (balanceOf st from <? value); reflexivity.
Qed.

Lemma transferWithKRNL_cases ctx to amount p st :
  transferWithKRNL ctx to amount p st =
  if negb (isAuthorized p (Abi.encode [Abi.VAddress to; Abi.VUint amount]))
  then Revert UnauthorizedTransaction
  else if to =? 0 then Revert (Error "ERC20: transfer to the zero address")
  else
    match decision p with
    | Undecodable => Revert AbiDecodeFailure
    | NoKernel1657 => Revert (Error "Transfer denied due to risk assessment")
    | Decided response =>
        if keccak_eq (status (payload response)) "approved" then
          match _transfer (msg_sender ctx) to amount
                  (assessed ctx (msg_sender ctx) to amount response true st)
          with
          | Return _ st' => Return true st'
          | Revert r => Revert r
          end
        else Revert (Error "Transfer denied due to risk assessment")
    end.
Proof.
  unfold transferWithKRNL, onlyAuthorized, bind at 1.
  destruct (isAuthorized p _); [|reflexivity]. cbn [negb ret].
  unfold bind at 1, require.
  destruct (to =? 0); [reflexivity|]. cbn [negb ret].
  unfold bind at 1. rewrite checkTransferAllowed_decision.
  destruct (decision p) as [| |response]; try reflexivity.
  cbv zeta.
  destruct (keccak_eq (status (payload response)) "approved"); [|reflexivity].
  unfold bind, ret. cbn.
  destruct (_transfer _ _ _ _); reflexivity.
Qed.

Lemma transferFromWithKRNL_cases ctx from to amount p st :
  transferFromWithKRNL ctx from to amount p st =
  if negb (isAuthorized p
             (Abi.encode [Abi.VAddress from; Abi.VAddress to; Abi.VUint amount]))
  then Revert UnauthorizedTransaction
  else if from =? 0 then Revert (Error "ERC20: transfer from the zero address")
  else if to =? 0 then Revert (Error "ERC20: transfer to the zero address")
  else
    match decision p with
    | Undecodable => Revert AbiDecodeFailure
    | NoKernel1657 => Revert (Error "Transfer denied due to risk assessment")
    | Decided response =>
        if keccak_eq (status (payload response)) "approved" then
          match _spendAllowance from (msg_sender ctx) amount
                  (assessed ctx from to amount response true st)
          with
          | Return _ st1 =>
              match _transfer from to amount st1 with
              | Return _ st2 => Return true st2
              | Revert r => Revert r
              end
          | Revert r => Revert r
          end
        else Revert (Error "Transfer denied due to risk assessment")
    end.
Proof.
  unfold transferFromWithKRNL, onlyAuthorized, bind at 1.
  destruct (isAuthorized p _); [|reflexivity]. cbn [negb ret].
  unfold bind at 1, require.
  destruct (from =? 0); [reflexivity|]. cbn [negb ret].
  unfold bind at 1.
  destruct (to =? 0); [reflexivity|]. cbn [negb ret].
  unfold bind at 1. rewrite checkTransferAllowed_decision.
  destruct (decision p) as [| |response]; try reflexivity.
  cbv zeta.
  destruct (keccak_eq (status (payload response)) "approved"); [|reflexivity].
  unfold bind at 1. unfold ret at 1.
  unfold bind at 1.
  destruct (_spendAllowance from (msg_sender ctx) amount _); [|reflexivity].
  unfold bind, ret.
  destruct (_transfer from to amount _); reflexivity.
Qed.

Lemma keccak_eq_refl (s : string) : keccak_eq s s = true.
Proof. unfold keccak_eq. apply Z.eqb_refl. Qed.

Lemma collision_free_not_approved (s : string) :
  collision_free s -> s <> "approved" -> keccak_eq s "approved" = false.
Proof.
  intros Hc Hs. destruct (keccak_eq s "approved") eqn:E; [|reflexivity].
  exfalso. apply Hs, Hc, E.
Qed.

Lemma _spendAllowance_cases owner spender value st :
  owner <> 0 ->
  _spendAllowance owner spender value st =
  if allowance st owner spender <? uint256_max then
    if allowance st owner spender <? value
    then Revert (ERC20InsufficientAllowance spender
                   (allowance st owner spender) value)
    else if spender =? 0 then Revert (ERC20InvalidSpender 0)
    else Return tt (spent owner spender
                      (allowance st owner spender - value) st)
  else Return tt st.
Proof.
  intros Ho. apply Z.eqb_neq in Ho.
  unfold _spendAllowance, bind, get.
  destruct (allowance st owner spender <? uint256_max); [|reflexivity].
  destruct (allowance st owner spender <? value); [reflexivity|].
  unfold _approve. rewrite Ho.
  destruct (spender =? 0); reflexivity.
Qed.

Lemma balanceOf_assessed ctx from to amount response allowed st a :
  balanceOf (assessed ctx from to amount response allowed st) a
  = balanceOf st a.
Proof. reflexivity. Qed.

Lemma balanceOf_spent owner spender value st a :
  balanceOf (spent owner spender value st) a = balanceOf st a.
Proof. reflexivity. Qed.

Lemma balanceOf_moved_other from to value st a :
  a <> from -> a <> to -> balanceOf (moved from to value st) a = balanceOf st a.
Proof.
  intros Hf Ht. unfold balanceOf, moved. cbn [_balances].
  rewrite lookup_insert_ne by congruence.
  rewrite lookup_insert_ne by congruence. reflexivity.
Qed.

Lemma balanceOf_moved_from from to value st :
  from <> to ->
  balanceOf (moved from to value st) from = balanceOf st from - value.
Proof.
  intros Hne. unfold balanceOf at 1. unfold moved. cbn [_balances].
  rewrite lookup_insert_ne by congruence.
  rewrite lookup_insert_eq. reflexivity.
Qed.

Lemma balanceOf_moved_to from to value st :
  from <> to ->
  balanceOf (moved from to value st) to
  = (balanceOf st to + value) mod 2 ^ 256.
Proof.
  intros Hne. unfold balanceOf at 1. unfold moved. cbn [_balances].
  rewrite lookup_insert_eq. cbn [default].
  rewrite lookup_insert_ne by congruence. reflexivity.
Qed.

Lemma balanceOf_moved_self a value st :
  balanceOf (moved a a value st) a = balanceOf st a mod 2 ^ 256.
Proof.
  unfold balanceOf at 1. unfold moved. cbn [_balances].
  rewrite lookup_insert_eq. cbn [default].
  rewrite lookup_insert_eq. cbv [default from_option Datatypes.id].
  f_equal. lia.
Qed.

Lemma approves_Decided response :
  collision_free (status (payload response)) ->
  approves (Decided response)
  <-> keccak_eq (status (payload response)) "approved" = true.
Proof.
  intros Hc. split.
  - intros [r [Hr Hs]]. injection Hr as <-. rewrite Hs. apply keccak_eq_refl.
  - intros Hk. exists response. split; [reflexivity|apply Hc, Hk].
Qed.

(** A successful [transferWithKRNL], in full. *)
Lemma transferWithKRNL_returns ctx to amount p st b st' :
  transferWithKRNL ctx to amount p st = Return b st' ->
  exists response,
    decision p = Decided response
    /\ keccak_eq (status (payload response)) "approved" = true
    /\ msg_sender ctx <> 0 /\ to <> 0
    /\ amount <= balanceOf st (msg_sender ctx)
    /\ b = true
    /\ st' = moved (msg_sender ctx) to amount
               (assessed ctx (msg_sender ctx) to amount response true st).
Proof.
  intros H. rewrite transferWithKRNL_cases in H.
  destruct (isAuthorized p _); cbn [negb] in H; [|discriminate H].
  destruct (Z.eqb_spec to 0) as [Ht|Ht]; [discriminate H|].
  destruct (decision p) as [| |response]; try discriminate H.
  destruct (keccak_eq (status (payload response)) "approved") eqn:Hk;
    [|discriminate H].
  destruct (Z.eqb_spec (msg_sender ctx) 0) as [Hs|Hs].
  { unfold _transfer in H. rewrite Hs in H. cbn [Z.eqb revert] in H.
    discriminate H. }
  rewrite _transfer_moves in H by assumption.
  rewrite balanceOf_assessed in H.
  destruct (Z.ltb_spec (balanceOf st (msg_sender ctx)) amount) as [Hb|Hb];
    [discriminate H|].
  injection H as <- <-. exists response. repeat split; assumption.
Qed.

(** A successful [transferFromWithKRNL], in full: the allowance is
    spent unless it is the largest [uint256]. *)
Lemma transferFromWithKRNL_returns ctx from to amount p st b st' :
  transferFromWithKRNL ctx from to amount p st = Return b st' ->
  exists response,
    decision p = Decided response
    /\ keccak_eq (status (payload response)) "approved" = true
    /\ from <> 0 /\ to <> 0
    /\ amount <= balanceOf st from
    /\ b = true
    /\ let st1 := assessed ctx from to amount response true st in
       (allowance st from (msg_sender ctx) < uint256_max
        /\ amount <= allowance st from (msg_sender ctx)
        /\ msg_sender ctx <> 0
        /\ st' = moved from to amount
                   (spent from (msg_sender ctx)
                      (allowance st from (msg_sender ctx) - amount) st1))
       \/ (uint256_max <= allowance st from (msg_sender ctx)
           /\ st' = moved from to amount st1).
Proof.
  intros H. rewrite transferFromWithKRNL_cases in H.
  destruct (isAuthorized p _); cbn [negb] in H; [|discriminate H].
  destruct (Z.eqb_spec from 0) as [Hf|Hf]; [discriminate H|].
  destruct (Z.eqb_spec to 0) as [Ht|Ht]; [discriminate H|].
  destruct (decision p) as [| |response]; try discriminate H.
  destruct (keccak_eq (status (payload response)) "approved") eqn:Hk;
    [|discriminate H].
  rewrite _spendAllowance_cases in H by assumption.
  change (allowance (assessed ctx from to amount response true st)
            from (msg_sender ctx))
    with (allowance st from (msg_sender ctx)) in H.
  exists response.
  destruct (Z.ltb_spec (allowance st from (msg_sender ctx)) uint256_max)
    as [Hm|Hm].
  - destruct (Z.ltb_spec (allowance st from (msg_sender ctx)) amount)
      as [Hv|Hv]; [discriminate H|].
    destruct (Z.eqb_spec (msg_sender ctx) 0) as [Hs|Hs]; [discriminate H|].
    rewrite _transfer_moves in H by assumption.
    rewrite balanceOf_spent, balanceOf_assessed in H.
    destruct (Z.ltb_spec (balanceOf st from) amount) as [Hb|Hb];
      [discriminate H|].
    injection H as <- <-. repeat split; try assumption.
    left. repeat split; assumption.
  - rewrite _transfer_moves in H by assumption.
    rewrite balanceOf_assessed in H.
    destruct (Z.ltb_spec (balanceOf st from) amount) as [Hb|Hb];
      [discriminate H|].
    injection H as <- <-. repeat split; try assumption.
    right. split; [assumption|reflexivity].
Qed.

(** What [moved] does to the balances is a transfer. *)
Lemma transferred_moved from to amount st0 st :
  (forall a, balanceOf st0 a = balanceOf st a) ->
  _totalSupply st0 = _totalSupply st ->
  transferred from to amount st (moved from to amount st0).
Proof.
  intros Hb Hs. unfold transferred. split; [|split; [|split]].
  - intros Hne. split.
    + rewrite balanceOf_moved_from by assumption. rewrite Hb. reflexivity.
    + rewrite balanceOf_moved_to by assumption. rewrite Hb. reflexivity.
  - intros ->. rewrite balanceOf_moved_self, Hb. reflexivity.
  - intros a H1 H2. rewrite balanceOf_moved_other by assumption. apply Hb.
  - exact Hs.
Qed.

Lemma logs_moved_assessed ctx from to amount response st0 st :
  logs st0 = logs (assessed ctx from to amount response true st) ->
  exists assessment,
    logs (moved from to amount st0)
    = logs st ++ [assessment; Transfer from to amount].
Proof.
  intros Hl. eexists. unfold moved. cbn [logs]. rewrite Hl.
  unfold assessed. cbn [logs]. rewrite <- app_assoc. reflexivity.
Qed.

(** The storage that a successful [transferWithKRNL] leaves. *)
Lemma performed_by_the_owner ctx from to amount response st :
  performed from to amount None st
    (Return true
       (moved from to amount (assessed ctx from to amount response true st))).
Proof.
  eexists. split; [reflexivity|].
  split; [apply transferred_moved; reflexivity|].
  split; [intros owner other; reflexivity|].
  apply (logs_moved_assessed ctx from to amount response). reflexivity.
Qed.

(** The storage that a successful [transferFromWithKRNL] leaves, on
    an allowance that is spent. *)
Lemma performed_on_an_allowance ctx from to amount caller response st :
  allowance st from caller < uint256_max ->
  performed from to amount (Some caller) st
    (Return true
       (moved from to amount
          (spent from caller (allowance st from caller - amount)
             (assessed ctx from to amount response true st)))).
Proof.
  intros Hm. eexists. split; [reflexivity|].
  split; [apply transferred_moved; reflexivity|].
  split.
  - cbn [charged]. apply Z.ltb_lt in Hm. rewrite Hm. split.
    + unfold allowance at 1. unfold moved, spent. cbn [_allowances].
      rewrite lookup_insert_eq. reflexivity.
    + intros owner other Hne. unfold allowance at 1.
      unfold moved, spent. cbn [_allowances].
      rewrite lookup_insert_ne by congruence. reflexivity.
  - apply (logs_moved_assessed ctx from to amount response). reflexivity.
Qed.

(** The same, on the largest allowance, which is not spent. *)
Lemma performed_on_the_largest_allowance ctx from to amount caller response
      st :
  uint256_max <= allowance st from caller ->
  performed from to amount (Some caller) st
    (Return true
       (moved from to amount (assessed ctx from to amount response true st))).
Proof.
  intros Hm. eexists. split; [reflexivity|].
  split; [apply transferred_moved; reflexivity|].
  split.
  - cbn [charged]. apply Z.ltb_ge in Hm. rewrite Hm.
    split; [reflexivity|]. intros owner other _. reflexivity.
  - apply (logs_moved_assessed ctx from to amount response). reflexivity.
Qed.

End ContractFacts.

Section ContractClaims.
Import Word Sol ERC20 TokenContract Terms.
Context {platform : Platform}.

(** C9: the legacy entry points [transfer] and [transferFrom] revert with
    their guidance messages for every caller, recipient, amount and
    storage (so for every allowance), and the storage, with every
    balance, is after the call what it was before. *)
Theorem legacy_entry_points_always_revert :
  forall (ctx : Call) (from to amount : Z) (st : State),
    transfer ctx to amount st = Revert (Error "Use transfer with KRNL payload")
    /\ transferFrom ctx from to amount st
       = Revert (Error "Use transferFrom with KRNL payload")
    /\ execute (transfer ctx to amount) st
       = (st, Some (Error "Use transfer with KRNL payload"))
    /\ execute (transferFrom ctx from to amount) st
       = (st, Some (Error "Use transferFrom with KRNL payload"))
    /\ (forall a,
          balanceOf (fst (execute (transfer ctx to amount) st)) a
          = balanceOf st a
          /\ balanceOf (fst (execute (transferFrom ctx from to amount) st)) a
             = balanceOf st a).
Proof.
  intros ctx from to amount st. repeat split.
Qed.

(** C3: a call of [transferWithKRNL] or [transferFromWithKRNL] whose
    kernel-1657 decision has a status other than ["approved"] (and not
    of the same Keccak-256 digest, which is what the contract compares)
    reverts, and leaves the storage, and with it every balance, as it
    was. *)
Theorem denied_call_reverts_and_changes_nothing :
  forall (ctx : Call) (from to amount : Z) (p : KrnlPayload) (st : State)
         (response : WebhookResponse),
    decision p = Decided response ->
    status (payload response) <> "approved" ->
    collision_free (status (payload response)) ->
    (exists r, execute (transferWithKRNL ctx to amount p) st = (st, Some r))
    /\ (exists r,
          execute (transferFromWithKRNL ctx from to amount p) st = (st, Some r))
    /\ (forall a,
          balanceOf (fst (execute (transferWithKRNL ctx to amount p) st)) a
          = balanceOf st a
          /\ balanceOf
               (fst (execute (transferFromWithKRNL ctx from to amount p) st)) a
             = balanceOf st a).
Proof.
  intros ctx from to amount p st response Hd Hs Hc.
  pose proof (collision_free_not_approved _ Hc Hs) as Hk.
  assert (H1 : exists r, transferWithKRNL ctx to amount p st = Revert r).
  { rewrite transferWithKRNL_cases, Hd, Hk.
    destruct (negb _); [eauto|]. destruct (to =? 0); eauto. }
  assert (H2 : exists r,
             transferFromWithKRNL ctx from to amount p st = Revert r).
  { rewrite transferFromWithKRNL_cases, Hd, Hk.
    destruct (negb _); [eauto|]. destruct (from =? 0); [eauto|].
    destruct (to =? 0); eauto. }
  destruct H1 as [r1 H1]. destruct H2 as [r2 H2].
  unfold execute. rewrite H1, H2. cbn [fst].
  split; [eauto|]. split; [eauto|]. intros a. split; reflexivity.
Qed.

Local Ltac refute_performed :=
  let H := fresh in intros [? [H _]]; discriminate H.

(** C1, as the code has it: [transferWithKRNL] performs the transfer
    exactly when the bundle is authorized for [(to, amount)], [to] and the
    sender are not the zero address, the first entry of the decoded
    kernel responses with kernel id 1657 decodes to a response with status
    ["approved"], and the sender's balance covers the amount;
    [transferFromWithKRNL] likewise, with [from] non-zero and the
    allowance covering the amount.  When the responses decode and that
    first entry has another status, or there is no entry of kernel 1657,
    [checkTransferAllowed] returns [false] and an authorized call with
    non-zero addresses reverts with "Transfer denied due to risk
    assessment".  To perform the transfer is to return [true] and to
    leave the storage with the amount taken from the balance of the one
    and added to that of the other, the other balances and the supply
    untouched, the allowance of the caller charged where the tokens are
    not the caller's, and the [Transfer] logged; and a call that
    returns has done all that. *)
Theorem transfer_follows_first_kernel_1657_answer :
  forall (ctx : Call) (from to amount : Z) (p : KrnlPayload) (st : State),
    (forall response,
        decision p = Decided response ->
        collision_free (status (payload response))) ->
    (performed (msg_sender ctx) to amount None st
       (transferWithKRNL ctx to amount p st) <->
       isAuthorized p (Abi.encode [Abi.VAddress to; Abi.VUint amount]) = true
       /\ to <> 0 /\ msg_sender ctx <> 0
       /\ approves (decision p)
       /\ amount <= balanceOf st (msg_sender ctx))
    /\ (performed from to amount (Some (msg_sender ctx)) st
          (transferFromWithKRNL ctx from to amount p st) <->
         isAuthorized p
           (Abi.encode [Abi.VAddress from; Abi.VAddress to; Abi.VUint amount])
         = true
         /\ from <> 0 /\ to <> 0
         /\ approves (decision p)
         /\ (uint256_max <= allowance st from (msg_sender ctx)
             \/ amount <= allowance st from (msg_sender ctx)
                /\ msg_sender ctx <> 0)
         /\ amount <= balanceOf st from)
    /\ (forall b st',
          transferWithKRNL ctx to amount p st = Return b st' ->
          performed (msg_sender ctx) to amount None st
            (transferWithKRNL ctx to amount p st))
    /\ (forall b st',
          transferFromWithKRNL ctx from to amount p st = Return b st' ->
          performed from to amount (Some (msg_sender ctx)) st
            (transferFromWithKRNL ctx from to amount p st))
    /\ (decision p <> Undecodable -> ~ approves (decision p) ->
         returned (checkTransferAllowed ctx p (msg_sender ctx) to amount st)
         = Some false
         /\ returned (checkTransferAllowed ctx p from to amount st)
            = Some false
         /\ (isAuthorized p (Abi.encode [Abi.VAddress to; Abi.VUint amount])
             = true ->
             to <> 0 ->
             transferWithKRNL ctx to amount p st
             = Revert (Error "Transfer denied due to risk assessment"))
         /\ (isAuthorized p
               (Abi.encode [Abi.VAddress from; Abi.VAddress to;
                            Abi.VUint amount]) = true ->
             from <> 0 -> to <> 0 ->
             transferFromWithKRNL ctx from to amount p st
             = Revert (Error "Transfer denied due to risk assessment"))).
Proof.
  intros ctx from to amount p st Hcf.
  split; [|split; [|split; [|split]]].
  - rewrite transferWithKRNL_cases.
    destruct (isAuthorized p _) eqn:Ha; cbn [negb].
    2:{ split; [refute_performed|intros (H & _); discriminate H]. }
    destruct (Z.eqb_spec to 0) as [Ht|Ht].
    { split; [refute_performed|intros (_ & H & _); contradiction]. }
    destruct (decision p) as [| |response] eqn:Hd.
    + split; [refute_performed|].
      intros (_ & _ & _ & [r [Hr _]] & _). discriminate Hr.
    + split; [refute_performed|].
      intros (_ & _ & _ & [r [Hr _]] & _). discriminate Hr.
    + pose proof (approves_Decided response (Hcf response eq_refl)) as Hap.
      destruct (keccak_eq (status (payload response)) "approved") eqn:Hk.
      2:{ split; [refute_performed|].
          intros (_ & _ & _ & H & _). apply Hap in H. discriminate H. }
      destruct (Z.eqb_spec (msg_sender ctx) 0) as [Hs|Hs].
      { unfold _transfer. rewrite Hs. cbn [Z.eqb revert].
        split; [refute_performed|].
        intros (_ & _ & H & _). contradiction. }
      rewrite _transfer_moves by assumption. rewrite balanceOf_assessed.
      destruct (Z.ltb_spec (balanceOf st (msg_sender ctx)) amount) as [Hb|Hb].
      * split; [refute_performed|]. intros (_ & _ & _ & _ & H). lia.
      * split.
        -- intros _. repeat split; try assumption.
           apply Hap. reflexivity.
        -- intros _. apply performed_by_the_owner.
  - rewrite transferFromWithKRNL_cases.
    destruct (isAuthorized p _) eqn:Ha; cbn [negb].
    2:{ split; [refute_performed|intros (H & _); discriminate H]. }
    destruct (Z.eqb_spec from 0) as [Hf|Hf].
    { split; [refute_performed|intros (_ & H & _); contradiction]. }
    destruct (Z.eqb_spec to 0) as [Ht|Ht].
    { split; [refute_performed|intros (_ & _ & H & _); contradiction]. }
    destruct (decision p) as [| |response] eqn:Hd.
    + split; [refute_performed|].
      intros (_ & _ & _ & [r [Hr _]] & _). discriminate Hr.
    + split; [refute_performed|].
      intros (_ & _ & _ & [r [Hr _]] & _). discriminate Hr.
    + pose proof (approves_Decided response (Hcf response eq_refl)) as Hap.
      destruct (keccak_eq (status (payload response)) "approved") eqn:Hk.
      2:{ split; [refute_performed|].
          intros (_ & _ & _ & H & _). apply Hap in H. discriminate H. }
      rewrite _spendAllowance_cases by assumption.
      change (allowance (assessed ctx from to amount response true st)
                from (msg_sender ctx))
        with (allowance st from (msg_sender ctx)).
      destruct (Z.ltb_spec (allowance st from (msg_sender ctx)) uint256_max)
        as [Hm|Hm].
      * destruct (Z.ltb_spec (allowance st from (msg_sender ctx)) amount)
          as [Hv|Hv].
        { split; [refute_performed|].
          intros (_ & _ & _ & _ & [H|[H _]] & _); lia. }
        destruct (Z.eqb_spec (msg_sender ctx) 0) as [Hs|Hs].
        { split; [refute_performed|].
          intros (_ & _ & _ & _ & [H|[_ H]] & _); [lia|contradiction]. }
        rewrite _transfer_moves by assumption.
        rewrite balanceOf_spent, balanceOf_assessed.
        destruct (Z.ltb_spec (balanceOf st from) amount) as [Hb|Hb].
        -- split; [refute_performed|]. intros (_ & _ & _ & _ & _ & H). lia.
        -- split.
           ++ intros _. repeat split; try assumption.
              ** apply Hap. reflexivity.
              ** right. split; assumption.
           ++ intros _. apply performed_on_an_allowance. exact Hm.
      * rewrite _transfer_moves by assumption. rewrite balanceOf_assessed.
        destruct (Z.ltb_spec (balanceOf st from) amount) as [Hb|Hb].
        -- split; [refute_performed|]. intros (_ & _ & _ & _ & _ & H). lia.
        -- split.
           ++ intros _. repeat split; try assumption.
              ** apply Hap. reflexivity.
              ** left. assumption.
           ++ intros _. apply performed_on_the_largest_allowance. exact Hm.
  - intros b st' H. pose proof H as H'.
    apply transferWithKRNL_returns in H'
      as (response & _ & _ & _ & _ & _ & -> & ->).
    rewrite H. apply performed_by_the_owner.
  - intros b st' H. pose proof H as H'.
    apply transferFromWithKRNL_returns in H'
      as (response & _ & _ & _ & _ & _ & -> & Hst).
    rewrite H. cbv zeta in Hst.
    destruct Hst as [(Hm & _ & _ & ->)|(Hm & ->)].
    + apply performed_on_an_allowance. exact Hm.
    + apply performed_on_the_largest_allowance. exact Hm.
  - intros Hu Hna.
    assert (Hfalse : forall f,
               returned (checkTransferAllowed ctx p f to amount st)
               = Some false).
    { intros f. rewrite checkTransferAllowed_decision.
      destruct (decision p) as [| |response] eqn:Hd;
        [contradiction|reflexivity|].
      pose proof (approves_Decided response (Hcf response eq_refl)) as Hap.
      destruct (keccak_eq (status (payload response)) "approved") eqn:Hk;
        [|reflexivity].
      exfalso. apply Hna, Hap. reflexivity. }
    split; [apply Hfalse|]. split; [apply Hfalse|].
    split.
    + intros Ha Ht. rewrite transferWithKRNL_cases, Ha. cbn [negb].
      apply Z.eqb_neq in Ht. rewrite Ht.
      destruct (decision p) as [| |response] eqn:Hd;
        [contradiction|reflexivity|].
      pose proof (approves_Decided response (Hcf response eq_refl)) as Hap.
      destruct (keccak_eq (status (payload response)) "approved") eqn:Hk;
        [|reflexivity].
      exfalso. apply Hna, Hap. reflexivity.
    + intros Ha Hf Ht. rewrite transferFromWithKRNL_cases, Ha. cbn [negb].
      apply Z.eqb_neq in Hf. apply Z.eqb_neq in Ht. rewrite Hf, Ht.
      destruct (decision p) as [| |response] eqn:Hd;
        [contradiction|reflexivity|].
      pose proof (approves_Decided response (Hcf response eq_refl)) as Hap.
      destruct (keccak_eq (status (payload response)) "approved") eqn:Hk;
        [|reflexivity].
      exfalso. apply Hna, Hap. reflexivity.
Qed.

(** C2, as the code has it: after a successful
    [transferWithKRNL(to, amount, krnlPayload)] by a sender other than
    [to], the sender's balance is lower by [amount] and that of [to]
    higher by [amount] (a sender who is [to] keeps the balance); the log
    has gained a [TransferAssessed] event with the sender, [to], the
    amount, the status of the decision, [true] and the block timestamp;
    and [getTransferAssessment] returns the decoded response for the key
    [keccak256(abi.encodePacked(sender, to, amount, block.timestamp))]. *)
Theorem successful_transfer_effects :
  forall (ctx : Call) (to amount : Z) (p : KrnlPayload) (st st' : State)
         (b : bool),
    transferWithKRNL ctx to amount p st = Return b st' ->
    exists response,
      b = true
      /\ decision p = Decided response
      /\ getTransferAssessment st'
           (transferHash (msg_sender ctx) to amount (block_timestamp ctx))
         = response
      /\ logs st'
         = logs st
           ++ [TransferAssessed (msg_sender ctx) to amount
                 (status (payload response)) true (block_timestamp ctx);
               Transfer (msg_sender ctx) to amount]
      /\ (msg_sender ctx <> to ->
          balanceOf st' (msg_sender ctx)
          = balanceOf st (msg_sender ctx) - amount
          /\ (0 <= balanceOf st to -> 0 <= amount ->
              balanceOf st to + amount <= uint256_max ->
              balanceOf st' to = balanceOf st to + amount))
      /\ (msg_sender ctx = to ->
          0 <= balanceOf st to <= uint256_max ->
          balanceOf st' to = balanceOf st to)
      /\ (forall a, a <> msg_sender ctx -> a <> to ->
                    balanceOf st' a = balanceOf st a).
Proof.
  intros ctx to amount p st st' b H.
  rewrite transferWithKRNL_cases in H.
  destruct (isAuthorized p _); cbn [negb] in H; [|discriminate H].
  destruct (Z.eqb_spec to 0) as [Ht|Ht]; [discriminate H|].
  destruct (decision p) as [| |response] eqn:Hd; try discriminate H.
  destruct (keccak_eq (status (payload response)) "approved");
    [|discriminate H].
  destruct (Z.eqb_spec (msg_sender ctx) 0) as [Hs|Hs].
  { unfold _transfer in H. rewrite Hs in H. cbn [Z.eqb revert] in H.
    discriminate H. }
  rewrite _transfer_moves in H by assumption.
  destruct (balanceOf _ (msg_sender ctx) <? amount); [discriminate H|].
  injection H as <- <-.
  exists response. split; [reflexivity|]. split; [reflexivity|].
  split.
  { unfold getTransferAssessment, moved, assessed.
    cbn [transferAssessments]. rewrite lookup_insert_eq. reflexivity. }
  split.
  { unfold moved, assessed. cbn [logs]. rewrite <- app_assoc. reflexivity. }
  split.
  { intros Hne. split.
    - rewrite balanceOf_moved_from by assumption.
      rewrite balanceOf_assessed. reflexivity.
    - intros H0 Ha Hm. rewrite balanceOf_moved_to by assumption.
      rewrite balanceOf_assessed. apply Z.mod_small.
      unfold uint256_max in Hm. lia. }
  split.
  { intros Heq Hr. rewrite Heq. rewrite balanceOf_moved_self.
    rewrite balanceOf_assessed. apply Z.mod_small.
    unfold uint256_max in Hr. lia. }
  intros a Ha1 Ha2. rewrite balanceOf_moved_other by assumption.
  apply balanceOf_assessed.
Qed.

(** C5, as the code has it: for a bundle with a single answer of kernel
    1657, [simulateTokenTransferVerification] allows what
    [checkTransferAllowed] allows, provided also that the risk level is
    not ["High"] and the risk score is at most 90; so the script never
    allows what the contract denies, and the two agree on every payload
    of another risk level and a score up to 90. *)
Theorem simulation_is_status_check_and_risk_checks :
  forall (ctx : Call) (from to amount : Z) (p : KrnlPayload) (st : State)
         (r : KernelResponse) (response : WebhookResponse),
    abi_decode_KernelResponses (kernelResponses p) = Some [r] ->
    kernelId r = 1657 ->
    abi_decode_WebhookResponse (result r) = Some response ->
    exists allowed,
      returned (checkTransferAllowed ctx p from to amount st) = Some allowed
      /\ allowed = keccak_eq (status (payload response)) "approved"
      /\ TestTokenTransfer.simulateTokenTransferVerification (payload response)
         = allowed
           && negb (keccak_eq (riskLevel (payload response)) "High")
           && (riskScore (payload response) <=? 90)
      /\ (TestTokenTransfer.simulateTokenTransferVerification
            (payload response) = true -> allowed = true)
      /\ (keccak_eq (riskLevel (payload response)) "High" = false ->
          riskScore (payload response) <= 90 ->
          TestTokenTransfer.simulateTokenTransferVerification
            (payload response) = allowed).
Proof.
  intros ctx from to amount p st r response Hrs Hk Hr.
  exists (keccak_eq (status (payload response)) "approved").
  assert (Hsim :
    TestTokenTransfer.simulateTokenTransferVerification (payload response)
    = keccak_eq (status (payload response)) "approved"
      && negb (keccak_eq (riskLevel (payload response)) "High")
      && (riskScore (payload response) <=? 90)).
  { unfold TestTokenTransfer.simulateTokenTransferVerification.
    destruct (keccak_eq (status (payload response)) "approved");
      cbn [negb andb]; [|reflexivity].
    destruct (keccak_eq (riskLevel (payload response)) "High");
      cbn [negb andb]; [reflexivity|].
    rewrite Z.gtb_ltb.
    destruct (Z.ltb_spec 90 (riskScore (payload response)));
      destruct (Z.leb_spec (riskScore (payload response)) 90);
      try reflexivity; lia. }
  split.
  { rewrite checkTransferAllowed_decision. unfold decision.
    rewrite Hrs. cbn [List.find]. unfold is_1657. rewrite Hk.
    cbn [Z.eqb Pos.eqb]. rewrite Hr. reflexivity. }
  split; [reflexivity|]. split; [exact Hsim|]. split.
  - rewrite Hsim. intros H.
    apply andb_true_iff in H as [H _]. apply andb_true_iff in H as [H _].
    exact H.
  - intros Hh Hsc. rewrite Hsim, Hh. cbn [negb].
    apply Z.leb_le in Hsc. rewrite Hsc.
    rewrite !andb_true_r. reflexivity.
Qed.

End ContractClaims.

(** ** The contract on the sample data *)

Section ContractScenarios.
Import Word Sol ERC20 TokenContract Terms Scenario.

(** The five cases of the script come out as the script expects. *)
Lemma script_test_cases_pass :
  forallb
    (fun tc =>
       Bool.eqb
         (TestTokenTransfer.simulateTokenTransferVerification
            (payload
               (TestTokenTransfer.testResponse
                  (TestTokenTransfer.tc_status tc)
                  (TestTokenTransfer.tc_riskLevel tc)
                  (TestTokenTransfer.tc_reason tc)
                  (TestTokenTransfer.tc_riskScore tc) "tx-0-test")))
         (TestTokenTransfer.expectedApproval tc))
    TestTokenTransfer.testCases = true.
Proof. vm_compute. reflexivity. Qed.

(** After deployment the deployer holds the whole supply. *)
Example genesis_supply :
  balanceOf genesis alice = 1000000 * 10 ^ 18
  /\ _totalSupply genesis = 1000000 * 10 ^ 18
  /\ contractOwner genesis = alice
  /\ logs genesis = [Transfer 0 alice (1000000 * 10 ^ 18)].
Proof.
  split; [vm_compute; reflexivity|]. split; [vm_compute; reflexivity|].
  split; vm_compute; reflexivity.
Qed.

(** [bob] moves half a token of [alice]'s to himself, within his
    allowance of one token and with an approved bundle. *)
Example transferFromWithKRNL_spends_the_allowance :
  let after :=
    fst (execute (@transferFromWithKRNL evm (call bob) alice bob half
                    (bundleFrom alice bob half approvedLow))
           genesisWithAllowance) in
  returned (@transferFromWithKRNL evm (call bob) alice bob half
              (bundleFrom alice bob half approvedLow) genesisWithAllowance)
  = Some true
  /\ balanceOf after bob = half
  /\ balanceOf after alice = 1000000 * 10 ^ 18 - half
  /\ allowance after alice bob = 10 ^ 18 - half.
Proof.
  cbv zeta.
  split; [vm_compute; reflexivity|]. split; [vm_compute; reflexivity|].
  split; vm_compute; reflexivity.
Qed.

(** Only the owner sets the owner. *)
Example setContractOwner_is_for_the_owner :
  execute (setContractOwner (call bob) bob) genesis
  = (genesis, Some (Error "Not owner"))
  /\ contractOwner (fst (execute (setContractOwner (call alice) bob) genesis))
     = bob.
Proof. split; vm_compute; reflexivity. Qed.

Lemma keccak_rejected_is_not_approved :
  keccak_eq "rejected" "approved" = false.
Proof. vm_compute. reflexivity. Qed.

(** None of the statuses the contract documents collides with
    ["approved"]. *)
Lemma documented_statuses_collision_free :
  Forall collision_free ["pending"; "approved"; "rejected"; "under_review"].
Proof.
  assert (H1 : keccak_eq "pending" "approved" = false)
    by (vm_compute; reflexivity).
  assert (H2 : keccak_eq "under_review" "approved" = false)
    by (vm_compute; reflexivity).
  pose proof keccak_rejected_is_not_approved as H3.
  repeat constructor; unfold collision_free; intros H;
    try reflexivity; congruence.
Qed.

(** C1, against the claim as stated, twice.  First, an authorized
    bundle whose only answer of kernel 1657 has status ["approved"],
    presented by [bob], who holds no tokens: the call reverts, and not
    with the risk message.  Second, a bundle whose decoded responses
    contain an answer of kernel 1657 with status ["approved"] after an
    earlier answer of the same kernel with status ["rejected"]: the
    bundle is authorized, the recipient is not the zero address and the
    sender holds the amount, and the call reverts all the same. *)
Lemma approval_in_the_bundle_does_not_make_the_transfer :
  (@decision evm (bundle alice half approvedLow) = Decided approvedLowResponse
   /\ status (payload approvedLowResponse) = "approved"
   /\ @transferWithKRNL evm (call bob) alice half
        (bundle alice half approvedLow) genesis
      = Revert (ERC20InsufficientBalance bob 0 half)
   /\ ~ performed bob alice half None genesis
          (@transferWithKRNL evm (call bob) alice half
             (bundle alice half approvedLow) genesis))
  /\ (SolAbi.decode_KernelResponses rejectedThenApproved
      = Some [rejectedAnswer; approvedAnswer]
      /\ kernelId approvedAnswer = 1657
      /\ option_map (fun r => status (payload r))
           (SolAbi.decode_WebhookResponse (result approvedAnswer))
         = Some "approved"
      /\ @isAuthorized evm (bundle bob half rejectedThenApproved)
           (Abi.encode [Abi.VAddress bob; Abi.VUint half]) = true
      /\ (half <=? balanceOf genesis alice) = true
      /\ @transferWithKRNL evm (call alice) bob half
           (bundle bob half rejectedThenApproved) genesis
         = Revert (Error "Transfer denied due to risk assessment")
      /\ ~ performed alice bob half None genesis
             (@transferWithKRNL evm (call alice) bob half
                (bundle bob half rejectedThenApproved) genesis)).
Proof.
  assert (H0 : @transferWithKRNL evm (call bob) alice half
                 (bundle alice half approvedLow) genesis
               = Revert (ERC20InsufficientBalance bob 0 half))
    by (vm_compute; reflexivity).
  assert (H : @transferWithKRNL evm (call alice) bob half
                (bundle bob half rejectedThenApproved) genesis
              = Revert (Error "Transfer denied due to risk assessment"))
    by (vm_compute; reflexivity).
  split.
  - split; [vm_compute; reflexivity|].
    split; [reflexivity|].
    split; [exact H0|].
    intros [st' [H' _]]. rewrite H0 in H'. discriminate H'.
  - split; [vm_compute; reflexivity|].
    split; [reflexivity|].
    split; [vm_compute; reflexivity|].
    split; [vm_compute; reflexivity|].
    split; [vm_compute; reflexivity|].
    split; [exact H|].
    intros [st' [H' _]]. rewrite H in H'. discriminate H'.
Qed.

Lemma transfer_follows_first_kernel_1657_answer_witness :
  (forall response,
      @decision evm (bundle bob half approvedLow) = Decided response ->
      collision_free (status (payload response)))
  /\ performed alice bob half None genesis
       (@transferWithKRNL evm (call alice) bob half
          (bundle bob half approvedLow) genesis).
Proof.
  assert (Hd : @decision evm (bundle bob half approvedLow)
               = Decided approvedLowResponse) by (vm_compute; reflexivity).
  assert (Hc : forall response,
             @decision evm (bundle bob half approvedLow) = Decided response ->
             collision_free (status (payload response))).
  { intros response H. rewrite Hd in H. injection H as <-.
    intros _. reflexivity. }
  split; [exact Hc|].
  apply (proj1 (@transfer_follows_first_kernel_1657_answer evm (call alice)
                  alice bob half (bundle bob half approvedLow) genesis Hc)).
  split; [vm_compute; reflexivity|].
  split; [discriminate|].
  split; [discriminate|].
  split; [exists approvedLowResponse; split; [exact Hd|reflexivity]|].
  apply Z.leb_le. vm_compute. reflexivity.
Defined.

Lemma denied_call_reverts_and_changes_nothing_witness :
  @decision evm (bundle bob half rejectedHigh) = Decided rejectedHighResponse
  /\ status (payload rejectedHighResponse) <> "approved"
  /\ collision_free (status (payload rejectedHighResponse))
  /\ (exists r,
        execute (@transferWithKRNL evm (call alice) bob half
                   (bundle bob half rejectedHigh)) genesis
        = (genesis, Some r))
  /\ (forall a,
        balanceOf
          (fst (execute (@transferWithKRNL evm (call alice) bob half
                           (bundle bob half rejectedHigh)) genesis)) a
        = balanceOf genesis a).
Proof.
  assert (Hd : @decision evm (bundle bob half rejectedHigh)
               = Decided rejectedHighResponse) by (vm_compute; reflexivity).
  assert (Hs : status (payload rejectedHighResponse) <> "approved")
    by discriminate.
  assert (Hc : collision_free (status (payload rejectedHighResponse))).
  { intros H. change (keccak_eq "rejected" "approved" = true) in H.
    rewrite keccak_rejected_is_not_approved in H. discriminate H. }
  pose proof (@denied_call_reverts_and_changes_nothing evm (call alice)
                alice bob half (bundle bob half rejectedHigh) genesis
                rejectedHighResponse Hd Hs Hc) as (H1 & _ & H3).
  split; [exact Hd|]. split; [exact Hs|]. split; [exact Hc|].
  split; [exact H1|]. intros a. apply (proj1 (H3 a)).
Defined.

(** C2, against the claim as stated: a successful
    [transferWithKRNL] of half a token from [alice] to [alice]; her
    balance is what it was, not lower by the amount. *)
Lemma self_transfer_keeps_the_balance :
  returned (@transferWithKRNL evm (call alice) alice half
              (bundle alice half approvedLow) genesis) = Some true
  /\ balanceOf
       (fst (execute (@transferWithKRNL evm (call alice) alice half
                        (bundle alice half approvedLow)) genesis)) alice
     = balanceOf genesis alice
  /\ balanceOf
       (fst (execute (@transferWithKRNL evm (call alice) alice half
                        (bundle alice half approvedLow)) genesis)) alice
     <> balanceOf genesis alice - half.
Proof.
  split; [vm_compute; reflexivity|].
  split; [vm_compute; reflexivity|].
  vm_compute. discriminate.
Qed.

Lemma successful_transfer_effects_witness :
  exists st',
    @transferWithKRNL evm (call alice) bob half
      (bundle bob half approvedLow) genesis = Return true st'
    /\ balanceOf st' alice = balanceOf genesis alice - half
    /\ balanceOf st' bob = balanceOf genesis bob + half
    /\ getTransferAssessment st' (transferHash alice bob half 1705314600)
       = approvedLowResponse.
Proof.
  set (st0 := fst (execute (@transferWithKRNL evm (call alice) bob half
                              (bundle bob half approvedLow)) genesis)).
  assert (E : @transferWithKRNL evm (call alice) bob half
                (bundle bob half approvedLow) genesis = Return true st0)
    by (vm_compute; reflexivity).
  assert (Hd0 : @decision evm (bundle bob half approvedLow)
                = Decided approvedLowResponse) by (vm_compute; reflexivity).
  destruct (@successful_transfer_effects evm (call alice) bob half
              (bundle bob half approvedLow) genesis st0 true E)
    as (response & _ & Hd & Hg & _ & Hne & _).
  rewrite Hd0 in Hd. injection Hd as <-.
  assert (Hab : msg_sender (call alice) <> bob) by discriminate.
  destruct (Hne Hab) as [H1 H2].
  exists st0. split; [exact E|]. split; [exact H1|].
  split; [|exact Hg].
  apply H2.
  - apply Z.leb_le. vm_compute. reflexivity.
  - apply Z.leb_le. vm_compute. reflexivity.
  - apply Z.leb_le. vm_compute. reflexivity.
Defined.

(** C5, against the claim as stated: an approval that names a high risk
    is turned down by the script and let through by the contract. *)
Lemma script_denies_what_contract_allows :
  TestTokenTransfer.simulateTokenTransferVerification
    (payload approvedHighResponse) = false
  /\ SolAbi.decode_KernelResponses approvedHigh = Some [approvedHighAnswer]
  /\ SolAbi.decode_WebhookResponse (result approvedHighAnswer)
     = Some approvedHighResponse
  /\ returned (@checkTransferAllowed evm (call alice)
                 (bundle bob half approvedHigh) alice bob half genesis)
     = Some true.
Proof.
  split; [vm_compute; reflexivity|].
  split; [vm_compute; reflexivity|].
  split; vm_compute; reflexivity.
Qed.

Lemma simulation_is_status_check_and_risk_checks_witness :
  exists allowed,
    returned (@checkTransferAllowed evm (call alice)
                (bundle bob half approvedHigh) alice bob half genesis)
    = Some allowed
    /\ TestTokenTransfer.simulateTokenTransferVerification
         (payload approvedHighResponse)
       = allowed
         && negb (keccak_eq (riskLevel (payload approvedHighResponse)) "High")
         && (riskScore (payload approvedHighResponse) <=? 90).
Proof.
  destruct (@simulation_is_status_check_and_risk_checks evm (call alice) alice bob
              half (bundle bob half approvedHigh) genesis approvedHighAnswer
              approvedHighResponse)
    as (allowed & H1 & _ & H2 & _);
    [vm_compute; reflexivity | reflexivity | vm_compute; reflexivity |].
  exists allowed. split; assumption.
Defined.

End ContractScenarios.

(** ** Numbers: printing, and parsing as fixed-point values *)

Section NumberFacts.
Import JS Ethers Terms.

Lemma digit_cases (d : Z) :
  0 <= d < 10 ->
  d = 0 \/ d = 1 \/ d = 2 \/ d = 3 \/ d = 4 \/ d = 5 \/ d = 6 \/ d = 7
  \/ d = 8 \/ d = 9.
Proof. lia. Qed.

Lemma digit_ascii_facts (d : Z) :
  0 <= d < 10 ->
  digit_value (digit_ascii d) = d
  /\ is_digit (digit_ascii d) = true
  /\ Ascii.eqb "0" (digit_ascii d) = (d =? 0).
Proof.
  intros H. destruct (digit_cases d H) as [->|[->|[->|[->|[->|[->|[->|[->|[->| ->]]]]]]]]];
    repeat split; reflexivity.
Qed.

Lemma mod10_digit (n : Z) : 0 <= n mod 10 < 10.
Proof. apply Z.mod_pos_bound. lia. Qed.

Lemma fold_digits_from (cs : list ascii) (acc : Z) :
  fold_left (fun acc c => acc * 10 + digit_value c) cs acc
  = acc * 10 ^ Z.of_nat (length cs) + digits_value cs.
Proof.
  unfold digits_value. revert acc.
  induction cs as [|c cs IH]; intros acc.
  - cbn. lia.
  - cbn [fold_left length]. rewrite IH, (IH (0 * 10 + digit_value c)).
    rewrite Nat2Z.inj_succ, Z.pow_succ_r by lia. lia.
Qed.

Lemma digits_value_app (a b : list ascii) :
  digits_value (a ++ b)
  = digits_value a * 10 ^ Z.of_nat (length b) + digits_value b.
Proof.
  unfold digits_value at 1. rewrite fold_left_app.
  rewrite fold_digits_from. reflexivity.
Qed.

Lemma digits_value_zeros (n : nat) : digits_value (repeat "0"%char n) = 0.
Proof.
  induction n as [|n IH]; [reflexivity|].
  change (repeat "0"%char (S n)) with (["0"%char] ++ repeat "0"%char n).
  rewrite digits_value_app, IH. reflexivity.
Qed.

Lemma length_digits_fixed (k : nat) (n : Z) : length (digits_fixed k n) = k.
Proof.
  revert n. induction k as [|k IH]; intros n; cbn [digits_fixed].
  - reflexivity.
  - rewrite length_app, IH. cbn. lia.
Qed.

Lemma digits_value_digits_fixed (k : nat) (n : Z) :
  digits_value (digits_fixed k n) = n mod 10 ^ Z.of_nat k.
Proof.
  revert n. induction k as [|k IH]; intros n.
  - cbn. rewrite Z.mod_1_r. reflexivity.
  - cbn [digits_fixed]. rewrite digits_value_app, IH.
    cbn [length]. change (digits_value [digit_ascii (n mod 10)])
      with (0 * 10 + digit_value (digit_ascii (n mod 10))).
    rewrite (proj1 (digit_ascii_facts _ (mod10_digit n))).
    change (Z.of_nat 1) with 1. rewrite Z.pow_1_r.
    rewrite (Nat2Z.inj_succ k), Z.pow_succ_r by lia.
    rewrite (Z.rem_mul_r n 10 (10 ^ Z.of_nat k)) by lia. lia.
Qed.

Lemma digits_fixed_all_digits (k : nat) (n : Z) :
  forallb is_digit (digits_fixed k n) = true.
Proof.
  revert n. induction k as [|k IH]; intros n; cbn [digits_fixed].
  - reflexivity.
  - rewrite forallb_app, IH. cbn.
    rewrite (proj1 (proj2 (digit_ascii_facts _ (mod10_digit n)))).
    reflexivity.
Qed.

Lemma strip_leading_zeros_value (cs : list ascii) :
  digits_value (strip_leading_zeros cs) = digits_value cs.
Proof.
  induction cs as [|c cs IH]; [reflexivity|].
  destruct cs as [|c' cs']; [reflexivity|].
  change (strip_leading_zeros (c :: c' :: cs'))
    with (if Ascii.eqb c "0" then strip_leading_zeros (c' :: cs')
          else c :: c' :: cs').
  destruct (Ascii.eqb_spec c "0") as [->|Hc]; [|reflexivity].
  rewrite IH.
  change ("0"%char :: c' :: cs') with (["0"%char] ++ (c' :: cs')).
  rewrite digits_value_app. reflexivity.
Qed.

Lemma strip_leading_zeros_digits (cs : list ascii) :
  forallb is_digit cs = true ->
  forallb is_digit (strip_leading_zeros cs) = true.
Proof.
  induction cs as [|c cs IH]; [reflexivity|].
  destruct cs as [|c' cs']; [intros H; exact H|].
  change (strip_leading_zeros (c :: c' :: cs'))
    with (if Ascii.eqb c "0" then strip_leading_zeros (c' :: cs')
          else c :: c' :: cs').
  intros H.
  destruct (Ascii.eqb c "0"); [|exact H].
  apply IH. cbn [forallb] in H. apply andb_true_iff in H as [_ H]. exact H.
Qed.

Lemma strip_leading_zeros_nonempty (cs : list ascii) :
  cs <> [] -> strip_leading_zeros cs <> [].
Proof.
  induction cs as [|c cs IH]; [congruence|].
  destruct cs as [|c' cs']; [intros _; discriminate|].
  change (strip_leading_zeros (c :: c' :: cs'))
    with (if Ascii.eqb c "0" then strip_leading_zeros (c' :: cs')
          else c :: c' :: cs').
  intros _.
  destruct (Ascii.eqb c "0"); [|discriminate].
  apply IH. discriminate.
Qed.

Lemma digit_count_bound (n : Z) :
  0 <= n -> n < 10 ^ Z.of_nat (digit_count n).
Proof.
  intros Hn. unfold digit_count.
  rewrite Nat2Z.inj_succ, Z2Nat.id by apply Z.log2_nonneg.
  destruct (Z.eq_dec n 0) as [->|Hz].
  - cbn. lia.
  - pose proof (Z.log2_spec n ltac:(lia)) as [_ Hlt].
    assert (2 ^ Z.succ (Z.log2 n) <= 10 ^ Z.succ (Z.log2 n)).
    { apply Z.pow_le_mono_l. lia. }
    lia.
Qed.

Lemma integer_chars_facts (n : Z) :
  0 <= n ->
  digits_value (integer_chars n) = n
  /\ forallb is_digit (integer_chars n) = true
  /\ integer_chars n <> [].
Proof.
  intros Hn. unfold integer_chars. repeat split.
  - rewrite strip_leading_zeros_value, digits_value_digits_fixed.
    apply Z.mod_small. split; [lia|apply digit_count_bound; lia].
  - apply strip_leading_zeros_digits, digits_fixed_all_digits.
  - apply strip_leading_zeros_nonempty.
    intros H. apply (f_equal (@length ascii)) in H.
    rewrite length_digits_fixed in H. discriminate H.
Qed.

Lemma span_digits_app (ds rest : list ascii) :
  forallb is_digit ds = true ->
  match rest with [] => True | c :: _ => is_digit c = false end ->
  span_digits (ds ++ rest) = (ds, rest).
Proof.
  intros Hd Hr. induction ds as [|d ds IH].
  - cbn [app]. destruct rest as [|c rest]; [reflexivity|].
    cbn [span_digits]. rewrite Hr. reflexivity.
  - cbn [forallb] in Hd. apply andb_true_iff in Hd as [Hd1 Hd2].
    cbn [app span_digits]. rewrite Hd1, (IH Hd2). reflexivity.
Qed.

Lemma span_digits_all (ds : list ascii) :
  forallb is_digit ds = true -> span_digits ds = (ds, []).
Proof.
  intros H. rewrite <- (app_nil_r ds) at 1. apply span_digits_app; [exact H|exact I].
Qed.


Lemma is_digit_not_minus (c : ascii) :
  is_digit c = true -> Ascii.eqb c "-" = false.
Proof.
  intros H. destruct (Ascii.eqb_spec c "-") as [->|]; [|reflexivity].
  discriminate H.
Qed.

Lemma parse_fixed_signed (negative : bool) (d : ascii) (rest : list ascii)
    (decimals : nat) :
  is_digit d = true ->
  parse_fixed ((if negative then ["-"%char] else []) ++ d :: rest) decimals
  = parse_unsigned negative (d :: rest) decimals.
Proof.
  intros Hd. destruct negative; cbn [app parse_fixed].
  - reflexivity.
  - rewrite (is_digit_not_minus d Hd). reflexivity.
Qed.

(** Digits, then a point and a fraction when there is one. *)
Lemma parse_unsigned_decimal (negative : bool) (W F : list ascii) :
  forallb is_digit W = true -> W <> [] ->
  forallb is_digit F = true ->
  parse_unsigned negative
    (W ++ (if (length F =? 0)%nat then [] else "."%char :: F)) 18
  = let padded := F ++ repeat "0"%char (18 - length F) in
    if negb (forallb (Ascii.eqb "0") (drop 18 padded)) then None
    else
      let magnitude := digits_value (W ++ take 18 padded) in
      let v := if negative then - magnitude else magnitude in
      if (- 2 ^ 511 <=? v) && (v <? 2 ^ 511) then Some v else None.
Proof.
  intros HW HWne HF. unfold parse_unsigned.
  destruct F as [|f F'].
  - cbn [length Nat.eqb]. rewrite span_digits_app by (exact HW || exact I).
    cbn [span_digits].
    destruct W as [|w W']; [congruence|]. reflexivity.
  - cbn [length Nat.eqb].
    rewrite span_digits_app by (exact HW || reflexivity).
    cbn [Ascii.eqb Bool.eqb].
    rewrite span_digits_all by exact HF.
    destruct W as [|w W']; [congruence|].
    cbn [length Nat.add Nat.eqb]. reflexivity.
Qed.

Lemma drop_digits_fixed_nonzero (k : nat) (n : Z) :
  (18 <= k)%nat -> n mod 10 <> 0 ->
  forallb (Ascii.eqb "0") (drop 18 (digits_fixed (S k) n)) = false.
Proof.
  intros Hk Hn. cbn [digits_fixed].
  rewrite drop_app_le by (rewrite length_digits_fixed; exact Hk).
  rewrite forallb_app. cbn [forallb].
  rewrite (proj2 (proj2 (digit_ascii_facts _ (mod10_digit n)))).
  apply Z.eqb_neq in Hn. rewrite Hn. cbn. apply andb_false_r.
Qed.

Lemma normalize_last_digit (m : Z) (e : nat) (m' : Z) (e' : nat) :
  normalize m e = (m', e') -> e' = O \/ m' mod 10 <> 0.
Proof.
  revert m. induction e as [|e IH]; intros m; cbn [normalize].
  - intros H. injection H as _ <-. left. reflexivity.
  - destruct (Z.eqb_spec (m mod 10) 0) as [Hz|Hz].
    + apply IH.
    + intros H. injection H as <- <-. right. exact Hz.
Qed.

Lemma normalize_value (m : Z) (e : nat) (m' : Z) (e' : nat) :
  normalize m e = (m', e') ->
  (e' <= e)%nat /\ m = m' * 10 ^ Z.of_nat (e - e').
Proof.
  revert m. induction e as [|e IH]; intros m; cbn [normalize].
  - intros H. injection H as <- <-. split; [lia|]. cbn. lia.
  - destruct (Z.eqb_spec (m mod 10) 0) as [Hz|Hz].
    + intros H. destruct (IH _ H) as [Hle Hv]. split; [lia|].
      replace (S e - e')%nat with (S (e - e')) by lia.
      rewrite Nat2Z.inj_succ, Z.pow_succ_r by lia.
      pose proof (Z.div_mod m 10 ltac:(lia)). lia.
    + intros H. injection H as <- <-. split; [lia|].
      rewrite Nat.sub_diag. cbn. lia.
Qed.

Lemma strip_trailing_zeros_nonneg (fuel : nat) (m : Z) :
  0 <= m -> 0 <= strip_trailing_zeros fuel m.
Proof.
  revert m. induction fuel as [|f IH]; intros m Hm; cbn [strip_trailing_zeros].
  - exact Hm.
  - destruct ((m mod 10 =? 0) && negb (m =? 0)); [|exact Hm].
    apply IH. apply Z.div_pos; lia.
Qed.

(** The exponent form is no fixed-point numeral. *)
Lemma parse_unsigned_exponent (negative : bool) (a : Z) (e : nat) :
  0 <= a ->
  (exists d rest, exponent_chars a e = d :: rest /\ is_digit d = true)
  /\ parse_unsigned negative (exponent_chars a e) 18 = None.
Proof.
  intros Ha. unfold exponent_chars.
  set (all := integer_chars a).
  set (sig := integer_chars (strip_trailing_zeros (length all) a)).
  set (tail := "e"%char
                 :: (if Z.of_nat (length all) - 1 - Z.of_nat e <? 0
                     then "-"%char else "+"%char)
                 :: integer_chars
                      (Z.abs (Z.of_nat (length all) - 1 - Z.of_nat e))).
  destruct (integer_chars_facts (strip_trailing_zeros (length all) a)
              (strip_trailing_zeros_nonneg _ _ Ha)) as (_ & Hdig & Hne).
  fold sig in Hdig, Hne.
  destruct sig as [|d sig']; [congruence|].
  cbn [forallb] in Hdig. apply andb_true_iff in Hdig as [Hd Hrest].
  change (take 1 (d :: sig')) with [d].
  change (drop 1 (d :: sig')) with sig'.
  cbn [length].
  split.
  - exists d. eexists. split; [reflexivity|exact Hd].
  - unfold parse_unsigned.
    destruct sig' as [|d' sig''].
    + cbn [length Nat.eqb app span_digits]. rewrite Hd.
      cbn [span_digits is_digit]. reflexivity.
    + cbn [length Nat.eqb].
      change ([d] ++ ("."%char :: d' :: sig'') ++ tail)
        with ([d] ++ "."%char :: (d' :: sig'') ++ tail).
      rewrite span_digits_app;
        [|cbn [forallb]; rewrite Hd; reflexivity|reflexivity].
      cbn [Ascii.eqb Bool.eqb].
      rewrite span_digits_app; [|exact Hrest|reflexivity].
      reflexivity.
Qed.

Lemma abs_mod10 (m : Z) : m mod 10 <> 0 -> Z.abs m mod 10 <> 0.
Proof.
  intros H Hc. apply H.
  apply Z.mod_divide in Hc; [|lia].
  apply Z.mod_divide; [lia|]. apply Z.divide_abs_r. exact Hc.
Qed.

(** [toWei] on a number, in closed form. *)
Lemma parse_fixed_number (m : Z) (e : nat) :
  parse_fixed (number_chars (Finite m e)) 18 = scaled m e.
Proof.
  unfold number_chars, scaled.
  destruct (normalize m e) as [m' e'] eqn:Hn.
  pose proof (normalize_last_digit _ _ _ _ Hn) as Hlast.
  destruct (Z.eqb_spec (Z.abs m') 0) as [Ha|Ha].
  { assert (m' = 0) by lia. subst m'. reflexivity. }
  assert (Hm' : m' <> 0) by lia.
  apply Z.eqb_neq in Hm'. rewrite Hm'. apply Z.eqb_neq in Hm'.
  assert (Hpos : 0 < Z.abs m') by lia.
  destruct (uses_exponent (Z.abs m') e') eqn:Hexp.
  - destruct (parse_unsigned_exponent (m' <? 0) (Z.abs m') e' ltac:(lia))
      as [(d & rest & Hdr & Hd) Hnone].
    rewrite Hdr, parse_fixed_signed by exact Hd.
    rewrite <- Hdr. exact Hnone.
  - set (a := Z.abs m') in *.
    set (W := integer_chars (a / 10 ^ Z.of_nat e')).
    set (F := digits_fixed e' (a mod 10 ^ Z.of_nat e')).
    assert (Hp : 0 < 10 ^ Z.of_nat e') by (apply Z.pow_pos_nonneg; lia).
    destruct (integer_chars_facts (a / 10 ^ Z.of_nat e')
                ltac:(apply Z.div_pos; lia)) as (HWv & HWd & HWne).
    fold W in HWv, HWd, HWne.
    assert (HFl : length F = e') by apply length_digits_fixed.
    assert (HFd : forallb is_digit F = true) by apply digits_fixed_all_digits.
    replace (if (e' =? 0)%nat then [] else "."%char :: F)
      with (if (length F =? 0)%nat then [] else "."%char :: F)
      by (rewrite HFl; reflexivity).
    destruct W as [|w W'] eqn:EW; [congruence|].
    cbn [forallb] in HWd. apply andb_true_iff in HWd as [Hw HW'].
    change ((w :: W') ++ ?x) with (w :: (W' ++ x)).
    rewrite parse_fixed_signed by exact Hw.
    change (w :: W' ++ ?x) with ((w :: W') ++ x).
    rewrite parse_unsigned_decimal;
      [|cbn [forallb]; rewrite Hw; exact HW'|discriminate|exact HFd].
    cbv zeta. rewrite HFl.
    unfold uses_exponent in Hexp. apply orb_false_iff in Hexp as [Hhi Hlo].
    apply Z.leb_gt in Hhi. apply Z.ltb_ge in Hlo.
    destruct (Nat.leb_spec e' 18) as [Hle|Hgt].
    + rewrite drop_ge by (rewrite length_app, repeat_length, HFl; lia).
      cbn [forallb negb].
      rewrite take_ge by (rewrite length_app, repeat_length, HFl; lia).
      rewrite digits_value_app, digits_value_app, digits_value_zeros.
      rewrite length_app, !repeat_length, HFl.
      rewrite HWv. unfold F. rewrite digits_value_digits_fixed.
      rewrite Z.mod_mod by lia.
      replace (e' + (18 - e'))%nat with 18%nat by lia.
      assert (H18 : 10 ^ Z.of_nat 18
                    = 10 ^ Z.of_nat e' * 10 ^ Z.of_nat (18 - e')).
      { rewrite <- Z.pow_add_r by lia. f_equal. lia. }
      assert (Hq : 0 < 10 ^ Z.of_nat (18 - e'))
        by (apply Z.pow_pos_nonneg; lia).
      assert (Hmag : a / 10 ^ Z.of_nat e' * 10 ^ Z.of_nat 18
                     + (a mod 10 ^ Z.of_nat e' * 10 ^ Z.of_nat (18 - e') + 0)
                     = a * 10 ^ Z.of_nat (18 - e')).
      { rewrite H18. pose proof (Z.div_mod a (10 ^ Z.of_nat e') ltac:(lia)).
        nia. }
      rewrite Hmag.
      assert (Hbound : a * 10 ^ Z.of_nat (18 - e') < 10 ^ 39).
      { change (10 ^ 39) with (10 ^ 21 * 10 ^ Z.of_nat 18).
        rewrite H18. nia. }
      assert (H511 : 10 ^ 39 < 2 ^ 511) by reflexivity.
      assert (Hsign : (if m' <? 0 then - (a * 10 ^ Z.of_nat (18 - e'))
                       else a * 10 ^ Z.of_nat (18 - e'))
                      = m' * 10 ^ Z.of_nat (18 - e')).
      { unfold a. destruct (Z.ltb_spec m' 0); [rewrite Z.abs_neq|rewrite Z.abs_eq];
          lia. }
      rewrite Hsign.
      assert (Hr : - 2 ^ 511 <= m' * 10 ^ Z.of_nat (18 - e') < 2 ^ 511).
      { rewrite <- Hsign. destruct (m' <? 0); nia. }
      destruct Hr as [Hr1 Hr2].
      apply Z.leb_le in Hr1. apply Z.ltb_lt in Hr2. rewrite Hr1, Hr2.
      reflexivity.
    + replace (18 - e')%nat with O by lia. cbn [repeat]. rewrite app_nil_r.
      destruct Hlast as [->|Hlast]; [lia|].
      destruct e' as [|k]; [lia|].
      unfold F. rewrite drop_digits_fixed_nonzero; [reflexivity|lia|].
      rewrite Z.mod_mod_divide.
      * apply abs_mod10. exact Hlast.
      * rewrite Nat2Z.inj_succ, Z.pow_succ_r by lia.
        apply Z.divide_factor_l.
Qed.

Lemma toWei_number (m : Z) (e : nat) :
  Builder.toWei (JNumber (Finite m e)) = scaled m e.
Proof.
  unfold Builder.toWei, parseUnits, number_toString.
  rewrite list_ascii_of_string_of_list_ascii. apply parse_fixed_number.
Qed.

Lemma scaled_exact (m : Z) (e : nat) (w : Z) :
  scaled m e = Some w -> w * 10 ^ Z.of_nat e = m * 10 ^ 18.
Proof.
  unfold scaled. destruct (normalize m e) as [m' e'] eqn:Hn.
  destruct (normalize_value _ _ _ _ Hn) as [Hle Hv].
  destruct (Z.eqb_spec m' 0) as [Hz|Hz].
  - intros H. injection H as <-. subst m'. lia.
  - destruct (uses_exponent (Z.abs m') e'); [discriminate|].
    destruct (Nat.leb_spec e' 18) as [H18|H18]; [|discriminate].
    intros H. injection H as <-. rewrite Hv.
    replace (10 ^ 18) with (10 ^ Z.of_nat (18 - e') * 10 ^ Z.of_nat e').
    2:{ rewrite <- Z.pow_add_r by lia. f_equal. lia. }
    replace (10 ^ Z.of_nat e)
      with (10 ^ Z.of_nat (e - e') * 10 ^ Z.of_nat e').
    2:{ rewrite <- Z.pow_add_r by lia. f_equal. lia. }
    ring.
Qed.

Lemma scaled_in_range (m : Z) (e : nat) (w : Z) :
  0 < m -> scaled m e = Some w -> 0 < w < 10 ^ 39.
Proof.
  intros Hm. unfold scaled. destruct (normalize m e) as [m' e'] eqn:Hn.
  destruct (normalize_value _ _ _ _ Hn) as [Hle Hv].
  assert (Hp : 0 < 10 ^ Z.of_nat (e - e')) by (apply Z.pow_pos_nonneg; lia).
  assert (Hm' : 0 < m') by nia.
  destruct (Z.eqb_spec m' 0) as [Hz|Hz]; [lia|].
  destruct (uses_exponent (Z.abs m') e') eqn:Hexp; [discriminate|].
  destruct (Nat.leb_spec e' 18) as [H18|H18]; [|discriminate].
  intros H. injection H as <-.
  unfold uses_exponent in Hexp. apply orb_false_iff in Hexp as [Hhi _].
  apply Z.leb_gt in Hhi. rewrite Z.abs_eq in Hhi by lia.
  assert (Hq : 0 < 10 ^ Z.of_nat (18 - e')) by (apply Z.pow_pos_nonneg; lia).
  assert (Hp' : 0 < 10 ^ Z.of_nat e') by (apply Z.pow_pos_nonneg; lia).
  split; [nia|].
  change (10 ^ 39) with (10 ^ 21 * 10 ^ Z.of_nat 18).
  replace (10 ^ Z.of_nat 18)
    with (10 ^ Z.of_nat e' * 10 ^ Z.of_nat (18 - e')).
  2:{ rewrite <- Z.pow_add_r by lia. f_equal. lia. }
  nia.
Qed.

(** A positive amount of at most 18 decimals, from [1e-6] and below
    [1e21], is converted. *)
Lemma scaled_total (m : Z) (e : nat) :
  0 < m -> (e <= 18)%nat ->
  10 ^ Z.of_nat e <= m * 10 ^ 6 -> m < 10 ^ 21 * 10 ^ Z.of_nat e ->
  scaled m e = Some (m * 10 ^ Z.of_nat (18 - e)).
Proof.
  intros Hm He Hlo Hhi. unfold scaled.
  destruct (normalize m e) as [m' e'] eqn:Hn.
  destruct (normalize_value _ _ _ _ Hn) as [Hle Hv].
  assert (Hp : 0 < 10 ^ Z.of_nat (e - e')) by (apply Z.pow_pos_nonneg; lia).
  assert (Hp' : 0 < 10 ^ Z.of_nat e') by (apply Z.pow_pos_nonneg; lia).
  assert (He' : 10 ^ Z.of_nat e = 10 ^ Z.of_nat (e - e') * 10 ^ Z.of_nat e').
  { rewrite <- Z.pow_add_r by lia. f_equal. lia. }
  assert (Hm' : 0 < m') by nia.
  destruct (Z.eqb_spec m' 0) as [Hz|Hz]; [lia|].
  assert (Hexp : uses_exponent (Z.abs m') e' = false).
  { unfold uses_exponent. rewrite Z.abs_eq by lia.
    apply orb_false_iff. split; [apply Z.leb_gt|apply Z.ltb_ge].
    - rewrite He', Hv in Hhi. nia.
    - rewrite He', Hv in Hlo. nia. }
  rewrite Hexp.
  destruct (Nat.leb_spec e' 18) as [H18|H18]; [|lia].
  f_equal. rewrite Hv.
  replace (10 ^ Z.of_nat (18 - e'))
    with (10 ^ Z.of_nat (e - e') * 10 ^ Z.of_nat (18 - e)).
  2:{ rewrite <- Z.pow_add_r by lia. f_equal. lia. }
  ring.
Qed.

End NumberFacts.

(** ** The attestation request builder *)

Section BuilderFacts.
Import Word JS Ethers Builder Terms.
Context {parser : AddressParser} (config : Config).

Lemma encode_address_range (v : value) (a : Z) :
  encode_address v = Some a -> is_address a = true.
Proof.
  unfold encode_address. destruct v; try discriminate.
  destruct (getAddress s) as [a'|]; [|discriminate].
  destruct (is_address a') eqn:E; [|discriminate].
  intros H. injection H as <-. exact E.
Qed.

(** The runs of [executeTokenTransfer] that reach the network call. *)
Lemma executeTokenTransfer_submits amb sender recipient amount
      entryId accessToken req blob :
  executeTokenTransfer config amb sender recipient amount
  = ExecuteKernels entryId accessToken req blob ->
  truthy sender = true /\ truthy recipient = true
  /\ number_truthy amount = true /\ number_le_zero amount = false
  /\ entryId = ENTRY_ID config /\ accessToken = ACCESS_TOKEN config
  /\ req = kernelRequest sender (KERNEL_ID config)
             (requestBody amb (JString (generateTransactionId amb))
                (JNumber (Finite 5 1)))
  /\ exists a w,
       encode_address recipient = Some a
       /\ toWei (JNumber amount) = Some w
       /\ is_uint256 w = true
       /\ blob = Abi.encode [Abi.VAddress a; Abi.VUint w].
Proof.
  unfold executeTokenTransfer.
  destruct (truthy sender); cbn [negb orb]; [|discriminate].
  destruct (truthy recipient); cbn [negb orb]; [|discriminate].
  destruct (number_truthy amount); cbn [negb orb]; [|discriminate].
  destruct (number_le_zero amount); [discriminate|].
  destruct (toWei (JNumber amount)) as [w|]; [|discriminate].
  unfold encode_address_uint256, check_uint256.
  destruct (encode_address recipient) as [a|]; [|discriminate].
  destruct (is_uint256 w) eqn:Hw; [|discriminate].
  intros H. injection H as <- <- <- <-.
  repeat split. exists a, w. repeat split. exact Hw.
Qed.

Lemma member_bodyOf sender kernelId body :
  bodyOf kernelId (kernelRequest sender kernelId body) = body.
Proof.
  unfold bodyOf, kernelRequest.
  cbn [member lookup_prop String.eqb Ascii.eqb Bool.eqb].
  rewrite String.eqb_refl. reflexivity.
Qed.


Lemma length_substring (n m : nat) (s : string) :
  String.length (substring n m s) = Nat.min m (String.length s - n).
Proof.
  revert n m. induction s as [|c s IH]; intros n m.
  - destruct n, m; cbn; lia.
  - destruct n as [|n].
    + destruct m as [|m]; [reflexivity|].
      cbn [substring String.length]. rewrite IH. cbn. lia.
    + cbn [substring String.length]. rewrite IH. cbn. reflexivity.
Qed.

Lemma all_alnum_substring (n m : nat) (s : string) :
  all_alnum (substring n (String.length s - n) s) = true ->
  all_alnum (substring n m s) = true.
Proof.
  revert n m. induction s as [|c s IH]; intros n m.
  - destruct n, m; intros _; reflexivity.
  - destruct n as [|n].
    + destruct m as [|m]; [intros _; reflexivity|].
      cbn [substring String.length Nat.sub all_alnum].
      intros H. apply andb_true_iff in H as [Hc Hs].
      rewrite Hc. cbn [andb]. apply IH.
      rewrite Nat.sub_0_r. exact Hs.
    + cbn [substring String.length Nat.sub]. apply IH.
Qed.

(** C4: the parameter blob that [executeTokenTransfer] hands to the
    kernel is the encoding of the recipient's address and of
    [toWei(amount)]; decoding it with the same type list gives exactly that
    pair back, and [toWei(amount)] is the amount times [10^18]. *)
Theorem encoded_parameters_round_trip :
  forall (amb : Ambient) (sender recipient : value) (amount : number)
         (entryId accessToken : string) (req : value) (blob : list byte),
    executeTokenTransfer config amb sender recipient amount
    = ExecuteKernels entryId accessToken req blob ->
    exists a w,
      encode_address recipient = Some a
      /\ toWei (JNumber amount) = Some w
      /\ blob = Abi.encode [Abi.VAddress a; Abi.VUint w]
      /\ decode_address_uint256 blob = Some (a, w)
      /\ decode_address_uint256
           (Abi.encode [Abi.VAddress a; Abi.VUint w]) = Some (a, w)
      /\ exists m e,
           amount = Finite m e /\ 0 < m
           /\ w * 10 ^ Z.of_nat e = m * 10 ^ 18.
Proof.
  intros amb sender recipient amount entryId accessToken req blob H.
  apply executeTokenTransfer_submits in H
    as (_ & _ & Hnz & Hle & _ & _ & _ & a & w & Ha & Hw & Hr & ->).
  pose proof (decode_encode_address_uint256 a w
                (encode_address_range _ _ Ha) Hr) as Hdec.
  exists a, w. repeat split; try assumption.
  destruct amount as [|negative|m e].
  - discriminate Hnz.
  - destruct negative; vm_compute in Hw; discriminate Hw.
  - exists m, e. split; [reflexivity|].
    cbn [number_truthy number_le_zero] in Hnz, Hle.
    apply Z.leb_gt in Hle. split; [exact Hle|].
    rewrite toWei_number in Hw. apply scaled_exact. exact Hw.
Qed.

(** For a sender, a recipient that parses, and a positive amount of at
    most 18 decimals from [1e-6] and below [1e21], the request is
    submitted, with the encoded pair. *)
Lemma valid_transfer_is_submitted (amb : Ambient) (sender recipient : value)
    (a m : Z) (e : nat) :
  truthy sender = true -> truthy recipient = true ->
  encode_address recipient = Some a ->
  0 < m -> (e <= 18)%nat ->
  10 ^ Z.of_nat e <= m * 10 ^ 6 -> m < 10 ^ 21 * 10 ^ Z.of_nat e ->
  exists req,
    executeTokenTransfer config amb sender recipient (Finite m e)
    = ExecuteKernels (ENTRY_ID config) (ACCESS_TOKEN config) req
        (Abi.encode [Abi.VAddress a; Abi.VUint (m * 10 ^ Z.of_nat (18 - e))]).
Proof.
  intros Hs Hr Ha Hm He Hlo Hhi.
  pose proof (scaled_total m e Hm He Hlo Hhi) as Hsc.
  pose proof (scaled_in_range m e _ Hm Hsc) as [Hw1 Hw2].
  unfold executeTokenTransfer. rewrite Hs, Hr. cbn [negb orb number_truthy number_le_zero].
  assert (Hmz : (m =? 0) = false) by (apply Z.eqb_neq; lia).
  assert (Hml : (m <=? 0) = false) by (apply Z.leb_gt; lia).
  rewrite Hmz, Hml. cbn [negb orb].
  rewrite toWei_number, Hsc.
  unfold encode_address_uint256, check_uint256. rewrite Ha.
  assert (Hu : is_uint256 (m * 10 ^ Z.of_nat (18 - e)) = true).
  { unfold is_uint256, uint256_max. apply andb_true_iff.
    assert (10 ^ 39 < 2 ^ 256) by reflexivity.
    split; apply Z.leb_le; lia. }
  rewrite Hu. eexists. reflexivity.
Qed.

(** C7: with no sender, with no recipient or one that is no address, or
    with an amount that is zero, negative or no number,
    [executeTokenTransfer] throws and issues no kernel request; the first
    two checks throw their own messages. *)
Theorem invalid_input_throws_before_the_request :
  forall (amb : Ambient) (sender recipient : value) (amount : number),
    truthy sender = false \/ truthy recipient = false
    \/ encode_address recipient = None
    \/ number_truthy amount = false \/ number_le_zero amount = true ->
    (exists e,
        executeTokenTransfer config amb sender recipient amount = Throw e)
    /\ (forall entryId accessToken req blob,
          executeTokenTransfer config amb sender recipient amount
          <> ExecuteKernels entryId accessToken req blob)
    /\ (truthy sender = false \/ truthy recipient = false ->
        executeTokenTransfer config amb sender recipient amount
        = Throw (Error "Sender and recipient addresses are required"))
    /\ (truthy sender = true -> truthy recipient = true ->
        number_truthy amount = false \/ number_le_zero amount = true ->
        executeTokenTransfer config amb sender recipient amount
        = Throw (Error "Amount must be greater than 0")).
Proof.
  intros amb sender recipient amount H.
  assert (Hno : forall entryId accessToken req blob,
             executeTokenTransfer config amb sender recipient amount
             <> ExecuteKernels entryId accessToken req blob).
  { intros entryId accessToken req blob E.
    apply executeTokenTransfer_submits in E
      as (H1 & H2 & H3 & H4 & _ & _ & _ & a & w & Ha & _).
    destruct H as [H|[H|[H|[H|H]]]]; congruence. }
  split.
  { destruct (executeTokenTransfer config amb sender recipient amount)
      as [e|entryId accessToken req blob] eqn:E; [eauto|].
    exfalso. exact (Hno _ _ _ _ eq_refl). }
  split; [exact Hno|]. split.
  - intros [Hs|Hr]; unfold executeTokenTransfer.
    + rewrite Hs. reflexivity.
    + rewrite Hr. rewrite orb_true_r. reflexivity.
  - intros Hs Hr Ham. unfold executeTokenTransfer.
    rewrite Hs, Hr. cbn [negb orb].
    destruct Ham as [Hz|Hle].
    + rewrite Hz. reflexivity.
    + rewrite Hle. rewrite orb_true_r. reflexivity.
Qed.

Lemma executeKrnl_submits amb address transactionData customKernelId
      entryId accessToken req blob td' :
  executeKrnl config amb address transactionData customKernelId
  = (ExecuteKernels entryId accessToken req blob, td') ->
  truthy (member transactionData "externalTransactionId") = true
  /\ req = kernelRequest address (chosenKernelId config customKernelId)
             (requestBody amb (member transactionData "externalTransactionId")
                (or_else (member transactionData "amount")
                         (JNumber (Finite 1 1)))).
Proof.
  unfold executeKrnl.
  destruct (truthy address); cbn [negb]; [|discriminate].
  destruct (truthy transactionData); cbn [negb orb]; [|discriminate].
  destruct (truthy (member transactionData "externalTransactionId")) eqn:Hid;
    cbn [negb]; [|discriminate].
  repeat match goal with
         | |- context [match ?x with Some _ => _ | None => _ end] =>
             destruct x; [|discriminate]
         end.
  intros H. injection H as <- <- <- <- <-. split; [reflexivity|].
  unfold or_else at 1. rewrite Hid. reflexivity.
Qed.

(** C8, as the code has it: [executeTokenTransfer] always generates the
    transaction id, as ["tx-"], the timestamp in milliseconds, ["-"] and
    the characters 2 to 9 of the random number printed in base 36: at
    most eight of them, eight when the print has at least ten
    characters, alphanumeric when its fraction is.  [executeKrnl] never
    generates one: without an [externalTransactionId] it throws, and a
    request it submits carries the id it was given. *)
Theorem transaction_id_generation :
  forall (amb : Ambient),
    (forall sender recipient amount entryId accessToken req blob,
        executeTokenTransfer config amb sender recipient amount
        = ExecuteKernels entryId accessToken req blob ->
        member (bodyOf (KERNEL_ID config) req) "externalTransactionId"
        = JString (generateTransactionId amb))
    /\ generateTransactionId amb
       = "tx-" +:+ pretty (Date_now amb) +:+ "-"
         +:+ substring 2 8 (Math_random_toString36 amb)
    /\ (String.length (substring 2 8 (Math_random_toString36 amb)) <= 8)%nat
    /\ ((10 <= String.length (Math_random_toString36 amb))%nat ->
        String.length (substring 2 8 (Math_random_toString36 amb)) = 8%nat)
    /\ (all_alnum (fraction (Math_random_toString36 amb)) = true ->
        all_alnum (substring 2 8 (Math_random_toString36 amb)) = true)
    /\ (forall address transactionData customKernelId,
          truthy (member transactionData "externalTransactionId") = false ->
          exists message,
            fst (executeKrnl config amb address transactionData
                   customKernelId) = Throw (Error message))
    /\ (forall address transactionData customKernelId,
          truthy address = true ->
          truthy (member transactionData "externalTransactionId") = false ->
          fst (executeKrnl config amb address transactionData customKernelId)
          = Throw (Error
              "Transaction data with externalTransactionId is required"))
    /\ (forall address transactionData customKernelId entryId accessToken
               req blob td',
          executeKrnl config amb address transactionData customKernelId
          = (ExecuteKernels entryId accessToken req blob, td') ->
          member (bodyOf (chosenKernelId config customKernelId) req)
            "externalTransactionId"
          = member transactionData "externalTransactionId").
Proof.
  intros amb. split.
  { intros sender recipient amount entryId accessToken req blob H.
    apply executeTokenTransfer_submits in H
      as (_ & _ & _ & _ & _ & _ & -> & _).
    rewrite member_bodyOf. reflexivity. }
  split; [reflexivity|]. split.
  { rewrite length_substring. lia. }
  split.
  { intros H. rewrite length_substring. lia. }
  split.
  { apply all_alnum_substring. }
  split.
  { intros address transactionData customKernelId Hid. unfold executeKrnl.
    destruct (truthy address); cbn [negb]; [|eexists; reflexivity].
    rewrite Hid. cbn [negb]. rewrite orb_true_r. eexists. reflexivity. }
  split.
  { intros address transactionData customKernelId Ha Hid. unfold executeKrnl.
    rewrite Ha, Hid. cbn [negb]. rewrite orb_true_r. reflexivity. }
  intros address transactionData customKernelId entryId accessToken req blob
         td' H.
  apply executeKrnl_submits in H as [_ ->].
  rewrite member_bodyOf. reflexivity.
Qed.

(** C10: whatever amount [executeTokenTransfer] is given, the body of the
    attestation request has [transactionInfo.amount] 0.5 and the same
    originator and beneficiary; the recipient and [toWei(amount)] are in
    the encoded function parameters only. *)
Theorem attestation_body_ignores_the_amount :
  forall (amb : Ambient) (sender recipient : value) (amount : number)
         (entryId accessToken : string) (req : value) (blob : list byte),
    executeTokenTransfer config amb sender recipient amount
    = ExecuteKernels entryId accessToken req blob ->
    let body := bodyOf (KERNEL_ID config) req in
    member (member body "transactionInfo") "amount" = JNumber (Finite 5 1)
    /\ body = requestBody amb (JString (generateTransactionId amb))
                (JNumber (Finite 5 1))
    /\ member (member body "originator") "name" = JString "Bob Smith"
    /\ member (member (member body "originator") "transactionMethod")
         "accountId"
       = JString "0x7B5f55aE4f1Cb8a6bE0a9cD1FeE8F8C4cCfF9a3D"
    /\ member (member body "beneficiary") "name" = JString "Alice Carter"
    /\ member (member (member body "beneficiary") "transactionMethod")
         "accountId"
       = JString "0x4E6f1cB8C7A2E3A2DeAb69c4e0A9F798D6FcF8B8"
    /\ exists a w,
         encode_address recipient = Some a
         /\ toWei (JNumber amount) = Some w
         /\ blob = Abi.encode [Abi.VAddress a; Abi.VUint w].
Proof.
  intros amb sender recipient amount entryId accessToken req blob H body.
  apply executeTokenTransfer_submits in H
    as (_ & _ & _ & _ & _ & _ & Hreq & a & w & Ha & Hw & _ & Hb).
  assert (Hbody : body = requestBody amb (JString (generateTransactionId amb))
                           (JNumber (Finite 5 1))).
  { unfold body. rewrite Hreq. apply member_bodyOf. }
  rewrite Hbody. repeat split. exists a, w. repeat split; assumption.
Qed.

(** The blob of the builder is, byte for byte, the parameter encoding
    that [transferWithKRNL] hands to [onlyAuthorized] for the same
    recipient and amount. *)
Lemma builder_blob_is_what_the_contract_authorizes
    {platform : TokenContract.Platform}
    (amb : Ambient) (sender recipient : value) (amount : number)
    (entryId accessToken : string) (req : value) (blob : list byte)
    (p : Sol.KrnlPayload) (ctx : Sol.Call) (st : Sol.State) :
  executeTokenTransfer config amb sender recipient amount
  = ExecuteKernels entryId accessToken req blob ->
  TokenContract.isAuthorized p blob = false ->
  exists a w,
    encode_address recipient = Some a /\ toWei (JNumber amount) = Some w
    /\ TokenContract.transferWithKRNL ctx a w p st
       = Sol.Revert Sol.UnauthorizedTransaction.
Proof.
  intros H Hauth.
  apply executeTokenTransfer_submits in H
    as (_ & _ & _ & _ & _ & _ & _ & a & w & Ha & Hw & _ & ->).
  exists a, w. split; [exact Ha|]. split; [exact Hw|].
  rewrite transferWithKRNL_cases, Hauth. reflexivity.
Qed.

End BuilderFacts.

(** ** The builder on the sample data *)

Section BuilderScenarios.
Import Word JS Ethers Builder Terms Scenario.

Lemma bobHex_is_bob :
  @encode_address hexParser (JString bobHex) = Some bob.
Proof. vm_compute. reflexivity. Qed.

Lemma encoded_parameters_round_trip_witness :
  exists req blob,
    @executeTokenTransfer hexParser config ambient
      (JString aliceHex) (JString bobHex) (Finite 5 1)
    = ExecuteKernels "entry-1" "token-1" req blob
    /\ decode_address_uint256 blob = Some (bob, half).
Proof.
  destruct (@valid_transfer_is_submitted hexParser config ambient
              (JString aliceHex) (JString bobHex) bob 5 1
              eq_refl eq_refl bobHex_is_bob
              ltac:(lia) ltac:(lia) ltac:(cbn; lia) ltac:(cbn; lia))
    as [req Hreq].
  destruct (@encoded_parameters_round_trip hexParser config ambient
              (JString aliceHex) (JString bobHex) (Finite 5 1) _ _ _ _ Hreq)
    as (a & w & Ha & Hw & Hb & Hdec & _ & m & e & Hme & _ & Hscale).
  rewrite bobHex_is_bob in Ha. injection Ha as <-.
  injection Hme as <- <-.
  assert (w = half) by (unfold half; cbn in Hscale; lia). subst w.
  exists req. eexists. split; [exact Hreq|]. exact Hdec.
Defined.

Lemma invalid_input_throws_before_the_request_witness :
  @executeTokenTransfer hexParser config ambient
    (JString aliceHex) (JString bobHex) (Finite 0 0)
  = Throw (Error "Amount must be greater than 0")
  /\ @executeTokenTransfer hexParser config ambient
       JUndefined (JString bobHex) (Finite 5 1)
     = Throw (Error "Sender and recipient addresses are required")
  /\ exists e,
       @executeTokenTransfer hexParser config ambient
         (JString aliceHex) (JString "0x123") (Finite 5 1) = Throw e.
Proof.
  split; [|split].
  - apply (@invalid_input_throws_before_the_request hexParser config ambient
             (JString aliceHex) (JString bobHex) (Finite 0 0));
      [right; right; right; left; reflexivity|reflexivity|reflexivity|].
    left. reflexivity.
  - apply (@invalid_input_throws_before_the_request hexParser config ambient
             JUndefined (JString bobHex) (Finite 5 1));
      left; reflexivity.
  - apply (@invalid_input_throws_before_the_request hexParser config ambient
             (JString aliceHex) (JString "0x123") (Finite 5 1)).
    right; right; left. reflexivity.
Defined.

(** C8, against the claim as stated: [executeKrnl] without an
    [externalTransactionId] throws instead of generating one; and with
    [Math.random()] at one half, the id that [executeTokenTransfer]
    generates ends in one random character, not eight. *)
Lemma missing_id_throws_and_random_part_can_be_short :
  fst (@executeKrnl hexParser config ambient (JString aliceHex)
         (JObject [("amount", JNumber (Finite 5 1))]) None)
  = Throw (Error "Transaction data with externalTransactionId is required")
  /\ member (JObject [("amount", JNumber (Finite 5 1))])
       "externalTransactionId" = JUndefined
  /\ (exists blob,
        @executeTokenTransfer hexParser config ambientHalf
          (JString aliceHex) (JString bobHex) (Finite 5 1)
        = ExecuteKernels "entry-1" "token-1"
            (kernelRequest (JString aliceHex) "1657"
               (requestBody ambientHalf (JString "tx-1705314600000-i")
                  (JNumber (Finite 5 1))))
            blob)
  /\ String.length (substring 2 8 (Math_random_toString36 ambientHalf))
     = 1%nat.
Proof.
  split; [reflexivity|]. split; [reflexivity|]. split; [|reflexivity].
  eexists. vm_compute. reflexivity.
Qed.

Lemma transaction_id_generation_witness :
  generateTransactionId ambient = "tx-1705314600000-4fzyo82m"
  /\ String.length (substring 2 8 (Math_random_toString36 ambient)) = 8%nat
  /\ all_alnum (substring 2 8 (Math_random_toString36 ambient)) = true
  /\ fst (@executeKrnl hexParser config ambient (JString aliceHex)
            (JObject [("amount", JNumber (Finite 5 1))]) None)
     = Throw (Error "Transaction data with externalTransactionId is required").
Proof.
  destruct (@transaction_id_generation hexParser config ambient)
    as (_ & Hid & _ & Hlen & Haln & _ & Hthrow & _).
  split; [rewrite Hid; reflexivity|].
  split; [apply Hlen; cbn; lia|].
  split; [apply Haln; reflexivity|].
  apply Hthrow; reflexivity.
Defined.

Lemma attestation_body_ignores_the_amount_witness :
  exists req blob req' blob',
    @executeTokenTransfer hexParser config ambient
      (JString aliceHex) (JString bobHex) (Finite 5 1)
    = ExecuteKernels "entry-1" "token-1" req blob
    /\ @executeTokenTransfer hexParser config ambient
         (JString aliceHex) (JString bobHex) (Finite 250 0)
       = ExecuteKernels "entry-1" "token-1" req' blob'
    /\ bodyOf "1657" req = bodyOf "1657" req'
    /\ member (member (bodyOf "1657" req') "transactionInfo") "amount"
       = JNumber (Finite 5 1)
    /\ decode_address_uint256 blob' = Some (bob, 250 * 10 ^ 18).
Proof.
  destruct (@valid_transfer_is_submitted hexParser config ambient
              (JString aliceHex) (JString bobHex) bob 5 1
              eq_refl eq_refl bobHex_is_bob
              ltac:(lia) ltac:(lia) ltac:(cbn; lia) ltac:(cbn; lia))
    as [req Hreq].
  destruct (@valid_transfer_is_submitted hexParser config ambient
              (JString aliceHex) (JString bobHex) bob 250 0
              eq_refl eq_refl bobHex_is_bob
              ltac:(lia) ltac:(lia) ltac:(cbn; lia) ltac:(cbn; lia))
    as [req' Hreq'].
  pose proof (@attestation_body_ignores_the_amount hexParser config ambient
                _ _ _ _ _ _ _ Hreq) as (_ & Hb & _).
  pose proof (@attestation_body_ignores_the_amount hexParser config ambient
                _ _ _ _ _ _ _ Hreq') as (Ham & Hb' & _).
  exists req. eexists. exists req'. eexists.
  split; [exact Hreq|]. split; [exact Hreq'|].
  split; [change (KERNEL_ID config) with "1657" in Hb, Hb'; congruence|].
  split; [exact Ham|].
  apply decode_encode_address_uint256; reflexivity.
Defined.

End BuilderScenarios.

(** ** The risk proxy *)

Section ProxyFacts.
Import JS RiskProxy Terms.

Lemma lookup_prop_absent (props : list (string * value)) (k : string) :
  ~ In k (map fst props) -> lookup_prop props k = None.
Proof.
  induction props as [|[k0 v0] props IH]; intros H; [reflexivity|].
  cbn [lookup_prop]. destruct (String.eqb_spec k0 k) as [->|Hne].
  - exfalso. apply H. left. reflexivity.
  - apply IH. intros Hin. apply H. right. exact Hin.
Qed.

Lemma lookup_prop_set_prop (props : list (string * value)) (k k' : string)
    (v : value) :
  lookup_prop (set_prop props k v) k'
  = if String.eqb k k' then Some v else lookup_prop props k'.
Proof.
  induction props as [|[k0 v0] props IH]; cbn [set_prop lookup_prop].
  - reflexivity.
  - destruct (String.eqb_spec k0 k) as [->|Hne]; cbn [lookup_prop].
    + destruct (String.eqb k k'); reflexivity.
    + rewrite IH. destruct (String.eqb_spec k0 k') as [->|Hne'];
        [|reflexivity].
      destruct (String.eqb_spec k k') as [->|_]; [congruence|reflexivity].
Qed.

Lemma lookup_prop_spread (a b : list (string * value)) (k : string) :
  NoDup (map fst b) ->
  lookup_prop (spread a b) k
  = match lookup_prop b k with
    | Some v => Some v
    | None => lookup_prop a k
    end.
Proof.
  unfold spread. revert a.
  induction b as [|[k0 v0] b IH]; intros a Hnd; [reflexivity|].
  cbn [map fst] in Hnd. apply NoDup_cons in Hnd as [Hnotin Hnd].
  cbn [fold_left fst snd lookup_prop].
  rewrite IH by exact Hnd. rewrite lookup_prop_set_prop.
  destruct (String.eqb_spec k0 k) as [->|Hne]; [|reflexivity].
  rewrite lookup_prop_absent; [reflexivity|].
  intros Hin. apply Hnotin. apply list_elem_of_In. exact Hin.
Qed.

Lemma lookup_prop_remove_prop (props : list (string * value))
    (k k' : string) :
  k <> k' -> lookup_prop (remove_prop props k) k' = lookup_prop props k'.
Proof.
  intros Hne. unfold remove_prop.
  induction props as [|[k0 v0] props IH]; [reflexivity|].
  cbn [List.filter lookup_prop fst].
  destruct (String.eqb_spec k0 k) as [->|Hk]; cbn [negb lookup_prop].
  - rewrite IH. apply String.eqb_neq in Hne. rewrite Hne. reflexivity.
  - rewrite IH. reflexivity.
Qed.

Lemma keys_remove_prop (props : list (string * value)) (k k' : string) :
  In k' (map fst (remove_prop props k)) -> In k' (map fst props).
Proof.
  unfold remove_prop. induction props as [|[k0 v0] props IH];
    cbn [List.filter map fst]; [tauto|].
  destruct (negb (String.eqb k0 k)); cbn [map fst In]; tauto.
Qed.

Lemma NoDup_remove_prop (props : list (string * value)) (k : string) :
  NoDup (map fst props) -> NoDup (map fst (remove_prop props k)).
Proof.
  induction props as [|[k0 v0] props IH]; intros H; [exact H|].
  cbn [map fst] in H. apply NoDup_cons in H as [Hnotin Hnd].
  unfold remove_prop. cbn [List.filter fst].
  destruct (negb (String.eqb k0 k)); [|apply IH; exact Hnd].
  cbn [map fst]. apply NoDup_cons. split; [|apply IH; exact Hnd].
  intros Hin. apply Hnotin. apply list_elem_of_In.
  apply list_elem_of_In in Hin. eapply keys_remove_prop. exact Hin.
Qed.

Lemma lookup_prop_processValue (props : list (string * value)) (k : string) :
  lookup_prop (map (fun kv => (fst kv, processValue (snd kv))) props) k
  = option_map processValue (lookup_prop props k).
Proof.
  induction props as [|[k0 v0] props IH]; [reflexivity|].
  cbn [map lookup_prop fst snd].
  destruct (String.eqb k0 k); [reflexivity|exact IH].
Qed.

Lemma keys_processValue (props : list (string * value)) :
  map fst (map (fun kv => (fst kv, processValue (snd kv))) props)
  = map fst props.
Proof. rewrite map_map. reflexivity. Qed.

(** What [renameTopAddressKey] leaves under the other keys. *)
Lemma member_renameTopAddressKey (props : list (string * value)) (k : string) :
  NoDup (map fst props) -> k <> "address" -> k <> "walletAddress" ->
  member (renameTopAddressKey (JObject props)) k = member (JObject props) k.
Proof.
  intros Hnd Ha Hw. unfold renameTopAddressKey.
  destruct (has_prop props "address"); [|reflexivity].
  cbn [member]. rewrite lookup_prop_spread by (apply NoDup_remove_prop, Hnd).
  rewrite lookup_prop_remove_prop by congruence.
  destruct (lookup_prop props k); [reflexivity|].
  cbn [lookup_prop]. apply not_eq_sym, String.eqb_neq in Hw. rewrite Hw.
  reflexivity.
Qed.

(** And under [walletAddress], for an object with an [address]. *)
Lemma walletAddress_renameTopAddressKey (props : list (string * value))
    (a : value) :
  NoDup (map fst props) ->
  lookup_prop props "address" = Some a ->
  lookup_prop props "walletAddress" = None ->
  member (renameTopAddressKey (JObject props)) "walletAddress" = a.
Proof.
  intros Hnd Ha Hw. unfold renameTopAddressKey, has_prop. rewrite Ha.
  cbn [member]. rewrite lookup_prop_spread by (apply NoDup_remove_prop, Hnd).
  rewrite lookup_prop_remove_prop by discriminate. rewrite Hw, Ha.
  reflexivity.
Qed.

Lemma keys_json_literal (a b c d : value) (k : string) :
  In k (keys (json (JObject [("walletAddress", a); ("risk", b);
                             ("riskReason", c); ("status", d)]))) ->
  In k riskFields.
Proof.
  unfold riskFields. cbn [json flat_map snd fst].
  destruct a, b, c, d; cbn [keys map fst app In]; tauto.
Qed.

Lemma member_json_literal (a b c d : value) :
  let out := json (JObject [("walletAddress", a); ("risk", b);
                            ("riskReason", c); ("status", d)]) in
  (a <> JUndefined -> member out "walletAddress" = json a)
  /\ (b <> JUndefined -> member out "risk" = json b)
  /\ (c <> JUndefined -> member out "riskReason" = json c)
  /\ (d <> JUndefined -> member out "status" = json d).
Proof.
  cbn [json flat_map snd fst]. repeat split; intros H;
    destruct a, b, c, d; try congruence; reflexivity.
Qed.

Lemma filterRiskFields_renamed (data : value) (q : list (string * value)) :
  renameTopAddressKey data = JObject q ->
  filterRiskFields data
  = Some (JObject [("walletAddress", member (JObject q) "walletAddress");
                   ("risk", member (JObject q) "risk");
                   ("riskReason", member (JObject q) "riskReason");
                   ("status", member (JObject q) "status")]).
Proof. intros H. unfold filterRiskFields. rewrite H. reflexivity. Qed.

(** The single-address endpoints: the answer has no other keys than the
    four risk fields; a kept field that is [null] upstream is the string
    ["null"]; and the upstream [address] is answered as
    [walletAddress]. *)
Lemma entity_response_fields (props : list (string * value)) (out : value) :
  NoDup (map fst props) ->
  entityResponse (JObject props) = Some out ->
  (forall k, In k (keys out) -> In k riskFields)
  /\ (forall k, In k ["risk"; "riskReason"; "status"] ->
                lookup_prop props k = Some JNull ->
                member out k = JString "null")
  /\ (forall a, lookup_prop props "address" = Some a ->
                lookup_prop props "walletAddress" = None ->
                processValue a <> JUndefined ->
                member out "walletAddress" = json (processValue a)).
Proof.
  intros Hnd H. unfold entityResponse in H.
  change (processValue (JObject props))
    with (JObject (map (fun kv => (fst kv, processValue (snd kv))) props))
    in H.
  set (pv := map (fun kv => (fst kv, processValue (snd kv))) props) in *.
  assert (Hnd' : NoDup (map fst pv))
    by (unfold pv; rewrite keys_processValue; exact Hnd).
  assert (Hobj : exists q, renameTopAddressKey (JObject pv) = JObject q).
  { unfold renameTopAddressKey. destruct (has_prop pv "address"); eauto. }
  destruct Hobj as [q Hq].
  rewrite (filterRiskFields_renamed _ q Hq) in H.
  cbn [option_map] in H. apply (inj Some) in H. rewrite <- H, <- Hq.
  clear H.
  split; [intros k; apply keys_json_literal|].
  pose proof (member_json_literal
                (member (renameTopAddressKey (JObject pv)) "walletAddress")
                (member (renameTopAddressKey (JObject pv)) "risk")
                (member (renameTopAddressKey (JObject pv)) "riskReason")
                (member (renameTopAddressKey (JObject pv)) "status"))
    as (Hw & Hr & Hrr & Hs).
  split.
  - intros k Hk Hnull.
    assert (Hm : member (renameTopAddressKey (JObject pv)) k
                 = JString "null").
    { rewrite member_renameTopAddressKey;
        [|exact Hnd'
         |destruct Hk as [<-|[<-|[<-|[]]]]; discriminate
         |destruct Hk as [<-|[<-|[<-|[]]]]; discriminate].
      cbn [member]. unfold pv. rewrite lookup_prop_processValue, Hnull.
      reflexivity. }
    destruct Hk as [<-|[<-|[<-|[]]]].
    + rewrite Hr; rewrite Hm; [reflexivity|discriminate].
    + rewrite Hrr; rewrite Hm; [reflexivity|discriminate].
    + rewrite Hs; rewrite Hm; [reflexivity|discriminate].
  - intros a Ha Hwa Hdef.
    assert (Hm : member (renameTopAddressKey (JObject pv)) "walletAddress"
                 = processValue a).
    { apply walletAddress_renameTopAddressKey; [exact Hnd'| |];
        unfold pv; rewrite lookup_prop_processValue.
      - rewrite Ha. reflexivity.
      - rewrite Hwa. reflexivity. }
    rewrite Hw; rewrite Hm; [reflexivity|exact Hdef].
Qed.

End ProxyFacts.

(** ** The risk proxy on the sample data *)

Section ProxyScenarios.
Import JS RiskProxy Terms Scenario.

(** The single-address endpoints answer the sample with its null reason
    as a string. *)
Lemma entity_answer_writes_null_as_string :
  entityResponse upstreamLowRisk
  = Some (JObject [("walletAddress", JString bobHex);
                   ("risk", JString "Low");
                   ("riskReason", JString "null");
                   ("status", JString "COMPLETE")]).
Proof. reflexivity. Qed.

(** C6, where the code departs from the claim: the bulk endpoint filters
    and renames, and lets the upstream [null] through as it is. *)
Theorem bulk_answer_keeps_null :
  bulkResults [batchResult bobHex (inl upstreamLowRisk)]
  = Some (JArray [JObject [("walletAddress", JString bobHex);
                           ("risk", JString "Low");
                           ("riskReason", JNull);
                           ("status", JString "COMPLETE")]])
  /\ member upstreamLowRisk "riskReason" = JNull
  /\ (forall out,
        bulkResults [batchResult bobHex (inl upstreamLowRisk)]
        = Some (JArray [out]) ->
        member out "riskReason" <> JString "null").
Proof.
  split; [reflexivity|]. split; [reflexivity|].
  intros out H. cbv in H. injection H as <-. discriminate.
Qed.

End ProxyScenarios.

(** ** ABI coding: decoding what was encoded *)

Section AbiFacts.
Import Word Abi Shapes.

Lemma val_nested_ind (P : val -> Prop) :
  (forall z, P (VUint z)) -> (forall a, P (VAddress a)) ->
  (forall bs, P (VBytes bs)) -> (forall s, P (VString s)) ->
  (forall vs, Forall P vs -> P (VTuple vs)) ->
  (forall vs, Forall P vs -> P (VArray vs)) ->
  forall v, P v.
Proof.
  intros Hu Ha Hb Hs Ht Hr.
  fix IH 1. intros [z|a|bs|s|vs|vs].
  - apply Hu.
  - apply Ha.
  - apply Hb.
  - apply Hs.
  - apply Ht. induction vs as [|x vs IHvs]; constructor.
    + apply IH.
    + exact IHvs.
  - apply Hr. induction vs as [|x vs IHvs]; constructor.
    + apply IH.
    + exact IHvs.
Qed.

Lemma has_ty_tuple_cons (v : val) (vs : list val) (t : ty) (ts : list ty) :
  has_ty (VTuple (v :: vs)) (TTuple (t :: ts))
  = has_ty v t && has_ty (VTuple vs) (TTuple ts).
Proof. reflexivity. Qed.

Lemma has_ty_tuple_length (vs : list val) (ts : list ty) :
  has_ty (VTuple vs) (TTuple ts) = true -> length vs = length ts.
Proof.
  revert ts. induction vs as [|v vs IH]; intros [|t ts] H;
    try reflexivity; try discriminate H.
  rewrite has_ty_tuple_cons in H. apply andb_true_iff in H as [_ H].
  cbn [length]. f_equal. apply IH. exact H.
Qed.

(** A typed array is a typed tuple of as many components. *)
Lemma has_ty_array_tuple (vs : list val) (t : ty) :
  forallb (fun v => has_ty v t) vs = true ->
  has_ty (VTuple vs) (TTuple (repeat t (length vs))) = true.
Proof.
  induction vs as [|v vs IH]; intros H; [reflexivity|].
  cbn [forallb] in H. apply andb_true_iff in H as [Hv Hvs].
  cbn [length repeat]. rewrite has_ty_tuple_cons, Hv. apply IH. exact Hvs.
Qed.

Lemma has_ty_dynamic (v : val) :
  forall t, has_ty v t = true -> val_dynamic v = ty_dynamic t.
Proof.
  induction v as [z|a|bs|s|vs IH|vs IH] using val_nested_ind;
    intros [| | | |ts|t] H; try discriminate H; try reflexivity.
  cbn [val_dynamic ty_dynamic]. revert ts H.
  induction vs as [|v vs IHvs]; intros [|t ts] H;
    try reflexivity; try discriminate H.
  rewrite has_ty_tuple_cons in H. apply andb_true_iff in H as [Hv Hvs].
  apply Forall_cons in IH as [IHv IHr].
  cbn [existsb]. rewrite (IHv t Hv). f_equal. apply IHvs; assumption.
Qed.

Lemma parts_dynamic (vs : list val) (ts : list ty) :
  has_ty (VTuple vs) (TTuple ts) = true ->
  map fst (parts vs) = map ty_dynamic ts.
Proof.
  revert ts. induction vs as [|v vs IH]; intros [|t ts] H;
    try reflexivity; try discriminate H.
  rewrite has_ty_tuple_cons in H. apply andb_true_iff in H as [Hv Hvs].
  unfold parts. cbn [map fst]. rewrite (has_ty_dynamic v t Hv). f_equal.
  apply IH. exact Hvs.
Qed.

(** The heads of a sequence take as much room whatever the offsets. *)
Lemma length_assemble_from (ps : list (bool * list byte)) (off : nat) :
  length (fst (assemble_from ps off)) = heads_size ps.
Proof.
  revert off. induction ps as [|[dyn e] ps IH]; intros off; [reflexivity|].
  cbn [assemble_from heads_size fold_right fst snd].
  specialize (IH (if dyn then (off + length e)%nat else off)).
  destruct (assemble_from ps (if dyn then (off + length e)%nat else off))
    as [hs ts].
  cbn [fst] in IH. destruct dyn; cbn [fst]; rewrite length_app, IH.
  - rewrite length_be_bytes. reflexivity.
  - reflexivity.
Qed.

Lemma assemble_static (ps : list (bool * list byte)) (off : nat) :
  existsb fst ps = false ->
  assemble_from ps off = (concat (map snd ps), []).
Proof.
  revert off. induction ps as [|[dyn e] ps IH]; intros off H; [reflexivity|].
  cbn [existsb fst] in H. apply orb_false_iff in H as [-> H].
  cbn [assemble_from]. rewrite (IH off H). reflexivity.
Qed.

Lemma existsb_parts (vs : list val) :
  existsb fst (parts vs) = existsb val_dynamic vs.
Proof.
  induction vs as [|v vs IH]; [reflexivity|].
  unfold parts. cbn [map existsb fst]. f_equal. exact IH.
Qed.

(** A static value takes the room of its type's head. *)
Lemma static_length (v : val) :
  forall t, has_ty v t = true -> ty_dynamic t = false ->
            length (enc v) = head_size t.
Proof.
  induction v as [z|a|bs|s|vs IH|vs IH] using val_nested_ind;
    intros [| | | |ts|t] H Hs; try discriminate H; try discriminate Hs.
  - apply length_be_bytes.
  - apply length_be_bytes.
  - cbn [ty_dynamic] in Hs. cbn [head_size]. rewrite Hs.
    cbn [enc]. fold (parts vs). unfold assemble. fold (heads_size (parts vs)).
    assert (Hd : existsb fst (parts vs) = false).
    { rewrite existsb_parts.
      change (existsb val_dynamic vs) with (val_dynamic (VTuple vs)).
      rewrite (has_ty_dynamic _ _ H). exact Hs. }
    rewrite (assemble_static _ _ Hd). rewrite app_nil_r.
    clear Hd. revert ts H Hs.
    induction vs as [|v vs IHvs]; intros [|t ts] H Hs;
      try reflexivity; try discriminate H.
    rewrite has_ty_tuple_cons in H. apply andb_true_iff in H as [Hv Hvs].
    cbn [existsb] in Hs. apply orb_false_iff in Hs as [Ht Hts].
    apply Forall_cons in IH as [IHv IHr].
    unfold parts. cbn [map snd concat fold_right]. rewrite length_app.
    rewrite (IHv t Hv Ht). f_equal. apply IHvs; assumption.
Qed.

Lemma be_value_be_bytes_nat (n : nat) :
  Z.of_nat n < 2 ^ 256 ->
  be_value (be_bytes 32 (Z.of_nat n)) = Z.of_nat n.
Proof.
  intros H. apply be_value_be_bytes_32. unfold is_uint256, uint256_max.
  apply andb_true_iff. split; apply Z.leb_le; lia.
Qed.

Lemma word_at_app (pre w rest : list byte) :
  length w = 32%nat ->
  word_at (pre ++ w ++ rest) (length pre) = Some (be_value w).
Proof.
  intros Hw. unfold word_at. rewrite drop_app_length.
  rewrite take_app_length' by (symmetry; exact Hw).
  rewrite Hw. reflexivity.
Qed.

Lemma index_at_app (pre rest : list byte) (n : nat) :
  let data := pre ++ be_bytes 32 (Z.of_nat n) ++ rest in
  Z.of_nat (length data) < 2 ^ 256 -> (n <= length data)%nat ->
  index_at data (length pre) = Some n.
Proof.
  intros data Hlen Hn. unfold index_at, data.
  rewrite word_at_app by apply length_be_bytes.
  rewrite be_value_be_bytes_nat by (fold data; lia).
  fold data.
  destruct (Z.leb_spec (Z.of_nat n) (Z.of_nat (length data))) as [_|H];
    [|lia].
  rewrite Nat2Z.id. reflexivity.
Qed.

Lemma bytes_at_app (pre rest bs : list byte) :
  let data := pre ++ enc_bytes bs ++ rest in
  Z.of_nat (length data) < 2 ^ 256 ->
  bytes_at data (length pre) = Some bs.
Proof.
  intros data Hlen. unfold bytes_at.
  assert (Hd : data = pre ++ be_bytes 32 (Z.of_nat (length bs))
                         ++ (pad_right bs ++ rest)).
  { unfold data, enc_bytes. rewrite <- !app_assoc. reflexivity. }
  assert (Hbs : (length bs <= length data)%nat).
  { rewrite Hd. unfold pad_right. rewrite !length_app. lia. }
  rewrite Hd at 1. rewrite index_at_app by (rewrite <- Hd; assumption).
  assert (Hdrop : drop (length pre + 32) data
                  = bs ++ repeat x00 ((32 - length bs mod 32) mod 32) ++ rest).
  { rewrite Hd. unfold pad_right.
    replace (length pre + 32)%nat
      with (length (pre ++ be_bytes 32 (Z.of_nat (length bs))))
      by (rewrite length_app, length_be_bytes; reflexivity).
    rewrite app_assoc, drop_app_length, <- app_assoc. reflexivity. }
  rewrite Hdrop, take_app_length, Nat.eqb_refl. reflexivity.
Qed.

Lemma dec_tuple (ts : list ty) (data : list byte) (pos : nat) :
  dec (TTuple ts) data pos = option_map VTuple (dec_heads data pos ts pos).
Proof.
  cbn [dec]. f_equal. generalize pos at 2 4 as hd.
  induction ts as [|t ts IH]; intros hd; [reflexivity|].
  cbn [dec_heads]. rewrite <- IH. reflexivity.
Qed.

Lemma dec_array (t : ty) (data : list byte) (pos : nat) :
  dec (TArray t) data pos
  = match index_at data pos with
    | Some n =>
        option_map VArray
          (dec_heads data (pos + 32) (repeat t n) (pos + 32))
    | None => None
    end.
Proof.
  cbn [dec]. destruct (index_at data pos) as [n|]; [|reflexivity].
  f_equal. generalize (pos + 32)%nat at 2 4 as hd.
  induction n as [|n IH]; intros hd; [reflexivity|].
  cbn [repeat dec_heads]. rewrite <- IH. reflexivity.
Qed.

Lemma head_size_dynamic (t : ty) :
  ty_dynamic t = true -> head_size t = 32%nat.
Proof.
  destruct t as [| | | |ts|t]; try discriminate; try reflexivity.
  cbn [ty_dynamic head_size]. intros ->. reflexivity.
Qed.

(** The walk over the heads: [done] are the heads already passed and
    [kept] the tails that go with them. *)
Lemma dec_heads_assemble (pre post : list byte) :
  forall (vs : list val) (ts : list ty) (done kept : list byte) (off : nat)
         (hs tls : list byte),
    Forall decodes vs ->
    has_ty (VTuple vs) (TTuple ts) = true ->
    assemble_from (parts vs) off = (hs, tls) ->
    off = (length done + length hs + length kept)%nat ->
    Z.of_nat (length (pre ++ done ++ hs ++ kept ++ tls ++ post)) < 2 ^ 256 ->
    dec_heads (pre ++ done ++ hs ++ kept ++ tls ++ post) (length pre) ts
      (length pre + length done)
    = Some vs.
Proof.
  induction vs as [|v vs IH]; intros [|t ts] done kept off hs tls Hdec Hty;
    try discriminate Hty; [reflexivity|].
  rewrite has_ty_tuple_cons in Hty. apply andb_true_iff in Hty as [Hv Hvs].
  apply Forall_cons in Hdec as [Hdv Hdvs].
  pose proof (has_ty_dynamic v t Hv) as Hdyn.
  unfold parts. cbn [map assemble_from]. fold (parts vs). rewrite Hdyn.
  destruct (ty_dynamic t) eqn:Et.
  - (* a dynamic component: its offset among the heads, its encoding
       among the tails *)
    destruct (assemble_from (parts vs) (off + length (enc v)))
      as [hs' tls'] eqn:E.
    intros Hasm. apply pair_equal_spec in Hasm as [<- <-]. intros Hoff Hlen.
    rewrite length_app, length_be_bytes in Hoff.
    set (data := pre ++ done ++ (be_bytes 32 (Z.of_nat off) ++ hs') ++ kept
                 ++ (enc v ++ tls') ++ post) in *.
    assert (H1 : data = (pre ++ done) ++ be_bytes 32 (Z.of_nat off)
                        ++ (hs' ++ kept ++ enc v ++ tls' ++ post))
      by (unfold data; rewrite <- !app_assoc; reflexivity).
    assert (H2 : data = (pre ++ done ++ be_bytes 32 (Z.of_nat off) ++ hs'
                         ++ kept) ++ enc v ++ (tls' ++ post))
      by (unfold data; rewrite <- !app_assoc; reflexivity).
    assert (H3 : data = pre ++ (done ++ be_bytes 32 (Z.of_nat off)) ++ hs'
                        ++ (kept ++ enc v) ++ tls' ++ post)
      by (unfold data; rewrite <- !app_assoc; reflexivity).
    assert (Hsize : (off <= length data)%nat).
    { rewrite H2, !length_app, length_be_bytes. lia. }
    cbn [dec_heads]. rewrite Et.
    replace (length pre + length done)%nat with (length (pre ++ done))
      by apply length_app.
    rewrite H1 at 1. rewrite index_at_app by (rewrite <- H1; assumption).
    replace (length pre + off)%nat
      with (length (pre ++ done ++ be_bytes 32 (Z.of_nat off) ++ hs' ++ kept))
      by (rewrite !length_app, length_be_bytes; lia).
    rewrite H2 at 1. rewrite (Hdv t _ _ Hv) by (rewrite <- H2; exact Hlen).
    rewrite (head_size_dynamic t Et).
    replace (length (pre ++ done) + 32)%nat
      with (length pre + length (done ++ be_bytes 32 (Z.of_nat off)))%nat
      by (rewrite !length_app, length_be_bytes; lia).
    rewrite H3.
    rewrite (IH ts (done ++ be_bytes 32 (Z.of_nat off)) (kept ++ enc v)
               (off + length (enc v))%nat hs' tls' Hdvs Hvs E);
      [reflexivity| |rewrite <- H3; exact Hlen].
    rewrite !length_app, length_be_bytes. lia.
  - (* a static component lies among the heads *)
    destruct (assemble_from (parts vs) off) as [hs' tls'] eqn:E.
    intros Hasm. apply pair_equal_spec in Hasm as [<- <-]. intros Hoff Hlen.
    rewrite length_app in Hoff.
    set (data := pre ++ done ++ (enc v ++ hs') ++ kept ++ tls' ++ post) in *.
    assert (H1 : data = (pre ++ done) ++ enc v
                        ++ (hs' ++ kept ++ tls' ++ post))
      by (unfold data; rewrite <- !app_assoc; reflexivity).
    assert (H3 : data = pre ++ (done ++ enc v) ++ hs' ++ kept ++ tls' ++ post)
      by (unfold data; rewrite <- !app_assoc; reflexivity).
    cbn [dec_heads]. rewrite Et.
    replace (length pre + length done)%nat with (length (pre ++ done))
      by apply length_app.
    rewrite H1 at 1. rewrite (Hdv t _ _ Hv) by (rewrite <- H1; exact Hlen).
    rewrite <- (static_length v t Hv Et).
    replace (length (pre ++ done) + length (enc v))%nat
      with (length pre + length (done ++ enc v))%nat
      by (rewrite !length_app; lia).
    rewrite H3.
    rewrite (IH ts (done ++ enc v) kept off hs' tls' Hdvs Hvs E);
      [reflexivity| |rewrite <- H3; exact Hlen].
    rewrite !length_app. lia.
Qed.

(** Each component has a head of at least one byte, so an array has no
    more components than bytes. *)
Lemma heads_size_array (vs : list val) (t : ty) :
  (0 < head_size t)%nat -> forallb (fun v => has_ty v t) vs = true ->
  (length vs <= heads_size (parts vs))%nat.
Proof.
  intros Ht. induction vs as [|v vs IH]; intros H; [cbn; lia|].
  cbn [forallb] in H. apply andb_true_iff in H as [Hv Hvs].
  unfold parts, heads_size. cbn [map fold_right fst snd length].
  fold (parts vs). fold (heads_size (parts vs)). specialize (IH Hvs).
  rewrite (has_ty_dynamic v t Hv).
  destruct (ty_dynamic t) eqn:Et; [lia|].
  rewrite (static_length v t Hv Et). lia.
Qed.

Lemma length_assemble (ps : list (bool * list byte)) :
  (heads_size ps <= length (assemble ps))%nat.
Proof.
  unfold assemble. fold (heads_size ps).
  pose proof (length_assemble_from ps (heads_size ps)) as H.
  destruct (assemble_from ps (heads_size ps)) as [hs tls]. cbn [fst] in H.
  rewrite length_app. lia.
Qed.

(** Decoding the encoding of a value of a type gives the value back,
    wherever the encoding lies in the data. *)
Lemma dec_enc (v : val) : decodes v.
Proof.
  induction v as [z|a|bs|s|vs IH|vs IH] using val_nested_ind;
    intros [| | | |ts|t] pre post Hty Hlen; try discriminate Hty.
  - cbn [dec enc]. rewrite word_at_app by apply length_be_bytes.
    cbn [has_ty] in Hty. rewrite (be_value_be_bytes_32 z Hty). reflexivity.
  - cbn [dec enc]. rewrite word_at_app by apply length_be_bytes.
    cbn [has_ty] in Hty.
    rewrite (be_value_be_bytes_32 a (is_address_uint256 a Hty)), Hty.
    reflexivity.
  - cbn [dec enc] in *. rewrite bytes_at_app by exact Hlen. reflexivity.
  - cbn [dec enc] in *. rewrite bytes_at_app by exact Hlen.
    cbn [option_map]. rewrite string_of_list_byte_of_string. reflexivity.
  - rewrite dec_tuple. cbn [enc] in *. fold (parts vs) in *.
    unfold assemble in *. fold (heads_size (parts vs)) in *.
    pose proof (length_assemble_from (parts vs) (heads_size (parts vs)))
      as Hhs.
    destruct (assemble_from (parts vs) (heads_size (parts vs)))
      as [hs tls] eqn:E.
    cbn [fst] in Hhs.
    assert (Hd : pre ++ (hs ++ tls) ++ post
                 = pre ++ [] ++ hs ++ [] ++ tls ++ post)
      by (cbn [app]; rewrite <- app_assoc; reflexivity).
    rewrite Hd in Hlen |- *.
    replace (length pre) with (length pre + length (@nil byte))%nat at 2
      by (cbn [length]; lia).
    rewrite (dec_heads_assemble pre post vs ts [] [] _ hs tls IH Hty E);
      [reflexivity|cbn [length]; lia|exact Hlen].
  - rewrite dec_array. cbn [enc has_ty] in *.
    apply andb_true_iff in Hty as [Hhead Hvs]. apply Nat.ltb_lt in Hhead.
    fold (parts vs) in *.
    assert (Hn : (length vs <= length
                    (pre ++ (be_bytes 32 (Z.of_nat (length vs))
                             ++ assemble (parts vs)) ++ post))%nat).
    { pose proof (heads_size_array vs t Hhead Hvs).
      pose proof (length_assemble (parts vs)).
      rewrite !length_app. lia. }
    assert (Hd0 : pre ++ (be_bytes 32 (Z.of_nat (length vs))
                          ++ assemble (parts vs)) ++ post
                  = pre ++ be_bytes 32 (Z.of_nat (length vs))
                    ++ (assemble (parts vs) ++ post))
      by (rewrite <- app_assoc; reflexivity).
    rewrite Hd0 in Hn, Hlen |- *.
    rewrite index_at_app by assumption.
    unfold assemble in *. fold (heads_size (parts vs)) in *.
    pose proof (length_assemble_from (parts vs) (heads_size (parts vs)))
      as Hhs.
    destruct (assemble_from (parts vs) (heads_size (parts vs)))
      as [hs tls] eqn:E.
    cbn [fst] in Hhs.
    assert (Hd : pre ++ be_bytes 32 (Z.of_nat (length vs))
                 ++ (hs ++ tls) ++ post
                 = (pre ++ be_bytes 32 (Z.of_nat (length vs)))
                   ++ [] ++ hs ++ [] ++ tls ++ post)
      by (cbn [app]; rewrite <- !app_assoc; reflexivity).
    rewrite Hd in Hlen |- *.
    replace (length pre + 32)%nat
      with (length (pre ++ be_bytes 32 (Z.of_nat (length vs))))
      by (rewrite length_app, length_be_bytes; reflexivity).
    replace (length (pre ++ be_bytes 32 (Z.of_nat (length vs)))) with
      (length (pre ++ be_bytes 32 (Z.of_nat (length vs)))
       + length (@nil byte))%nat at 2 by (cbn [length]; lia).
    rewrite (dec_heads_assemble _ post vs (repeat t (length vs)) [] [] _
               hs tls IH (has_ty_array_tuple vs t Hvs) E);
      [reflexivity|cbn [length]; lia|exact Hlen].
Qed.

(** [abi.decode(abi.encode(v), (t))] is [v]. *)
Lemma decode_encode (v : val) (t : ty) :
  has_ty v t = true ->
  Z.of_nat (length (encode [v])) < 2 ^ 256 ->
  decode [t] (encode [v]) = Some [v].
Proof.
  intros Hty Hlen. unfold decode, encode in *.
  pose proof (dec_enc (VTuple [v]) (TTuple [t]) [] []) as H.
  cbn [app length] in H. rewrite app_nil_r in H.
  rewrite H; [reflexivity| |exact Hlen].
  rewrite has_ty_tuple_cons, Hty. reflexivity.
Qed.

End AbiFacts.

(** ** The contract over its transactions *)

Section LedgerFacts.
Import Word Sol ERC20 TokenContract Terms Ledger.
Context {platform : Platform}.

Lemma total_delete (m : gmap Z Z) (k v : Z) :
  m !! k = Some v -> total m = v + total (delete k m).
Proof.
  intros H. unfold total.
  apply (map_fold_delete_L (fun (_ : Z) (v sum : Z) => v + sum));
    [|exact H].
  intros. lia.
Qed.

Lemma total_insert (m : gmap Z Z) (k v : Z) :
  total (<[k := v]> m) = total m - default 0 (m !! k) + v.
Proof.
  assert (Hfresh : forall m', m' !! k = None ->
                              total (<[k := v]> m') = v + total m').
  { intros m' H. unfold total.
    apply (map_fold_insert_L (fun (_ : Z) (v sum : Z) => v + sum));
      [|exact H].
    intros. lia. }
  destruct (m !! k) as [old|] eqn:E; cbv [default from_option Datatypes.id].
  - rewrite (total_delete m k old E).
    rewrite <- (insert_delete_eq m k v).
    rewrite Hfresh by apply lookup_delete_eq. lia.
  - rewrite Hfresh by exact E. lia.
Qed.

Lemma total_nonnegative (m : gmap Z Z) : nonnegative m -> 0 <= total m.
Proof.
  unfold total.
  apply (map_fold_weak_ind (fun r m => nonnegative m -> 0 <= r)).
  - intros _. lia.
  - intros i x m' r Hi IH Hnn.
    assert (0 <= x) by (apply (Hnn i); apply lookup_insert_eq).
    assert (0 <= r).
    { apply IH. intros k v Hk. apply (Hnn k).
      rewrite lookup_insert_ne; [exact Hk|]. congruence. }
    lia.
Qed.

Lemma nonnegative_delete (m : gmap Z Z) (k : Z) :
  nonnegative m -> nonnegative (delete k m).
Proof.
  intros H j v Hj. apply (H j).
  destruct (decide (j = k)) as [->|Hne].
  - rewrite lookup_delete_eq in Hj. discriminate Hj.
  - rewrite lookup_delete_ne in Hj by congruence. exact Hj.
Qed.

Lemma nonnegative_insert (m : gmap Z Z) (k v : Z) :
  nonnegative m -> 0 <= v -> nonnegative (<[k := v]> m).
Proof.
  intros H Hv j w Hj. destruct (decide (j = k)) as [->|Hne].
  - rewrite lookup_insert_eq in Hj. injection Hj as <-. exact Hv.
  - rewrite lookup_insert_ne in Hj by congruence. apply (H j). exact Hj.
Qed.

Lemma entry_below_total (m : gmap Z Z) (k : Z) :
  nonnegative m -> 0 <= default 0 (m !! k) <= total m.
Proof.
  intros H. destruct (m !! k) as [v|] eqn:E; cbv [default from_option Datatypes.id].
  - rewrite (total_delete m k v E).
    pose proof (total_nonnegative _ (nonnegative_delete m k H)).
    pose proof (H k v E). lia.
  - pose proof (total_nonnegative m H). lia.
Qed.

Lemma balanced_same (st st' : State) :
  _balances st' = _balances st -> _totalSupply st' = _totalSupply st ->
  balanced st -> balanced st'.
Proof.
  unfold balanced, circulating. intros -> ->. tauto.
Qed.

Lemma balanced_moved (from to value : Z) (st : State) :
  balanced st -> 0 <= value -> value <= balanceOf st from ->
  balanced (moved from to value st).
Proof.
  intros (Hnn & Hsum & Hmax) Hv Hb.
  unfold balanced, circulating, moved in *. cbn [_balances _totalSupply].
  set (debited := <[from := balanceOf st from - value]> (_balances st)).
  assert (Hnd : nonnegative debited)
    by (apply nonnegative_insert; [exact Hnn|lia]).
  assert (Htd : total debited = total (_balances st) - value).
  { unfold debited. rewrite total_insert. unfold balanceOf. lia. }
  pose proof (entry_below_total debited to Hnd) as Hto.
  assert (Hsmall : (default 0 (debited !! to) + value) mod 2 ^ 256
                   = default 0 (debited !! to) + value).
  { apply Z.mod_small. unfold uint256_max in Hmax. lia. }
  rewrite Hsmall. split; [|split].
  - apply nonnegative_insert; [exact Hnd|lia].
  - rewrite total_insert, Htd. lia.
  - exact Hmax.
Qed.

Lemma approve_cases ctx spender value st :
  approve ctx spender value st
  = if msg_sender ctx =? 0 then Revert (ERC20InvalidApprover 0)
    else if spender =? 0 then Revert (ERC20InvalidSpender 0)
    else Return true
           {| _balances := _balances st;
              _allowances :=
                <[(msg_sender ctx, spender) := value]> (_allowances st);
              _totalSupply := _totalSupply st;
              contractOwner := contractOwner st;
              transferAssessments := transferAssessments st;
              logs := logs st ++ [Approval (msg_sender ctx) spender value] |}.
Proof.
  unfold approve, _approve, bind.
  destruct (msg_sender ctx =? 0); [reflexivity|].
  destruct (spender =? 0); reflexivity.
Qed.

Lemma setContractOwner_cases ctx newOwner st :
  setContractOwner ctx newOwner st
  = if msg_sender ctx =? contractOwner st
    then Return tt
           {| _balances := _balances st;
              _allowances := _allowances st;
              _totalSupply := _totalSupply st;
              contractOwner := newOwner;
              transferAssessments := transferAssessments st;
              logs := logs st |}
    else Revert (Error "Not owner").
Proof.
  unfold setContractOwner, onlyContractOwner, bind, get, require.
  destruct (msg_sender ctx =? contractOwner st); reflexivity.
Qed.

Lemma constructor_cases KRNL ctx key :
  constructor KRNL ctx key Scenario.blank
  = match KRNL ctx key with
    | Some reason => Revert reason
    | None =>
        if msg_sender ctx =? 0 then Revert (ERC20InvalidReceiver 0)
        else Return tt
               {| _balances := <[msg_sender ctx := 1000000 * 10 ^ 18]> ∅;
                  _allowances := ∅;
                  _totalSupply := 1000000 * 10 ^ 18;
                  contractOwner := msg_sender ctx;
                  transferAssessments := ∅;
                  logs := [Transfer 0 (msg_sender ctx) (1000000 * 10 ^ 18)] |}
    end.
Proof.
  unfold constructor. destruct (KRNL ctx key) as [reason|]; [reflexivity|].
  unfold _mint, bind at 1, set_contractOwner.
  destruct (Z.eqb_spec (msg_sender ctx) 0) as [Hs|Hs]; [reflexivity|].
  unfold _update. cbn [Z.eqb].
  apply Z.eqb_neq in Hs. rewrite Hs.
  unfold bind, get, set_totalSupply, set_balance, emit, balanceOf.
  cbn [_totalSupply Scenario.blank _balances _allowances contractOwner
       transferAssessments logs].
  assert (E : (0 + 1000000 * 10 ^ 18 <=? uint256_max) = true) by reflexivity.
  rewrite E.
  cbn [_totalSupply _balances _allowances contractOwner
       transferAssessments logs].
  rewrite lookup_empty. cbv [default from_option Datatypes.id].
  reflexivity.
Qed.

(** What a transaction does to the balances and the supply: nothing,
    or one move of tokens that the sender's balance covers. *)
Lemma step_moves (st : State) (tx : Call * Invocation) :
  uint256_arguments (snd tx) = true ->
  (_balances (step st tx) = _balances st
   /\ _totalSupply (step st tx) = _totalSupply st)
  \/ exists from to value st0,
       _balances st0 = _balances st /\ _totalSupply st0 = _totalSupply st
       /\ 0 <= value <= balanceOf st0 from
       /\ step st tx = moved from to value st0.
Proof.
  destruct tx as [ctx i]. unfold step, execute. cbn [fst snd].
  intros Harg.
  destruct (invoke ctx i st) as [b st'|r] eqn:E; [|left; split; reflexivity].
  cbn [fst].
  destruct i as [to amount|from to amount|to amount p|from to amount p
                |spender value|newOwner]; cbn [invoke uint256_arguments] in *.
  - discriminate E.
  - discriminate E.
  - apply transferWithKRNL_returns in E
      as (response & _ & _ & _ & _ & Hb & _ & ->).
    right. eexists _, _, _, _. split; [|split; [|split; [|reflexivity]]].
    + reflexivity.
    + reflexivity.
    + rewrite balanceOf_assessed. unfold is_uint256 in Harg.
      apply andb_true_iff in Harg as [H0 _]. apply Z.leb_le in H0. lia.
  - unfold is_uint256 in Harg.
    apply andb_true_iff in Harg as [H0 _]. apply Z.leb_le in H0.
    apply transferFromWithKRNL_returns in E
      as (response & _ & _ & _ & _ & Hb & _ & [(_ & _ & _ & ->)|(_ & ->)]).
    + right. eexists _, _, _, _. split; [|split; [|split; [|reflexivity]]].
      * reflexivity.
      * reflexivity.
      * rewrite balanceOf_spent, balanceOf_assessed. lia.
    + right. eexists _, _, _, _. split; [|split; [|split; [|reflexivity]]].
      * reflexivity.
      * reflexivity.
      * rewrite balanceOf_assessed. lia.
  - rewrite approve_cases in E.
    destruct (msg_sender ctx =? 0); [discriminate E|].
    destruct (spender =? 0); [discriminate E|].
    injection E as _ <-. left. split; reflexivity.
  - unfold bind in E. rewrite setContractOwner_cases in E.
    destruct (msg_sender ctx =? contractOwner st); [|discriminate E].
    unfold ret in E. injection E as _ <-. left. split; reflexivity.
Qed.

Lemma balanced_step (st : State) (tx : Call * Invocation) :
  uint256_arguments (snd tx) = true -> balanced st -> balanced (step st tx).
Proof.
  intros Harg Hb. destruct (step_moves st tx Harg)
    as [[H1 H2]|(from & to & value & st0 & H1 & H2 & Hv & ->)].
  - exact (balanced_same _ _ H1 H2 Hb).
  - apply balanced_moved; [|lia|lia].
    exact (balanced_same _ _ H1 H2 Hb).
Qed.

Lemma supply_step (st : State) (tx : Call * Invocation) :
  uint256_arguments (snd tx) = true ->
  _totalSupply (step st tx) = _totalSupply st.
Proof.
  intros Harg. destruct (step_moves st tx Harg)
    as [[_ H2]|(from & to & value & st0 & _ & H2 & _ & ->)].
  - exact H2.
  - exact H2.
Qed.

Lemma balanced_deployed (ctx : Call) :
  msg_sender ctx <> 0 ->
  balanced (deployed ctx)
  /\ _totalSupply (deployed ctx) = 1000000 * 10 ^ 18.
Proof.
  intros Hs. unfold deployed, execute. rewrite constructor_cases.
  cbv beta iota. apply Z.eqb_neq in Hs. rewrite Hs. cbn [fst].
  split; [|reflexivity].
  unfold balanced, circulating. cbn [_balances _totalSupply].
  split; [|split].
  - apply nonnegative_insert; [|lia]. intros k v Hk.
    rewrite lookup_empty in Hk. discriminate Hk.
  - rewrite total_insert, lookup_empty. unfold total.
    rewrite map_fold_empty. cbn [default]. lia.
  - unfold uint256_max. lia.
Qed.

Lemma run_snoc (txs : list (Call * Invocation)) (tx : Call * Invocation)
    (st : State) :
  run (txs ++ [tx]) st = step (run txs st) tx.
Proof. unfold run. rewrite fold_left_app. reflexivity. Qed.

(** Every deployment that goes through leaves the same storage. *)
Lemma constructor_deploys KRNL ctx key :
  KRNL ctx key = None -> msg_sender ctx <> 0 ->
  constructor KRNL ctx key Scenario.blank = Return tt (deployed ctx).
Proof.
  intros Hk Hs. unfold deployed, execute. rewrite !constructor_cases, Hk.
  cbv beta iota. apply Z.eqb_neq in Hs. rewrite Hs. reflexivity.
Qed.

(** X1: the deployment.  The constructor of [KRNL], which is not in the
    repository and a parameter here, runs first: if it reverts, the
    deployment reverts with its reason.  If it runs through, the
    deployment reverts for the zero address, and otherwise makes the
    deployer the owner and mints the whole initial supply, one million
    tokens of 18 decimals, to the deployer: nobody else holds a token,
    no allowance is set, no assessment is stored, and of the events of
    [ERC20] and [TokenContract] the log has the one [Transfer] from the
    zero address.  The storage is the same for every such deployment,
    whatever the key. *)
Theorem constructor_gives_the_deployer_the_supply :
  forall (KRNL : Call -> Z -> option RevertReason) (ctx : Call)
         (_tokenAuthorityPublicKey : Z),
    (forall reason,
        KRNL ctx _tokenAuthorityPublicKey = Some reason ->
        constructor KRNL ctx _tokenAuthorityPublicKey Scenario.blank
        = Revert reason)
    /\ (KRNL ctx _tokenAuthorityPublicKey = None -> msg_sender ctx = 0 ->
        constructor KRNL ctx _tokenAuthorityPublicKey Scenario.blank
        = Revert (ERC20InvalidReceiver 0))
    /\ (KRNL ctx _tokenAuthorityPublicKey = None -> msg_sender ctx <> 0 ->
        exists st,
          constructor KRNL ctx _tokenAuthorityPublicKey Scenario.blank
          = Return tt st
          /\ st = deployed ctx
          /\ contractOwner st = msg_sender ctx
          /\ _totalSupply st = 1000000 * 10 ^ 18
          /\ balanceOf st (msg_sender ctx) = 1000000 * 10 ^ 18
          /\ (forall a, a <> msg_sender ctx -> balanceOf st a = 0)
          /\ (forall owner spender, allowance st owner spender = 0)
          /\ (forall key,
                getTransferAssessment st key = empty_WebhookResponse)
          /\ logs st = [Transfer 0 (msg_sender ctx) (1000000 * 10 ^ 18)]).
Proof.
  intros KRNL ctx key. split; [|split].
  - intros reason Hk. rewrite constructor_cases, Hk. reflexivity.
  - intros Hk Hs. rewrite constructor_cases, Hk, Hs. reflexivity.
  - intros Hk Hs. exists (deployed ctx).
    split; [apply constructor_deploys; assumption|].
    split; [reflexivity|].
    unfold deployed, execute. rewrite constructor_cases. cbv beta iota.
    apply Z.eqb_neq in Hs. rewrite Hs.
    cbn [fst contractOwner _totalSupply logs].
    split; [reflexivity|]. split; [reflexivity|].
    split; [|split; [|split; [|split; [|reflexivity]]]].
    + unfold balanceOf. cbn [_balances]. rewrite lookup_insert_eq.
      reflexivity.
    + intros a Ha. unfold balanceOf. cbn [_balances].
      rewrite lookup_insert_ne by congruence. rewrite lookup_empty.
      reflexivity.
    + intros owner spender. unfold allowance. cbn [_allowances].
      rewrite lookup_empty. reflexivity.
    + intros k. unfold getTransferAssessment. cbn [transferAssessments].
      rewrite lookup_empty. reflexivity.
Qed.

(** X2: [setContractOwner] is for the owner: called by the owner it
    replaces the owner and touches nothing else (it emits no event),
    and from then on the former owner is refused like everybody else;
    called by anyone else it reverts with "Not owner" and changes
    nothing. *)
Theorem owner_is_replaced_by_the_owner_only :
  forall (ctx : Call) (newOwner : Z) (st : State),
    (msg_sender ctx = contractOwner st ->
     exists st',
       setContractOwner ctx newOwner st = Return tt st'
       /\ contractOwner st' = newOwner
       /\ _balances st' = _balances st
       /\ _allowances st' = _allowances st
       /\ _totalSupply st' = _totalSupply st
       /\ transferAssessments st' = transferAssessments st
       /\ logs st' = logs st
       /\ (forall ctx' other,
             msg_sender ctx' <> newOwner ->
             execute (setContractOwner ctx' other) st'
             = (st', Some (Error "Not owner"))))
    /\ (msg_sender ctx <> contractOwner st ->
        execute (setContractOwner ctx newOwner) st
        = (st, Some (Error "Not owner"))).
Proof.
  intros ctx newOwner st. split.
  - intros Ho. rewrite setContractOwner_cases.
    apply Z.eqb_eq in Ho. rewrite Ho. eexists. split; [reflexivity|].
    cbn [contractOwner _balances _allowances _totalSupply
         transferAssessments logs].
    do 6 (split; [reflexivity|]).
    intros ctx' other Hne. unfold execute. rewrite setContractOwner_cases.
    cbn [contractOwner]. apply Z.eqb_neq in Hne. rewrite Hne. reflexivity.
  - intros Hne. unfold execute. rewrite setContractOwner_cases.
    apply Z.eqb_neq in Hne. rewrite Hne. reflexivity.
Qed.

(** X3: no sequence of transactions creates or destroys tokens.  After
    the deployment and any calls of the external functions, by any
    callers, approved or not, the total supply is the million tokens
    minted by the constructor, the balances add up to it, and no
    balance is negative or above it. *)
Theorem supply_is_conserved :
  forall (ctx : Call) (txs : list (Call * Invocation)),
    msg_sender ctx <> 0 ->
    Forall (fun tx => uint256_arguments (snd tx) = true) txs ->
    let st := run txs (deployed ctx) in
    _totalSupply st = 1000000 * 10 ^ 18
    /\ circulating st = 1000000 * 10 ^ 18
    /\ (forall a, 0 <= balanceOf st a <= 1000000 * 10 ^ 18).
Proof.
  intros ctx txs Hs Hargs st.
  assert (H : balanced st /\ _totalSupply st = 1000000 * 10 ^ 18).
  { unfold st. clear st.
    induction txs as [|tx txs IH] using rev_ind.
    - apply balanced_deployed. exact Hs.
    - apply Forall_app in Hargs as [Hargs Htx].
      apply Forall_cons in Htx as [Htx _].
      destruct (IH Hargs) as [Hb Ht]. rewrite run_snoc.
      split; [apply balanced_step; assumption|].
      rewrite supply_step by assumption. exact Ht. }
  destruct H as [(Hnn & Hsum & Hmax) Ht].
  split; [exact Ht|]. split; [congruence|].
  intros a. pose proof (entry_below_total _ a Hnn) as Ha.
  unfold balanceOf. unfold circulating in Hsum. lia.
Qed.

Lemma approved_only_assessed ctx from to amount response st :
  keccak_eq (status (payload response)) "approved" = true ->
  approved_only st ->
  approved_only (assessed ctx from to amount response true st).
Proof.
  intros Hk [Ha Hl]. unfold approved_only, assessed.
  cbn [transferAssessments logs]. split.
  - intros key r Hr.
    destruct (decide (key = transferHash from to amount (block_timestamp ctx)))
      as [->|Hne].
    + rewrite lookup_insert_eq in Hr. injection Hr as <-. exact Hk.
    + rewrite lookup_insert_ne in Hr by congruence. exact (Ha _ _ Hr).
  - rewrite forallb_app, Hl. reflexivity.
Qed.

Lemma approved_only_moved from to value st :
  approved_only st -> approved_only (moved from to value st).
Proof.
  intros [Ha Hl]. unfold approved_only, moved.
  cbn [transferAssessments logs]. split; [exact Ha|].
  rewrite forallb_app, Hl. reflexivity.
Qed.

Lemma approved_only_step (st : State) (tx : Call * Invocation) :
  approved_only st -> approved_only (step st tx).
Proof.
  intros Hst. destruct tx as [ctx i]. unfold step, execute. cbn [fst snd].
  destruct (invoke ctx i st) as [b st'|r] eqn:E; [|exact Hst].
  cbn [fst].
  destruct i as [to amount|from to amount|to amount p|from to amount p
                |spender value|newOwner]; cbn [invoke] in E.
  - discriminate E.
  - discriminate E.
  - apply transferWithKRNL_returns in E
      as (response & _ & Hk & _ & _ & _ & _ & ->).
    apply approved_only_moved.
    apply (approved_only_assessed _ _ _ _ response); assumption.
  - apply transferFromWithKRNL_returns in E
      as (response & _ & Hk & _ & _ & _ & _ & [(_ & _ & _ & ->)|(_ & ->)]).
    + apply approved_only_moved.
      pose proof (approved_only_assessed ctx from to amount response st
                    Hk Hst) as [Ha Hl].
      split; [exact Ha|exact Hl].
    + apply approved_only_moved.
      apply (approved_only_assessed _ _ _ _ response); assumption.
  - rewrite approve_cases in E.
    destruct (msg_sender ctx =? 0); [discriminate E|].
    destruct (spender =? 0); [discriminate E|].
    injection E as _ <-. destruct Hst as [Ha Hl].
    split; [exact Ha|]. cbn [logs]. rewrite forallb_app, Hl. reflexivity.
  - unfold bind in E. rewrite setContractOwner_cases in E.
    destruct (msg_sender ctx =? contractOwner st); [|discriminate E].
    unfold ret in E. injection E as _ <-. exact Hst.
Qed.

Lemma approved_only_deployed (ctx : Call) : approved_only (deployed ctx).
Proof.
  unfold deployed, execute. rewrite constructor_cases. cbv beta iota.
  destruct (msg_sender ctx =? 0); cbn [fst]; split;
    try reflexivity; intros key response H;
    cbn [transferAssessments Scenario.blank] in H;
    rewrite lookup_empty in H; discriminate H.
Qed.

(** X4: the contract keeps no record of a denied transfer.
    [checkTransferAllowed] stores the assessment and emits
    [TransferAssessed] before the caller's [require], so the revert of
    a denied call takes both back: after any transactions, whatever
    [getTransferAssessment] returns is either the empty response or one
    whose status passed the comparison with ["approved"], and every
    [TransferAssessed] event in the log has [allowed = true]. *)
Theorem denied_assessments_leave_no_trace :
  forall (ctx : Call) (txs : list (Call * Invocation)) (key : Z),
    let st := run txs (deployed ctx) in
    (getTransferAssessment st key = empty_WebhookResponse
     \/ keccak_eq (status (payload (getTransferAssessment st key))) "approved"
        = true)
    /\ (forall from to amount status allowed timestamp,
          In (TransferAssessed from to amount status allowed timestamp)
             (logs st) ->
          allowed = true).
Proof.
  intros ctx txs key st.
  assert (H : approved_only st).
  { unfold st. clear st. induction txs as [|tx txs IH] using rev_ind.
    - apply approved_only_deployed.
    - rewrite run_snoc. apply approved_only_step. exact IH. }
  destruct H as [Ha Hl]. split.
  - unfold getTransferAssessment.
    destruct (transferAssessments st !! key) as [response|] eqn:E;
      cbn [default].
    + right. exact (Ha _ _ E).
    + left. reflexivity.
  - intros from to amount status allowed timestamp Hin.
    rewrite forallb_forall in Hl. exact (Hl _ Hin).
Qed.

(** X5: what a successful [transferFromWithKRNL] costs the caller: the
    allowance that [from] gave the caller goes down by the amount,
    unless it is the largest [uint256], which is never spent; no other
    allowance changes, and no [Approval] event is emitted.  A
    successful [transferWithKRNL] changes no allowance at all. *)
Theorem allowance_is_spent_by_transferFrom_only :
  forall (ctx : Call) (from to amount : Z) (p : KrnlPayload) (st : State),
    (forall b st',
        transferFromWithKRNL ctx from to amount p st = Return b st' ->
        (allowance st from (msg_sender ctx) < uint256_max ->
         amount <= allowance st from (msg_sender ctx)
         /\ allowance st' from (msg_sender ctx)
            = allowance st from (msg_sender ctx) - amount)
        /\ (uint256_max <= allowance st from (msg_sender ctx) ->
            allowance st' from (msg_sender ctx)
            = allowance st from (msg_sender ctx))
        /\ (forall owner spender,
              (owner, spender) <> (from, msg_sender ctx) ->
              allowance st' owner spender = allowance st owner spender)
        /\ (forall owner spender value,
              In (Approval owner spender value) (logs st') ->
              In (Approval owner spender value) (logs st)))
    /\ (forall b st',
          transferWithKRNL ctx to amount p st = Return b st' ->
          forall owner spender,
            allowance st' owner spender = allowance st owner spender).
Proof.
  intros ctx from to amount p st. split.
  - intros b st' H.
    apply transferFromWithKRNL_returns in H
      as (response & _ & _ & _ & _ & _ & _
          & [(Hm & Hv & _ & ->)|(Hm & ->)]).
    + split; [|split; [|split]].
      * intros _. split; [exact Hv|].
        unfold allowance at 1, moved, spent. cbn [_allowances].
        rewrite lookup_insert_eq. reflexivity.
      * intros Hmax. lia.
      * intros owner spender Hne.
        unfold allowance at 1, moved, spent. cbn [_allowances].
        rewrite lookup_insert_ne by congruence. reflexivity.
      * intros owner spender value Hin.
        unfold moved, spent, assessed in Hin. cbn [logs] in Hin.
        apply in_app_or in Hin as [Hin|[Hin|[]]]; [|discriminate Hin].
        apply in_app_or in Hin as [Hin|[Hin|[]]]; [exact Hin|].
        discriminate Hin.
    + split; [|split; [|split]].
      * intros Hlt. lia.
      * intros _. reflexivity.
      * intros owner spender _. reflexivity.
      * intros owner spender value Hin.
        unfold moved, assessed in Hin. cbn [logs] in Hin.
        apply in_app_or in Hin as [Hin|[Hin|[]]]; [|discriminate Hin].
        apply in_app_or in Hin as [Hin|[Hin|[]]]; [exact Hin|].
        discriminate Hin.
  - intros b st' H.
    apply transferWithKRNL_returns in H
      as (response & _ & _ & _ & _ & _ & _ & ->).
    intros owner spender. reflexivity.
Qed.

End LedgerFacts.

(** ** The transactions of the sample *)

Section LedgerScenarios.
Import Word Sol ERC20 TokenContract Terms Ledger Scenario Samples.

Lemma constructor_gives_the_deployer_the_supply_witness :
  constructor (fun _ _ => Some (Error "Invalid owner")) (call alice)
    tokenAuthority blank
  = Revert (Error "Invalid owner")
  /\ constructor deploys (call 0) tokenAuthority blank
     = Revert (ERC20InvalidReceiver 0)
  /\ exists st,
       constructor deploys (call alice) tokenAuthority blank = Return tt st
       /\ st = genesis
       /\ contractOwner st = alice
       /\ balanceOf st alice = 1000000 * 10 ^ 18
       /\ balanceOf st bob = 0.
Proof.
  assert (Ha : msg_sender (call alice) <> 0) by discriminate.
  assert (Hg : deployed (call alice) = genesis) by reflexivity.
  destruct (constructor_gives_the_deployer_the_supply
              (fun _ _ => Some (Error "Invalid owner")) (call alice)
              tokenAuthority) as (Hr & _ & _).
  destruct (constructor_gives_the_deployer_the_supply deploys (call 0)
              tokenAuthority) as (_ & Hz & _).
  destruct (constructor_gives_the_deployer_the_supply deploys (call alice)
              tokenAuthority) as (_ & _ & Hd).
  split; [apply Hr; reflexivity|].
  split; [apply Hz; reflexivity|].
  destruct (Hd eq_refl Ha) as (st & E & Est & Ho & _ & Hb & Hothers & _).
  exists st. split; [exact E|]. split; [rewrite Est; exact Hg|].
  split; [exact Ho|]. split; [exact Hb|].
  apply Hothers. discriminate.
Defined.

Lemma owner_is_replaced_by_the_owner_only_witness :
  (exists st',
     setContractOwner (call alice) bob genesis = Return tt st'
     /\ contractOwner st' = bob
     /\ execute (setContractOwner (call alice) alice) st'
        = (st', Some (Error "Not owner")))
  /\ execute (setContractOwner (call bob) bob) genesis
     = (genesis, Some (Error "Not owner")).
Proof.
  assert (Ho : contractOwner genesis = alice) by (vm_compute; reflexivity).
  destruct (owner_is_replaced_by_the_owner_only (call alice) bob genesis)
    as [H1 _].
  destruct (owner_is_replaced_by_the_owner_only (call bob) bob genesis)
    as [_ H2].
  split.
  - destruct (H1 (eq_sym Ho)) as (st' & E & Hn & _ & _ & _ & _ & _ & Hr).
    exists st'. split; [exact E|]. split; [exact Hn|].
    apply Hr. discriminate.
  - apply H2. rewrite Ho. discriminate.
Defined.

Lemma supply_is_conserved_witness :
  let st := @run evm sampleTransactions (@deployed (call alice)) in
  _totalSupply st = 1000000 * 10 ^ 18
  /\ circulating st = 1000000 * 10 ^ 18
  /\ balanceOf st bob = 10 ^ 18
  /\ contractOwner st = bob.
Proof.
  assert (Ha : msg_sender (call alice) <> 0) by discriminate.
  assert (Hargs : Forall (fun tx => uint256_arguments (snd tx) = true)
                    sampleTransactions)
    by (repeat constructor).
  destruct (@supply_is_conserved evm (call alice) sampleTransactions Ha Hargs)
    as (H1 & H2 & _).
  cbv zeta. split; [exact H1|]. split; [exact H2|].
  split; vm_compute; reflexivity.
Defined.

Lemma denied_assessments_leave_no_trace_witness :
  let st := @run evm sampleTransactions (@deployed (call alice)) in
  In (TransferAssessed alice bob half "approved" true 1705314600) (logs st)
  /\ (forall status allowed,
        In (TransferAssessed alice bob half status allowed 1705314600)
           (logs st) ->
        allowed = true)
  /\ ~ In (TransferAssessed alice bob half "rejected" false 1705314600)
         (logs st).
Proof.
  cbv zeta.
  pose proof (@denied_assessments_leave_no_trace evm (call alice)
                sampleTransactions 0) as [_ H].
  cbv zeta in H.
  assert (E : logs (@run evm sampleTransactions (@deployed (call alice)))
              = [Transfer 0 alice (1000000 * 10 ^ 18);
                 TransferAssessed alice bob half "approved" true 1705314600;
                 Transfer alice bob half;
                 Approval alice bob (10 ^ 18);
                 TransferAssessed alice bob half "approved" true 1705314600;
                 Transfer alice bob half])
    by (vm_compute; reflexivity).
  split; [rewrite E; right; left; reflexivity|].
  split.
  - intros status allowed Hin. exact (H _ _ _ _ _ _ Hin).
  - intros Hin. apply H in Hin. discriminate Hin.
Defined.

Lemma allowance_is_spent_by_transferFrom_only_witness :
  exists st',
    @transferFromWithKRNL evm (call bob) alice bob half
      (bundleFrom alice bob half approvedLow) genesisWithAllowance
    = Return true st'
    /\ allowance genesisWithAllowance alice bob = 10 ^ 18
    /\ allowance st' alice bob = 10 ^ 18 - half.
Proof.
  set (st0 := fst (execute (@transferFromWithKRNL evm (call bob) alice bob
                              half (bundleFrom alice bob half approvedLow))
                     genesisWithAllowance)).
  assert (E : @transferFromWithKRNL evm (call bob) alice bob half
                (bundleFrom alice bob half approvedLow) genesisWithAllowance
              = Return true st0) by (vm_compute; reflexivity).
  assert (Ha : allowance genesisWithAllowance alice bob = 10 ^ 18)
    by (vm_compute; reflexivity).
  destruct (@allowance_is_spent_by_transferFrom_only evm (call bob) alice bob
              half (bundleFrom alice bob half approvedLow)
              genesisWithAllowance) as [H _].
  destruct (H true st0 E) as (Hlt & _).
  exists st0. split; [exact E|]. split; [exact Ha|].
  change (msg_sender (call bob)) with bob in Hlt.
  rewrite Ha in Hlt. apply Hlt. unfold uint256_max.
  apply Z.ltb_lt. vm_compute. reflexivity.
Defined.

End LedgerScenarios.

(** ** The script's payloads, decoded *)

Section ScriptFacts.
Import Word Sol Abi SolAbi Shapes TestTokenTransfer Script Terms.

Lemma WebhookResponse_of_val_of (r : WebhookResponse) :
  WebhookResponse_of_val (val_of_WebhookResponse r) = Some r.
Proof. destruct r as [e []]. reflexivity. Qed.

Lemma has_ty_WebhookResponse (r : WebhookResponse) :
  is_uint256 (riskScore (payload r)) = true ->
  has_ty (val_of_WebhookResponse r) WebhookResponse_ty = true.
Proof.
  intros H. unfold val_of_WebhookResponse, val_of_WebhookPayload,
    WebhookResponse_ty, WebhookPayload_ty.
  cbn [has_ty andb]. rewrite H. reflexivity.
Qed.

(** [abi.decode(abi.encode(response), (WebhookResponse))] is
    [response]. *)
Lemma decode_encode_WebhookResponse (r : WebhookResponse) :
  is_uint256 (riskScore (payload r)) = true ->
  Z.of_nat (length (encode_WebhookResponse r)) < 2 ^ 256 ->
  decode_WebhookResponse (encode_WebhookResponse r) = Some r.
Proof.
  intros Hs Hlen. unfold decode_WebhookResponse, encode_WebhookResponse in *.
  rewrite decode_encode;
    [apply WebhookResponse_of_val_of|apply has_ty_WebhookResponse, Hs
    |exact Hlen].
Qed.

Lemma all_some_KernelResponses (rs : list KernelResponse) :
  all_some (map KernelResponse_of_val (map val_of_KernelResponse rs))
  = Some rs.
Proof.
  induction rs as [|[k r e] rs IH]; [reflexivity|].
  cbn [map val_of_KernelResponse KernelResponse_of_val all_some
       kernelId result err].
  rewrite IH. reflexivity.
Qed.

Lemma has_ty_KernelResponses (rs : list KernelResponse) :
  forallb (fun r => is_uint256 (kernelId r)) rs = true ->
  has_ty (VArray (map val_of_KernelResponse rs)) (TArray KernelResponse_ty)
  = true.
Proof.
  intros H. cbn [has_ty]. apply andb_true_iff. split; [reflexivity|].
  induction rs as [|r rs IH]; [reflexivity|].
  cbn [forallb] in H. apply andb_true_iff in H as [Hr Hrs].
  cbn [map forallb]. rewrite (IH Hrs), andb_true_r.
  unfold val_of_KernelResponse, KernelResponse_ty. cbn [has_ty andb].
  rewrite Hr. reflexivity.
Qed.

(** [abi.decode(abi.encode(kernelResponses), (KernelResponse[]))] is
    [kernelResponses]. *)
Lemma decode_encode_KernelResponses (rs : list KernelResponse) :
  forallb (fun r => is_uint256 (kernelId r)) rs = true ->
  Z.of_nat (length (encode_KernelResponses rs)) < 2 ^ 256 ->
  decode_KernelResponses (encode_KernelResponses rs) = Some rs.
Proof.
  intros Hk Hlen. unfold decode_KernelResponses, encode_KernelResponses in *.
  rewrite decode_encode;
    [apply all_some_KernelResponses|apply has_ty_KernelResponses, Hk
    |exact Hlen].
Qed.

(** The encoded responses hold the result of each response whole. *)
Lemma result_within (k : Z) (r : list byte) (e : string) :
  (length r
   <= length (encode_KernelResponses
                [{| kernelId := k; result := r; err := e |}]))%nat.
Proof.
  unfold encode_KernelResponses, encode.
  cbn [map val_of_KernelResponse kernelId result err enc val_dynamic existsb
       orb].
  unfold assemble.
  cbn [fold_right fst snd assemble_from length Nat.add].
  unfold enc_bytes, pad_right.
  rewrite !length_app, !length_be_bytes. lia.
Qed.

(** What [generateTestPayload] encodes, decoded again. *)
Lemma generateTestPayload_decodes
    (status riskLevel reason : string) (riskScore : Z) (id : string) :
  is_uint256 riskScore = true ->
  Z.of_nat (length (generateTestPayload status riskLevel reason riskScore id))
  < 2 ^ 256 ->
  let response := testResponse status riskLevel reason riskScore id in
  decode_KernelResponses
    (generateTestPayload status riskLevel reason riskScore id)
  = Some [{| kernelId := 1657; result := encode_WebhookResponse response;
             err := EmptyString |}]
  /\ decode_WebhookResponse (encode_WebhookResponse response) = Some response.
Proof.
  intros Hs Hlen. cbv zeta. unfold generateTestPayload in *. cbv zeta in *.
  set (response := testResponse status riskLevel reason riskScore id) in *.
  split.
  - apply decode_encode_KernelResponses; [reflexivity|exact Hlen].
  - apply decode_encode_WebhookResponse; [exact Hs|].
    pose proof (result_within 1657 (encode_WebhookResponse response)
                  EmptyString).
    lia.
Qed.

Lemma analyze_generated
    (status riskLevel reason : string) (riskScore : Z) (id : string)
    (expectedApproval : bool) :
  is_uint256 riskScore = true ->
  Z.of_nat (length (generateTestPayload status riskLevel reason riskScore id))
  < 2 ^ 256 ->
  analyzeTokenTransferPayload
    (generateTestPayload status riskLevel reason riskScore id)
    expectedApproval
  = let isAllowed :=
      simulateTokenTransferVerification
        (payload (testResponse status riskLevel reason riskScore id)) in
    Checked isAllowed (Bool.eqb isAllowed expectedApproval).
Proof.
  intros Hs Hlen.
  destruct (generateTestPayload_decodes status riskLevel reason riskScore id
              Hs Hlen) as [H1 H2].
  unfold analyzeTokenTransferPayload. rewrite H1.
  cbn [analyze_loop kernelId result Z.eqb Pos.eqb].
  unfold decodeWebhookResult. rewrite H2. reflexivity.
Qed.

(** X6: what the script generates, the script decodes.  For any
    strings and any [uint256] score, the payload of
    [generateTestPayload] decodes to one response of kernel 1657 whose
    result decodes to the [WebhookResponse] with exactly these fields;
    so [analyzeTokenTransferPayload] finds the kernel, and its verdict
    is [simulateTokenTransferVerification] of these fields. *)
Theorem test_payload_decodes_to_its_fields :
  forall (status riskLevel reason : string) (riskScore : Z) (id : string)
         (expectedApproval : bool),
    is_uint256 riskScore = true ->
    Z.of_nat
      (length (generateTestPayload status riskLevel reason riskScore id))
    < 2 ^ 256 ->
    let response := testResponse status riskLevel reason riskScore id in
    decode_KernelResponses
      (generateTestPayload status riskLevel reason riskScore id)
    = Some [{| kernelId := 1657; result := encode_WebhookResponse response;
               err := EmptyString |}]
    /\ decode_WebhookResponse (encode_WebhookResponse response)
       = Some response
    /\ analyzeTokenTransferPayload
         (generateTestPayload status riskLevel reason riskScore id)
         expectedApproval
       = Checked (simulateTokenTransferVerification (payload response))
           (Bool.eqb (simulateTokenTransferVerification (payload response))
              expectedApproval)
    /\ decodeTokenTransferPayload
         (generateTestPayload status riskLevel reason riskScore id)
       = Checked (simulateTokenTransferVerification (payload response))
           (simulateTokenTransferVerification (payload response)).
Proof.
  intros status riskLevel reason riskScore id expectedApproval Hs Hlen
         response.
  destruct (generateTestPayload_decodes status riskLevel reason riskScore id
              Hs Hlen) as [H1 H2].
  split; [exact H1|]. split; [exact H2|]. split.
  - apply analyze_generated; assumption.
  - unfold decodeTokenTransferPayload.
    rewrite analyze_generated by assumption. cbv zeta. fold response.
    destruct (simulateTokenTransferVerification (payload response));
      reflexivity.
Qed.

(** X7: the contract on the script's mock payload.  With the decoders
    of the compiler, [checkTransferAllowed] finds in
    [generateMockKrnlPayload(status, ...)] the response with these
    fields, stores it, and allows the transfer exactly when the status
    has the digest of ["approved"], whatever the risk level and the
    score; the mock [kernelParams] are the encoding of the pair of
    [simulateTransferWithKRNLParams]. *)
Theorem contract_decides_the_mock_payload :
  forall (authorized : KrnlPayload -> list byte -> bool)
         (script call : Call) (status riskLevel reason : string)
         (riskScore from to amount : Z) (st : State),
    is_uint256 riskScore = true ->
    Z.of_nat
      (length (kernelResponses
                 (generateMockKrnlPayload script status riskLevel reason
                    riskScore)))
    < 2 ^ 256 ->
    let platform :=
      {| TokenContract.abi_decode_KernelResponses := decode_KernelResponses;
         TokenContract.abi_decode_WebhookResponse := decode_WebhookResponse;
         TokenContract.isAuthorized := authorized |} in
    let p :=
      generateMockKrnlPayload script status riskLevel reason riskScore in
    let response :=
      testResponse status riskLevel reason riskScore
        (generateExternalTransactionId script "mock") in
    let allowed := TokenContract.keccak_eq status "approved" in
    @decision platform p = Decided response
    /\ @TokenContract.checkTransferAllowed platform call p from to amount st
       = Return allowed (assessed call from to amount response allowed st)
    /\ kernelParams p
       = encodeTransferWithKRNLParams (fst simulateTransferWithKRNLParams)
           (snd simulateTransferWithKRNLParams)
    /\ auth p = list_byte_of_string "mock_auth_data".
Proof.
  intros authorized script call status riskLevel reason riskScore from to
         amount st Hs Hlen platform p response allowed.
  cbn [generateMockKrnlPayload kernelResponses] in Hlen.
  destruct (generateTestPayload_decodes status riskLevel reason riskScore
              (generateExternalTransactionId script "mock") Hs Hlen)
    as [H1 H2].
  fold response in H1, H2.
  assert (Hd : @decision platform p = Decided response).
  { unfold decision, p.
    cbn [generateMockKrnlPayload kernelResponses
         TokenContract.abi_decode_KernelResponses
         TokenContract.abi_decode_WebhookResponse platform].
    fold response. rewrite H1.
    cbn [List.find is_1657 kernelId result Z.eqb Pos.eqb]. rewrite H2.
    reflexivity. }
  split; [exact Hd|]. split.
  - rewrite checkTransferAllowed_decision, Hd. reflexivity.
  - split; reflexivity.
Qed.

Lemma length_list_byte_of_string (s : string) :
  length (list_byte_of_string s) = String.length s.
Proof.
  induction s as [|c s IH]; [reflexivity|].
  unfold list_byte_of_string in *. cbn [list_ascii_of_string map length
                                         String.length].
  rewrite IH. reflexivity.
Qed.

Lemma generateExternalTransactionId_bytes (ctx : Call) (testName : string) :
  list_byte_of_string (generateExternalTransactionId ctx testName)
  = list_byte_of_string "tx-" ++ be_bytes 32 (block_timestamp ctx)
    ++ list_byte_of_string "-" ++ list_byte_of_string testName.
Proof.
  unfold generateExternalTransactionId, packed_uint256.
  apply list_byte_of_string_of_list_byte.
Qed.

(** X8: the transaction id of the script.  [generateExternalTransactionId]
    packs the block timestamp as the 32 bytes of a [uint256], not as a
    decimal numeral: the id is ["tx-"], these 32 bytes, ["-"] and the
    test name, [36 + length] bytes in all, from which the timestamp
    reads back; two ids are the same only for the same timestamp and
    the same name. *)
Theorem script_transaction_id_packs_the_timestamp :
  forall (ctx : Call) (testName : string),
    is_uint256 (block_timestamp ctx) = true ->
    let id := generateExternalTransactionId ctx testName in
    String.length id = (36 + String.length testName)%nat
    /\ list_byte_of_string id
       = list_byte_of_string "tx-" ++ be_bytes 32 (block_timestamp ctx)
         ++ list_byte_of_string "-" ++ list_byte_of_string testName
    /\ be_value (take 32 (drop 3 (list_byte_of_string id)))
       = block_timestamp ctx
    /\ (forall ctx' testName',
          is_uint256 (block_timestamp ctx') = true ->
          generateExternalTransactionId ctx' testName' = id ->
          block_timestamp ctx' = block_timestamp ctx /\ testName' = testName).
Proof.
  intros ctx testName Hts id.
  pose proof (generateExternalTransactionId_bytes ctx testName) as Hb.
  fold id in Hb.
  split; [|split; [exact Hb|split]].
  - rewrite <- length_list_byte_of_string, Hb, !length_app, length_be_bytes,
      !length_list_byte_of_string.
    reflexivity.
  - rewrite Hb. change (list_byte_of_string "tx-") with ["t"; "x"; "-"]%byte.
    cbn [app drop]. rewrite drop_0.
    rewrite take_app_length' by (rewrite length_be_bytes; reflexivity).
    apply be_value_be_bytes_32. exact Hts.
  - intros ctx' testName' Hts' E.
    apply (f_equal list_byte_of_string) in E.
    rewrite Hb, generateExternalTransactionId_bytes in E.
    apply app_inv_head in E.
    apply app_inj_1 in E as [E1 E2];
      [|rewrite !length_be_bytes; reflexivity].
    split.
    + apply (f_equal be_value) in E1.
      rewrite !be_value_be_bytes_32 in E1 by assumption. exact E1.
    + apply app_inv_head in E2.
      apply (f_equal string_of_list_byte) in E2.
      rewrite !string_of_list_byte_of_string in E2. exact E2.
Qed.

(** X9: the five cases of [runTestCases] pass at every block timestamp.
    Each payload is encoded with the id that
    [generateExternalTransactionId] makes of the timestamp and the name
    of the case, decoded again, and verified: the two approved cases
    come out allowed and the rejected, the one under review and the
    pending one denied, each as the case expects. *)
Theorem script_run_passes_at_every_timestamp :
  forall ctx : Call,
    runTestCases ctx
    = [Checked true true; Checked true true; Checked false true;
       Checked false true; Checked false true].
Proof.
  intros ctx. unfold runTestCases, testCases.
  cbn [map name tc_status tc_riskLevel tc_reason tc_riskScore
       expectedApproval].
  rewrite !analyze_generated;
    lazymatch goal with
    | |- _ < _ => apply Z.ltb_lt; vm_compute; reflexivity
    | |- is_uint256 _ = _ => reflexivity
    | |- _ => vm_compute; reflexivity
    end.
Qed.

End ScriptFacts.

Section ScriptScenarios.
Import Word Sol Abi SolAbi TestTokenTransfer Script Terms Scenario Samples.

Lemma test_payload_decodes_to_its_fields_witness :
  analyzeTokenTransferPayload
    (generateTestPayload "approved" "High" "Approved against the level" 85
       "tx-0-test") true
  = Checked false false
  /\ decodeTokenTransferPayload
       (generateTestPayload "approved" "Low" "Low risk transfer" 15
          "tx-0-test")
     = Checked true true.
Proof.
  destruct (test_payload_decodes_to_its_fields "approved" "High"
              "Approved against the level" 85 "tx-0-test" true)
    as (_ & _ & H & _);
    [reflexivity|apply Z.ltb_lt; vm_compute; reflexivity|].
  destruct (test_payload_decodes_to_its_fields "approved" "Low"
              "Low risk transfer" 15 "tx-0-test" true)
    as (_ & _ & _ & H');
    [reflexivity|apply Z.ltb_lt; vm_compute; reflexivity|].
  assert (E : simulateTokenTransferVerification
                (payload (testResponse "approved" "High"
                            "Approved against the level" 85 "tx-0-test"))
              = false) by (vm_compute; reflexivity).
  assert (E' : simulateTokenTransferVerification
                 (payload (testResponse "approved" "Low"
                             "Low risk transfer" 15 "tx-0-test"))
               = true) by (vm_compute; reflexivity).
  rewrite E in H. rewrite E' in H'. split; [exact H|exact H'].
Defined.

Lemma contract_decides_the_mock_payload_witness :
  @TokenContract.checkTransferAllowed
    {| TokenContract.abi_decode_KernelResponses := decode_KernelResponses;
       TokenContract.abi_decode_WebhookResponse := decode_WebhookResponse;
       TokenContract.isAuthorized := fun _ _ => true |}
    (call alice)
    (generateMockKrnlPayload (call alice) "approved" "High"
       "Approved against the level" 85)
    alice bob half genesis
  = Return true
      (assessed (call alice) alice bob half
         (testResponse "approved" "High" "Approved against the level" 85
            (generateExternalTransactionId (call alice) "mock"))
         true genesis).
Proof.
  destruct (contract_decides_the_mock_payload (fun _ _ => true) (call alice)
              (call alice) "approved" "High" "Approved against the level" 85
              alice bob half genesis)
    as (_ & H & _);
    [reflexivity|apply Z.ltb_lt; vm_compute; reflexivity|].
  assert (E : TokenContract.keccak_eq "approved" "approved" = true)
    by (vm_compute; reflexivity).
  rewrite E in H. exact H.
Defined.

Lemma script_transaction_id_packs_the_timestamp_witness :
  String.length (generateExternalTransactionId (call alice) "mock") = 40%nat
  /\ forall testName',
       generateExternalTransactionId (call alice) testName'
       = generateExternalTransactionId (call alice) "mock" ->
       testName' = "mock".
Proof.
  destruct (script_transaction_id_packs_the_timestamp (call alice) "mock")
    as (Hl & _ & _ & Hinj); [reflexivity|].
  split; [exact Hl|].
  intros testName' E.
  destruct (Hinj (call alice) testName') as [_ Hn];
    [reflexivity|exact E|exact Hn].
Defined.

End ScriptScenarios.

(** ** From the attestation to the transaction *)

Section WalletFacts.
Import Word JS Ethers Builder Terms Wallet.
Context {parser : AddressParser} (config : Config).

Lemma formatPayload_defined (executeResult : value) :
  executeResult <> JUndefined -> executeResult <> JNull ->
  formatPayload executeResult
  = Some (JObject [
      ("auth", member executeResult "auth");
      ("kernelResponses", member executeResult "kernel_responses");
      ("kernelParams", member executeResult "kernel_params")]).
Proof. intros H1 H2. destruct executeResult; try reflexivity; contradiction. Qed.

Lemma length_encode_address_uint256 (a w : Z) :
  length (Abi.encode [Abi.VAddress a; Abi.VUint w]) = 64%nat.
Proof.
  unfold Abi.encode. cbn [Abi.enc map Abi.val_dynamic].
  unfold Abi.assemble. cbn [fold_right fst snd Abi.assemble_from].
  rewrite !app_nil_r, length_app, !length_be_bytes. reflexivity.
Qed.

Lemma length_encode_address_address_uint256 (f a w : Z) :
  length (Abi.encode [Abi.VAddress f; Abi.VAddress a; Abi.VUint w]) = 96%nat.
Proof.
  unfold Abi.encode. cbn [Abi.enc map Abi.val_dynamic].
  unfold Abi.assemble. cbn [fold_right fst snd Abi.assemble_from].
  rewrite !app_nil_r, !length_app, !length_be_bytes. reflexivity.
Qed.

Lemma _transfer_never_unauthorized from to value st :
  ERC20._transfer from to value st <> Sol.Revert Sol.UnauthorizedTransaction.
Proof.
  unfold ERC20._transfer.
  destruct (Z.eqb_spec from 0) as [Hf|Hf]; [discriminate|].
  destruct (Z.eqb_spec to 0) as [Ht|Ht]; [discriminate|].
  fold (ERC20._transfer from to value).
  pose proof (_transfer_moves from to value st Hf Ht) as H.
  unfold ERC20._transfer in H.
  apply Z.eqb_neq in Hf. apply Z.eqb_neq in Ht. rewrite Hf, Ht in H.
  rewrite H. destruct (ERC20.balanceOf st from <? value); discriminate.
Qed.

(** The only revert of [transferWithKRNL] with [UnauthorizedTransaction]
    is that of [onlyAuthorized]. *)
Lemma transferWithKRNL_unauthorized {platform : TokenContract.Platform}
    ctx to amount p st :
  TokenContract.transferWithKRNL ctx to amount p st
  = Sol.Revert Sol.UnauthorizedTransaction
  <-> TokenContract.isAuthorized p
        (Abi.encode [Abi.VAddress to; Abi.VUint amount]) = false.
Proof.
  rewrite transferWithKRNL_cases.
  destruct (TokenContract.isAuthorized p _); cbn [negb].
  - split; [|discriminate]. intros H. exfalso.
    destruct (to =? 0); [discriminate H|].
    destruct (decision p) as [| |response]; try discriminate H.
    destruct (TokenContract.keccak_eq _ _); [|discriminate H].
    destruct (ERC20._transfer _ _ _ _) eqn:E; [discriminate H|].
    injection H as ->. exact (_transfer_never_unauthorized _ _ _ _ E).
  - split; reflexivity.
Qed.

Lemma _spendAllowance_never_unauthorized owner spender value st :
  ERC20._spendAllowance owner spender value st
  <> Sol.Revert Sol.UnauthorizedTransaction.
Proof.
  unfold ERC20._spendAllowance, Sol.bind, Sol.get.
  destruct (_ <? uint256_max); [|discriminate].
  destruct (_ <? value); [discriminate|].
  unfold ERC20._approve.
  destruct (owner =? 0); [discriminate|].
  destruct (spender =? 0); discriminate.
Qed.

Lemma transferFromWithKRNL_unauthorized {platform : TokenContract.Platform}
    ctx from to amount p st :
  TokenContract.transferFromWithKRNL ctx from to amount p st
  = Sol.Revert Sol.UnauthorizedTransaction
  <-> TokenContract.isAuthorized p
        (Abi.encode [Abi.VAddress from; Abi.VAddress to; Abi.VUint amount])
      = false.
Proof.
  rewrite transferFromWithKRNL_cases.
  destruct (TokenContract.isAuthorized p _); cbn [negb].
  - split; [|discriminate]. intros H. exfalso.
    destruct (from =? 0); [discriminate H|].
    destruct (to =? 0); [discriminate H|].
    destruct (decision p) as [| |response]; try discriminate H.
    destruct (TokenContract.keccak_eq _ _); [|discriminate H].
    destruct (ERC20._spendAllowance _ _ _ _) as [u st1|r] eqn:E1.
    + destruct (ERC20._transfer _ _ _ _) eqn:E; [discriminate H|].
      injection H as ->. exact (_transfer_never_unauthorized _ _ _ _ E).
    + injection H as ->.
      exact (_spendAllowance_never_unauthorized _ _ _ _ E1).
  - split; reflexivity.
Qed.

(** X10: what [processTokenTransfer] sends is what [executeTokenTransfer]
    had attested.  Given the recipient and the amount for which
    [executeTokenTransfer] submitted its request, a signer and the
    result of the request, [processTokenTransfer] calls
    [transferWithKRNL] with the recipient and [toWei(amount)], whose
    encoding, the one the contract hands to [onlyAuthorized], is byte
    for byte the blob of the request; the payload is the result with
    its three fields renamed. *)
Theorem attested_parameters_are_the_ones_sent :
  forall (amb : Ambient) (sender recipient : value) (amount : number)
         (entryId accessToken : string) (req : value) (blob : list byte)
         (executeResult signer : value),
    executeTokenTransfer config amb sender recipient amount
    = ExecuteKernels entryId accessToken req blob ->
    truthy signer = true ->
    executeResult <> JUndefined -> executeResult <> JNull ->
    exists a w krnlPayload,
      processTokenTransfer executeResult recipient amount signer
      = Sends (SendTransferWithKRNL recipient w krnlPayload)
      /\ encode_address recipient = Some a
      /\ blob = Abi.encode [Abi.VAddress a; Abi.VUint w]
      /\ member krnlPayload "auth" = member executeResult "auth"
      /\ member krnlPayload "kernelResponses"
         = member executeResult "kernel_responses"
      /\ member krnlPayload "kernelParams"
         = member executeResult "kernel_params"
      /\ (forall (platform : TokenContract.Platform) p ctx st,
            TokenContract.transferWithKRNL ctx a w p st
            = Sol.Revert Sol.UnauthorizedTransaction
            <-> TokenContract.isAuthorized p blob = false).
Proof.
  intros amb sender recipient amount entryId accessToken req blob
         executeResult signer H Hsigner Hu Hn.
  apply executeTokenTransfer_submits in H
    as (_ & Hr & _ & _ & _ & _ & _ & a & w & Ha & Hw & _ & ->).
  exists a, w. eexists. split.
  { unfold processTokenTransfer. rewrite Hsigner, Hr. cbn [negb].
    rewrite (formatPayload_defined _ Hu Hn), Hw. reflexivity. }
  split; [exact Ha|]. split; [reflexivity|].
  split; [reflexivity|]. split; [reflexivity|]. split; [reflexivity|].
  intros platform p ctx st. apply transferWithKRNL_unauthorized.
Qed.

(** X11: the attestation of [executeTokenTransfer] never fits
    [transferFromWithKRNL].  [processTokenTransferFrom], which takes
    "the result from executeTokenTransfer", calls
    [transferFromWithKRNL(from, recipient, toWei(amount))]; the contract
    hands [onlyAuthorized] the encoding of these three, 96 bytes, while
    the blob that [executeTokenTransfer] had attested is the encoding of
    a recipient and an amount, 64 bytes: the two are never equal. *)
Theorem attested_parameters_never_fit_transferFrom :
  forall (amb : Ambient) (sender recipient : value) (amount : number)
         (entryId accessToken : string) (req : value) (blob : list byte),
    executeTokenTransfer config amb sender recipient amount
    = ExecuteKernels entryId accessToken req blob ->
    length blob = 64%nat
    /\ (forall executeResult from signer call,
          processTokenTransferFrom executeResult from recipient amount signer
          = Sends call ->
          exists w krnlPayload,
            toWei (JNumber amount) = Some w
            /\ call = SendTransferFromWithKRNL from recipient w krnlPayload)
    /\ (forall (platform : TokenContract.Platform) f a w p ctx st,
          (TokenContract.transferFromWithKRNL ctx f a w p st
           = Sol.Revert Sol.UnauthorizedTransaction
           <-> TokenContract.isAuthorized p
                 (Abi.encode [Abi.VAddress f; Abi.VAddress a; Abi.VUint w])
               = false)
          /\ length (Abi.encode [Abi.VAddress f; Abi.VAddress a; Abi.VUint w])
             = 96%nat
          /\ Abi.encode [Abi.VAddress f; Abi.VAddress a; Abi.VUint w]
             <> blob).
Proof.
  intros amb sender recipient amount entryId accessToken req blob H.
  apply executeTokenTransfer_submits in H
    as (_ & Hr & _ & _ & _ & _ & _ & a & w & Ha & Hw & _ & ->).
  split; [apply length_encode_address_uint256|]. split.
  - intros executeResult from signer call.
    unfold processTokenTransferFrom.
    destruct (truthy signer); cbn [negb]; [|discriminate].
    destruct (truthy from); cbn [negb orb]; [|discriminate].
    rewrite Hr. cbn [negb].
    destruct (formatPayload executeResult) as [krnlPayload|]; [|discriminate].
    rewrite Hw. intros E. injection E as <-.
    exists w, krnlPayload. split; reflexivity.
  - intros platform f a' w' p ctx st.
    split; [apply transferFromWithKRNL_unauthorized|].
    split; [apply length_encode_address_address_uint256|].
    intros E. apply (f_equal (@length byte)) in E.
    rewrite length_encode_address_address_uint256,
      length_encode_address_uint256 in E.
    discriminate E.
Qed.

Lemma member_set_prop (props : list (string * value)) (k k' : string)
    (v : value) :
  member (JObject (set_prop props k v)) k'
  = if String.eqb k k' then v else member (JObject props) k'.
Proof.
  cbn [member]. rewrite lookup_prop_set_prop.
  destruct (String.eqb k k'); reflexivity.
Qed.

Lemma truthy_member_object (v : value) (k : string) :
  truthy (member v k) = true -> exists props, v = JObject props.
Proof. destruct v; try discriminate. eauto. Qed.

Lemma truthy_or_else (a b : value) :
  truthy b = true -> truthy (or_else a b) = true.
Proof. intros H. unfold or_else. destruct (truthy a) eqn:E; assumption. Qed.

(** The runs of [executeKrnl] that reach the network call, with what
    they leave in [transactionData]. *)
Lemma executeKrnl_leaves amb address transactionData customKernelId
      entryId accessToken req blob td' :
  executeKrnl config amb address transactionData customKernelId
  = (ExecuteKernels entryId accessToken req blob, td') ->
  (forall items, member transactionData "transactionInfo" <> JArray items) ->
  truthy address = true
  /\ truthy (member transactionData "externalTransactionId") = true
  /\ (exists w,
        toWei (or_else (member transactionData "amount")
                       (JNumber (Finite 1 1))) = Some w
        /\ encode_string_uint256_address
             (member transactionData "externalTransactionId") w address
           = Some blob)
  /\ truthy td' = true
  /\ member td' "externalTransactionId"
     = member transactionData "externalTransactionId"
  /\ (exists info,
        member td' "transactionInfo" = JObject info
        /\ lookup_prop info "amount"
           = Some (or_else (member transactionData "amount")
                           (JNumber (Finite 1 1))))
  /\ member td' "address" = address.
Proof.
  intros H Harr. unfold executeKrnl in H.
  destruct (truthy address) eqn:Haddr; cbn [negb] in H; [|discriminate H].
  destruct (truthy transactionData); cbn [negb orb] in H; [|discriminate H].
  destruct (truthy (member transactionData "externalTransactionId")) eqn:Hid;
    cbn [negb] in H; [|discriminate H].
  destruct (truthy_member_object _ _ Hid) as [props ->].
  assert (Hor : or_else (member (JObject props) "externalTransactionId")
                        (JString (generateTransactionId amb))
                = member (JObject props) "externalTransactionId")
    by (unfold or_else; rewrite Hid; reflexivity).
  rewrite Hor in H. clear Hor.
  set (id := member (JObject props) "externalTransactionId") in *.
  set (amount := or_else (member (JObject props) "amount")
                         (JNumber (Finite 1 1))) in *.
  cbn [assign] in H.
  rewrite member_set_prop in H.
  change (String.eqb "externalTransactionId" "transactionInfo")
    with false in H.
  cbv iota in H.
  assert (Hinfo : exists props2 info,
             (if negb (truthy (member (JObject props) "transactionInfo"))
              then Some (JObject (set_prop
                                    (set_prop props "externalTransactionId" id)
                                    "transactionInfo" (JObject [])))
              else Some (JObject (set_prop props "externalTransactionId" id)))
             = Some (JObject props2)
             /\ lookup_prop props2 "externalTransactionId" = Some id
             /\ (assign (member (JObject props2) "transactionInfo") "amount"
                        amount = None
                 \/ assign (member (JObject props2) "transactionInfo") "amount"
                           amount = Some (JObject info)
                    /\ lookup_prop info "amount" = Some amount)).
  { assert (Hl : lookup_prop props "externalTransactionId" = Some id).
    { unfold id in *. cbn [member] in *.
      destruct (lookup_prop props "externalTransactionId");
        [reflexivity|discriminate Hid]. }
    destruct (member (JObject props) "transactionInfo") as
      [| |b|n|s|items|q] eqn:Em.
    - eexists _, _. cbn [truthy negb assign]. split; [reflexivity|]. split.
      { rewrite !lookup_prop_set_prop. cbn [String.eqb Ascii.eqb Bool.eqb].
        reflexivity. }
      rewrite member_set_prop. cbn [String.eqb Ascii.eqb Bool.eqb assign].
      right. split; reflexivity.
    - eexists _, _. cbn [truthy negb assign]. split; [reflexivity|]. split.
      { rewrite !lookup_prop_set_prop. cbn [String.eqb Ascii.eqb Bool.eqb].
        reflexivity. }
      rewrite member_set_prop. cbn [String.eqb Ascii.eqb Bool.eqb assign].
      right. split; reflexivity.
    - destruct b.
      + exists (set_prop props "externalTransactionId" id), [].
        cbn [truthy negb]. split; [reflexivity|]. split.
        { rewrite lookup_prop_set_prop. reflexivity. }
        rewrite member_set_prop.
        change (String.eqb "externalTransactionId" "transactionInfo")
          with false. cbv iota. rewrite Em. left. reflexivity.
      + eexists _, _. cbn [truthy negb assign]. split; [reflexivity|]. split.
        { rewrite !lookup_prop_set_prop.
          cbn [String.eqb Ascii.eqb Bool.eqb]. reflexivity. }
        rewrite member_set_prop. cbn [String.eqb Ascii.eqb Bool.eqb assign].
        right. split; reflexivity.
    - destruct (truthy (JNumber n)) eqn:Ht.
      + exists (set_prop props "externalTransactionId" id), [].
        cbn [negb]. split; [reflexivity|]. split.
        { rewrite lookup_prop_set_prop. reflexivity. }
        rewrite member_set_prop.
        change (String.eqb "externalTransactionId" "transactionInfo")
          with false. cbv iota. rewrite Em. left. reflexivity.
      + eexists _, _. cbn [negb assign]. split; [reflexivity|]. split.
        { rewrite !lookup_prop_set_prop.
          cbn [String.eqb Ascii.eqb Bool.eqb]. reflexivity. }
        rewrite member_set_prop. cbn [String.eqb Ascii.eqb Bool.eqb assign].
        right. split; reflexivity.
    - destruct (truthy (JString s)) eqn:Ht.
      + exists (set_prop props "externalTransactionId" id), [].
        cbn [negb]. split; [reflexivity|]. split.
        { rewrite lookup_prop_set_prop. reflexivity. }
        rewrite member_set_prop.
        change (String.eqb "externalTransactionId" "transactionInfo")
          with false. cbv iota. rewrite Em. left. reflexivity.
      + eexists _, _. cbn [negb assign]. split; [reflexivity|]. split.
        { rewrite !lookup_prop_set_prop.
          cbn [String.eqb Ascii.eqb Bool.eqb]. reflexivity. }
        rewrite member_set_prop. cbn [String.eqb Ascii.eqb Bool.eqb assign].
        right. split; reflexivity.
    - exfalso. exact (Harr items eq_refl).
    - exists (set_prop props "externalTransactionId" id),
             (set_prop q "amount" amount).
      cbn [truthy negb]. split; [reflexivity|]. split.
      { rewrite lookup_prop_set_prop. reflexivity. }
      rewrite member_set_prop.
      change (String.eqb "externalTransactionId" "transactionInfo")
        with false. cbv iota. rewrite Em. cbn [assign].
      right. split; [reflexivity|].
      rewrite lookup_prop_set_prop. reflexivity. }
  destruct Hinfo as (props2 & info & E2 & Hid2 & Hassign).
  rewrite E2 in H.
  destruct Hassign as [Hnone|[Hsome Hamount]].
  { rewrite Hnone in H. discriminate H. }
  rewrite Hsome in H. cbn [assign] in H.
  destruct (toWei amount) as [w|] eqn:Hw; [|discriminate H].
  destruct (encode_string_uint256_address id w address) as [params|] eqn:He;
    [|discriminate H].
  injection H as _ _ _ <- <-.
  split; [reflexivity|]. split; [reflexivity|].
  split; [exists w; split; [reflexivity|exact He]|].
  split; [reflexivity|].
  split.
  { rewrite !member_set_prop. cbn [String.eqb Ascii.eqb Bool.eqb].
    cbn [member]. rewrite Hid2. reflexivity. }
  split.
  { exists info. split; [|exact Hamount].
    rewrite !member_set_prop. reflexivity. }
  rewrite member_set_prop. reflexivity.
Qed.

(** X12: what [processMonitoredTransaction] reads back is what
    [executeKrnl] had attested.  [executeKrnl] writes the transaction
    id, the amount and the address into the [transactionData] it was
    given; called afterwards with that object,
    [processMonitoredTransaction] sends [unstake] with exactly the id,
    the amount in wei and the address whose encoding was the blob of
    the request. *)
Theorem monitored_transaction_reads_back_what_was_attested :
  forall (amb : Ambient) (address transactionData : value)
         (customKernelId : option string)
         (entryId accessToken : string) (req : value) (blob : list byte)
         (td' executeResult signer : value) (signerAddress : option value),
    executeKrnl config amb address transactionData customKernelId
    = (ExecuteKernels entryId accessToken req blob, td') ->
    (forall items, member transactionData "transactionInfo" <> JArray items) ->
    truthy signer = true ->
    executeResult <> JUndefined -> executeResult <> JNull ->
    exists w krnlPayload,
      processMonitoredTransaction signerAddress executeResult td' signer
      = Sends (SendUnstake krnlPayload
                 (member transactionData "externalTransactionId") w address)
      /\ encode_string_uint256_address
           (member transactionData "externalTransactionId") w address
         = Some blob
      /\ toWei (or_else (member transactionData "amount")
                        (JNumber (Finite 1 1))) = Some w.
Proof.
  intros amb address transactionData customKernelId entryId accessToken req
         blob td' executeResult signer signerAddress H Harr Hsigner Hu Hn.
  apply executeKrnl_leaves in H; [|exact Harr].
  destruct H as (Haddr & Hid & (w & Hw & He) & Htd & Hid' & (info & Hi & Ha)
                 & Haddr').
  exists w. eexists. split; [|split; [exact He|exact Hw]].
  unfold processMonitoredTransaction.
  rewrite Hsigner, Htd, Hid', Hid. cbn [negb orb].
  rewrite (formatPayload_defined _ Hu Hn), Hi.
  cbn [member]. rewrite Ha.
  set (amount := or_else (member transactionData "amount")
                         (JNumber (Finite 1 1))) in *.
  assert (Hamt : truthy amount = true) by (apply truthy_or_else; reflexivity).
  rewrite Haddr', Haddr.
  destruct amount; try discriminate Hamt; rewrite Hw; reflexivity.
Qed.

(** X13: without an amount, [executeKrnl] takes a tenth.  When
    [transactionData.amount] is missing, zero or otherwise falsy, the
    body of the request carries the amount 0.1 and the encoded
    parameters carry [10^17] wei.  [transactionData.transactionInfo]
    is left with the amount 0.1, be it the object that was there, whose
    amount is overwritten and whose other fields stay, or a new object
    where there was none; the id and the address are written beside it.
    Where [transactionInfo] is a primitive that is not falsy, the
    assignment throws and no request is made.  (An array is left out,
    as in [assign].)  The kernel is the configured one unless a
    non-empty [customKernelId] is given. *)
Theorem executeKrnl_defaults_to_a_tenth :
  forall (amb : Ambient) (address : value) (props : list (string * value))
         (id : string) (a : Z) (customKernelId : option string),
    truthy address = true ->
    encode_address address = Some a ->
    lookup_prop props "externalTransactionId" = Some (JString id) ->
    id <> EmptyString ->
    truthy (member (JObject props) "amount") = false ->
    (forall items,
        member (JObject props) "transactionInfo" <> JArray items) ->
    let info := member (JObject props) "transactionInfo" in
    ((truthy info = false \/ exists fields, info = JObject fields) ->
     exists td',
       executeKrnl config amb address (JObject props) customKernelId
       = (ExecuteKernels (ENTRY_ID config) (ACCESS_TOKEN config)
            (kernelRequest address (chosenKernelId config customKernelId)
               (requestBody amb (JString id) (JNumber (Finite 1 1))))
            (Abi.encode
               [Abi.VString id; Abi.VUint (10 ^ 17); Abi.VAddress a]),
          td')
       /\ member (member td' "transactionInfo") "amount"
          = JNumber (Finite 1 1)
       /\ (forall k, k <> "amount" ->
                     member (member td' "transactionInfo") k = member info k)
       /\ member td' "externalTransactionId" = JString id
       /\ member td' "address" = address)
    /\ (truthy info = true -> (forall fields, info <> JObject fields) ->
        fst (executeKrnl config amb address (JObject props) customKernelId)
        = Throw TypeError)
    /\ chosenKernelId config None = KERNEL_ID config
    /\ chosenKernelId config (Some EmptyString) = KERNEL_ID config.
Proof.
  intros amb address props id a customKernelId Haddr Ha Hid Hne Hamt Harr
         info.
  assert (Hidm : member (JObject props) "externalTransactionId" = JString id)
    by (cbn [member]; rewrite Hid; reflexivity).
  assert (Hidt : truthy (JString id) = true).
  { cbn [truthy]. apply String.eqb_neq in Hne. rewrite Hne. reflexivity. }
  assert (Hw : toWei (JNumber (Finite 1 1)) = Some (10 ^ 17))
    by (rewrite toWei_number; reflexivity).
  assert (Hu : check_uint256 (10 ^ 17) = Some (10 ^ 17)) by reflexivity.
  assert (Hrun :
    executeKrnl config amb address (JObject props) customKernelId
    = match (if negb (truthy info)
             then Some (JObject (set_prop
                                   (set_prop props "externalTransactionId"
                                      (JString id))
                                   "transactionInfo" (JObject [])))
             else Some (JObject (set_prop props "externalTransactionId"
                                   (JString id)))) with
      | None => (Throw TypeError,
                 JObject (set_prop props "externalTransactionId" (JString id)))
      | Some td2 =>
          match assign (member td2 "transactionInfo") "amount"
                  (JNumber (Finite 1 1)) with
          | None => (Throw TypeError, td2)
          | Some info' =>
              match assign td2 "transactionInfo" info' with
              | None => (Throw TypeError, td2)
              | Some td3 =>
                  match assign td3 "address" address with
                  | None => (Throw TypeError, td3)
                  | Some td4 =>
                      (ExecuteKernels (ENTRY_ID config) (ACCESS_TOKEN config)
                         (kernelRequest address
                            (chosenKernelId config customKernelId)
                            (requestBody amb (JString id)
                               (JNumber (Finite 1 1))))
                         (Abi.encode
                            [Abi.VString id; Abi.VUint (10 ^ 17);
                             Abi.VAddress a]), td4)
                  end
              end
          end
      end).
  { unfold executeKrnl. rewrite Haddr. cbn [negb truthy orb].
    rewrite Hidm, Hidt. cbn [negb].
    unfold or_else. rewrite Hidt, Hamt.
    cbn [assign]. rewrite member_set_prop.
    change (String.eqb "externalTransactionId" "transactionInfo")
      with false. cbv iota. fold info.
    rewrite Hw. unfold encode_string_uint256_address. rewrite Hu, Ha.
    reflexivity. }
  split; [|split; [|split; reflexivity]].
  - intros [Hf|[fields Hq]].
    + rewrite Hrun, Hf. cbn [negb assign].
      rewrite member_set_prop. cbn [String.eqb Ascii.eqb Bool.eqb assign].
      eexists. split; [reflexivity|].
      rewrite !member_set_prop. cbn [String.eqb Ascii.eqb Bool.eqb].
      split; [reflexivity|]. split; [|split; reflexivity].
      intros k Hk. cbn [set_prop]. cbn [member lookup_prop].
      apply String.eqb_neq in Hk. rewrite String.eqb_sym, Hk.
      unfold info in *.
      destruct (member (JObject props) "transactionInfo");
        try reflexivity; discriminate Hf.
    + rewrite Hrun, Hq. cbn [truthy negb].
      rewrite member_set_prop.
      change (String.eqb "externalTransactionId" "transactionInfo")
        with false. cbv iota. fold info. rewrite Hq. cbn [assign].
      eexists. split; [reflexivity|].
      rewrite !member_set_prop. cbn [String.eqb Ascii.eqb Bool.eqb].
      split; [rewrite member_set_prop; reflexivity|]. split.
      * intros k Hk. rewrite member_set_prop.
        apply String.eqb_neq in Hk. rewrite String.eqb_sym, Hk.
        reflexivity.
      * split; reflexivity.
  - intros Ht Hno. rewrite Hrun, Ht. cbn [negb].
    rewrite member_set_prop.
    change (String.eqb "externalTransactionId" "transactionInfo")
      with false. cbv iota. fold info.
    unfold info in *. clear info Hrun.
    destruct (member (JObject props) "transactionInfo")
      as [| |b|n|s|items|fields]; try discriminate Ht; try reflexivity.
    + exfalso. exact (Harr items eq_refl).
    + exfalso. exact (Hno fields eq_refl).
Qed.

End WalletFacts.

(** ** The wallet side on the sample data *)

Section WalletScenarios.
Import Word JS Ethers Builder Terms Wallet Scenario Samples.

Lemma aliceHex_is_alice :
  @encode_address hexParser (JString aliceHex) = Some alice.
Proof. vm_compute. reflexivity. Qed.

Lemma attested_parameters_are_the_ones_sent_witness :
  exists req blob krnlPayload,
    @executeTokenTransfer hexParser config ambient
      (JString aliceHex) (JString bobHex) (Finite 5 1)
    = ExecuteKernels "entry-1" "token-1" req blob
    /\ processTokenTransfer executeResult (JString bobHex) (Finite 5 1) signer
       = Sends (SendTransferWithKRNL (JString bobHex) half krnlPayload)
    /\ blob = Abi.encode [Abi.VAddress bob; Abi.VUint half]
    /\ member krnlPayload "kernelResponses" = JString "0xb2".
Proof.
  destruct (@valid_transfer_is_submitted hexParser config ambient
              (JString aliceHex) (JString bobHex) bob 5 1
              eq_refl eq_refl bobHex_is_bob
              ltac:(lia) ltac:(lia) ltac:(cbn; lia) ltac:(cbn; lia))
    as [req Hreq].
  destruct (@attested_parameters_are_the_ones_sent hexParser config ambient
              _ _ _ _ _ _ _ executeResult signer Hreq eq_refl
              ltac:(discriminate) ltac:(discriminate))
    as (a & w & krnlPayload & Hp & Ha & Hb & _ & Hk & _).
  rewrite bobHex_is_bob in Ha. injection Ha as <-.
  assert (Hw : w = half).
  { pose proof Hp as Hq.
    unfold processTokenTransfer in Hq. cbn [truthy signer negb] in Hq.
    assert (E : toWei (JNumber (Finite 5 1)) = Some half)
      by (rewrite toWei_number; reflexivity).
    change (truthy (JString bobHex)) with true in Hq. cbn [negb] in Hq.
    change (formatPayload executeResult)
      with (Some (JObject [
              ("auth", member executeResult "auth");
              ("kernelResponses", member executeResult "kernel_responses");
              ("kernelParams", member executeResult "kernel_params")])) in Hq.
    cbv iota in Hq. rewrite E in Hq. injection Hq as Hw _.
    symmetry. exact Hw. }
  subst w.
  exists req. eexists. exists krnlPayload.
  split; [exact Hreq|]. split; [exact Hp|]. split; [reflexivity|].
  rewrite Hk. reflexivity.
Defined.

Lemma attested_parameters_never_fit_transferFrom_witness :
  exists req blob,
    @executeTokenTransfer hexParser config ambient
      (JString aliceHex) (JString bobHex) (Finite 5 1)
    = ExecuteKernels "entry-1" "token-1" req blob
    /\ length blob = 64%nat
    /\ Abi.encode [Abi.VAddress alice; Abi.VAddress bob; Abi.VUint half]
       <> blob.
Proof.
  destruct (@valid_transfer_is_submitted hexParser config ambient
              (JString aliceHex) (JString bobHex) bob 5 1
              eq_refl eq_refl bobHex_is_bob
              ltac:(lia) ltac:(lia) ltac:(cbn; lia) ltac:(cbn; lia))
    as [req Hreq].
  destruct (@attested_parameters_never_fit_transferFrom hexParser config
              ambient _ _ _ _ _ _ _ Hreq) as (Hlen & _ & H).
  exists req. eexists. split; [exact Hreq|]. split; [exact Hlen|].
  exact (proj2 (proj2 (H evm alice bob half
                         (bundleFrom alice bob half approvedLow)
                         (call bob) genesis))).
Defined.

Lemma monitored_transaction_reads_back_what_was_attested_witness :
  exists req blob td' krnlPayload,
    @executeKrnl hexParser config ambient (JString aliceHex) monitored None
    = (ExecuteKernels "entry-1" "token-1" req blob, td')
    /\ processMonitoredTransaction None executeResult td' signer
       = Sends (SendUnstake krnlPayload (JString "tx-1") half
                  (JString aliceHex))
    /\ blob = Abi.encode [Abi.VString "tx-1"; Abi.VUint half;
                          Abi.VAddress alice].
Proof.
  assert (E : exists req blob td',
             @executeKrnl hexParser config ambient (JString aliceHex)
               monitored None
             = (ExecuteKernels "entry-1" "token-1" req blob, td'))
    by (eexists _, _, _; vm_compute; reflexivity).
  destruct E as (req & blob & td' & E).
  destruct (@monitored_transaction_reads_back_what_was_attested hexParser
              config ambient _ _ _ _ _ _ _ td' executeResult signer None E
              ltac:(discriminate) eq_refl
              ltac:(discriminate) ltac:(discriminate))
    as (w & krnlPayload & Hp & He & Hw).
  assert (Hhalf : w = half).
  { change (or_else (member monitored "amount") (JNumber (Finite 1 1)))
      with (JNumber (Finite 5 1)) in Hw.
    rewrite toWei_number in Hw. injection Hw as <-. reflexivity. }
  subst w.
  exists req, blob, td', krnlPayload.
  split; [exact E|]. split; [exact Hp|].
  unfold encode_string_uint256_address in He.
  change (member monitored "externalTransactionId")
    with (JString "tx-1") in He.
  rewrite aliceHex_is_alice in He.
  assert (Hu : check_uint256 half = Some half) by reflexivity.
  rewrite Hu in He. injection He as <-. reflexivity.
Defined.

Lemma executeKrnl_defaults_to_a_tenth_witness :
  exists td',
    @executeKrnl hexParser config ambient (JString aliceHex)
      (JObject [("externalTransactionId", JString "tx-1");
                ("amount", JNumber (Finite 0 0));
                ("transactionInfo",
                 JObject [("amount", JNumber (Finite 5 0));
                          ("hash", JString "0xabc")])]) None
    = (ExecuteKernels "entry-1" "token-1"
         (kernelRequest (JString aliceHex) "1657"
            (requestBody ambient (JString "tx-1") (JNumber (Finite 1 1))))
         (Abi.encode [Abi.VString "tx-1"; Abi.VUint (10 ^ 17);
                      Abi.VAddress alice]),
       td')
    /\ member (member td' "transactionInfo") "amount" = JNumber (Finite 1 1)
    /\ member (member td' "transactionInfo") "hash" = JString "0xabc".
Proof.
  destruct (@executeKrnl_defaults_to_a_tenth hexParser config ambient
              (JString aliceHex)
              [("externalTransactionId", JString "tx-1");
               ("amount", JNumber (Finite 0 0));
               ("transactionInfo",
                JObject [("amount", JNumber (Finite 5 0));
                         ("hash", JString "0xabc")])]
              "tx-1" alice None eq_refl aliceHex_is_alice eq_refl
              ltac:(discriminate) eq_refl
              ltac:(intros items H; discriminate H))
    as (Hobject & _).
  destruct (Hobject (or_intror (ex_intro _ _ eq_refl)))
    as (td' & E & Hamt & Hother & _).
  exists td'. split; [exact E|]. split; [exact Hamt|].
  rewrite (Hother "hash") by discriminate. reflexivity.
Defined.

End WalletScenarios.

(** ** Balances in print *)

Section UnitsFacts.
Import JS Ethers Builder Units Wallet.

Lemma strip_leading_zeros_cons (c c' : ascii) (cs : list ascii) :
  strip_leading_zeros (c :: c' :: cs)
  = if Ascii.eqb c "0" then strip_leading_zeros (c' :: cs) else c :: c' :: cs.
Proof. reflexivity. Qed.

(** What [strip_leading_zeros] takes away is zeros. *)
Lemma strip_leading_zeros_split (cs : list ascii) :
  exists k, cs = repeat "0"%char k ++ strip_leading_zeros cs.
Proof.
  induction cs as [|c cs IH]; [exists O; reflexivity|].
  destruct cs as [|c' cs']; [exists O; reflexivity|].
  rewrite strip_leading_zeros_cons.
  destruct (Ascii.eqb_spec c "0") as [->|Hc].
  - destruct IH as [k Hk]. exists (S k). cbn [repeat app]. f_equal. exact Hk.
  - exists O. reflexivity.
Qed.

Lemma rev_repeat_zero (k : nat) :
  rev (repeat "0"%char k) = repeat "0"%char k.
Proof.
  induction k as [|k IH]; [reflexivity|].
  cbn [repeat rev]. rewrite IH. symmetry. apply repeat_cons.
Qed.

Lemma forallb_rev {A} (f : A -> bool) (l : list A) :
  forallb f (rev l) = forallb f l.
Proof.
  induction l as [|x l IH]; [reflexivity|].
  cbn [rev forallb]. rewrite forallb_app, IH. cbn [forallb].
  rewrite andb_true_r. apply andb_comm.
Qed.

(** The fraction is its trimmed print followed by zeros. *)
Lemma trim_fraction_facts (frac : list ascii) :
  forallb is_digit frac = true -> frac <> [] ->
  forallb is_digit (trim_fraction frac) = true
  /\ trim_fraction frac <> []
  /\ exists k, frac = trim_fraction frac ++ repeat "0"%char k.
Proof.
  intros Hd Hne. unfold trim_fraction. split; [|split].
  - rewrite forallb_rev. apply strip_leading_zeros_digits.
    rewrite forallb_rev. exact Hd.
  - intros H. apply (f_equal (@rev ascii)) in H.
    rewrite rev_involutive in H. cbn [rev] in H.
    apply (strip_leading_zeros_nonempty (rev frac)); [|exact H].
    intros E. apply Hne. apply (f_equal (@rev ascii)) in E.
    rewrite rev_involutive in E. exact E.
  - destruct (strip_leading_zeros_split (rev frac)) as [k Hk].
    exists k. apply (f_equal (@rev ascii)) in Hk.
    rewrite rev_involutive, rev_app_distr, rev_repeat_zero in Hk.
    exact Hk.
Qed.

Lemma forallb_repeat_zero_digit (k : nat) :
  forallb is_digit (repeat "0"%char k) = true.
Proof. induction k as [|k IH]; [reflexivity|]. cbn [repeat forallb]. exact IH. Qed.

Lemma forallb_take {A} (f : A -> bool) (n : nat) (l : list A) :
  forallb f l = true -> forallb f (take n l) = true.
Proof.
  revert n. induction l as [|x l IH]; intros [|n] H; try reflexivity.
  cbn [take forallb] in *. apply andb_true_iff in H as [Hx Hl].
  rewrite Hx. apply IH. exact Hl.
Qed.

Lemma forallb_drop {A} (f : A -> bool) (n : nat) (l : list A) :
  forallb f l = true -> forallb f (drop n l) = true.
Proof.
  revert n. induction l as [|x l IH]; intros [|n] H; try reflexivity.
  - exact H.
  - cbn [drop]. cbn [forallb] in H. apply andb_true_iff in H as [_ Hl].
    apply IH. exact Hl.
Qed.

(** The characters that [fixed_chars] prints for 18 decimals, and their
    value. *)
Lemma fixed_chars_18 (v : Z) :
  exists W F,
    fixed_chars v 18
    = (if v <? 0 then ["-"%char] else []) ++ W ++ "."%char :: F
    /\ forallb is_digit W = true /\ W <> []
    /\ forallb is_digit F = true /\ F <> [] /\ (length F <= 18)%nat
    /\ digits_value (W ++ F ++ repeat "0"%char (18 - length F)) = Z.abs v.
Proof.
  unfold fixed_chars. cbn [Nat.eqb].
  set (a := Z.abs v).
  assert (Ha : 0 <= a) by (unfold a; lia).
  destruct (integer_chars_facts a Ha) as (Hval & Hdig & Hne).
  set (str := pad_whole 18 (integer_chars a)).
  assert (Hsd : forallb is_digit str = true).
  { unfold str, pad_whole. rewrite forallb_app, forallb_repeat_zero_digit.
    exact Hdig. }
  assert (Hsv : digits_value str = a).
  { unfold str, pad_whole. rewrite digits_value_app, digits_value_zeros.
    lia. }
  assert (Hlen : (19 <= length str)%nat).
  { unfold str, pad_whole. rewrite length_app, repeat_length. lia. }
  set (index := (length str - 18)%nat).
  assert (Hfl : length (drop index str) = 18%nat).
  { rewrite length_drop. unfold index. lia. }
  assert (Hwne : take index str <> []).
  { intros E. apply (f_equal (@length ascii)) in E.
    rewrite length_take in E. cbn [length] in E. unfold index in E. lia. }
  assert (Hfne : drop index str <> []).
  { intros E. rewrite E in Hfl. discriminate Hfl. }
  destruct (trim_fraction_facts (drop index str)
              (forallb_drop _ _ _ Hsd) Hfne) as (HFd & HFne & k & Hk).
  exists (strip_leading_zeros (take index str)),
         (trim_fraction (drop index str)).
  split; [reflexivity|].
  split; [apply strip_leading_zeros_digits, forallb_take, Hsd|].
  split; [apply strip_leading_zeros_nonempty, Hwne|].
  split; [exact HFd|]. split; [exact HFne|].
  assert (HFl : (length (trim_fraction (drop index str)) + k = 18)%nat).
  { pose proof (f_equal (@length ascii) Hk) as Hl.
    rewrite length_app, repeat_length, Hfl in Hl. lia. }
  split; [lia|].
  replace (18 - length (trim_fraction (drop index str)))%nat with k by lia.
  rewrite <- Hk.
  rewrite digits_value_app, strip_leading_zeros_value.
  rewrite <- digits_value_app, take_drop. exact Hsv.
Qed.

(** X14: a balance printed by [fromWei] reads back with [toWei].  For
    every amount of wei within 512 bits, [fromWei] gives a text made of
    the whole tokens, a point and one to eighteen decimals, and [toWei]
    of that text is the amount; so is what [getTokenBalance] returns
    for the balance that the contract answers. *)
Theorem fromWei_reads_back_with_toWei :
  forall v : Z,
    - 2 ^ 511 <= v < 2 ^ 511 ->
    exists text whole frac,
      fromWei v = Some text
      /\ toWei (JString text) = Some v
      /\ list_ascii_of_string text
         = (if v <? 0 then ["-"%char] else []) ++ whole ++ "."%char :: frac
      /\ forallb is_digit whole = true /\ whole <> []
      /\ forallb is_digit frac = true /\ frac <> []
      /\ (length frac <= 18)%nat
      /\ (forall address provider,
            truthy address = true -> truthy provider = true ->
            getTokenBalance address provider v = inr text).
Proof.
  intros v Hv.
  destruct (fixed_chars_18 v) as (W & F & Hchars & HWd & HWne & HFd & HFne
                                  & HFl & Hval).
  assert (Hrange : (- 2 ^ 511 <=? v) && (v <? 2 ^ 511) = true).
  { apply andb_true_iff. split; [apply Z.leb_le|apply Z.ltb_lt]; lia. }
  assert (Hfrom : fromWei v
                  = Some (string_of_list_ascii (fixed_chars v 18))).
  { unfold fromWei, formatUnits. rewrite Hrange. reflexivity. }
  exists (string_of_list_ascii (fixed_chars v 18)), W, F.
  split; [exact Hfrom|]. split.
  { unfold toWei, parseUnits.
    rewrite list_ascii_of_string_of_list_ascii, Hchars.
    destruct W as [|d W']; [congruence|].
    cbn [forallb] in HWd. pose proof HWd as HWd'.
    apply andb_true_iff in HWd' as [Hd _].
    change ((d :: W') ++ "."%char :: F) with (d :: (W' ++ "."%char :: F)).
    rewrite (parse_fixed_signed (v <? 0) d _ 18 Hd).
    change (d :: (W' ++ "."%char :: F)) with ((d :: W') ++ "."%char :: F).
    pose proof (parse_unsigned_decimal (v <? 0) (d :: W') F HWd
                  ltac:(discriminate) HFd) as Hp.
    assert (HF0 : (length F =? 0)%nat = false)
      by (destruct F; [congruence|reflexivity]).
    rewrite HF0 in Hp. rewrite Hp. cbv zeta.
    rewrite drop_ge by (rewrite length_app, repeat_length; lia).
    cbn [forallb negb].
    rewrite take_ge by (rewrite length_app, repeat_length; lia).
    rewrite Hval.
    replace (if v <? 0 then - Z.abs v else Z.abs v) with v
      by (destruct (Z.ltb_spec v 0); lia).
    rewrite Hrange. reflexivity. }
  split; [rewrite list_ascii_of_string_of_list_ascii; exact Hchars|].
  split; [exact HWd|]. split; [exact HWne|].
  split; [exact HFd|]. split; [exact HFne|]. split; [exact HFl|].
  intros address provider Ha Hp. unfold getTokenBalance.
  rewrite Ha, Hp, Hfrom. reflexivity.
Qed.

End UnitsFacts.

Section UnitsScenarios.
Import JS Ethers Builder Units Wallet Scenario Samples.

Lemma fromWei_reads_back_with_toWei_witness :
  fromWei (1000000 * 10 ^ 18) = Some "1000000.0"
  /\ toWei (JString "1000000.0") = Some (1000000 * 10 ^ 18)
  /\ fromWei half = Some "0.5"
  /\ getTokenBalance (JString aliceHex) signer half = inr "0.5".
Proof.
  assert (E1 : fromWei (1000000 * 10 ^ 18) = Some "1000000.0")
    by (vm_compute; reflexivity).
  assert (E2 : fromWei half = Some "0.5") by (vm_compute; reflexivity).
  destruct (fromWei_reads_back_with_toWei (1000000 * 10 ^ 18))
    as (text & _ & _ & Hf & Ht & _); [split; vm_compute; congruence|].
  destruct (fromWei_reads_back_with_toWei half)
    as (text' & _ & _ & Hf' & _ & _ & _ & _ & _ & _ & _ & Hg);
    [split; vm_compute; congruence|].
  rewrite E1 in Hf. injection Hf as <-.
  rewrite E2 in Hf'. injection Hf' as <-.
  split; [exact E1|]. split; [exact Ht|]. split; [exact E2|].
  apply Hg; reflexivity.
Defined.

End UnitsScenarios.

(** ** The risk proxy, further *)

Section ProxyValues.
Import JS RiskProxy Terms Shapes Bulk.





Lemma keys_set_prop (props : list (string * value)) (k : string) (v : value)
    (k' : string) :
  In k' (map fst (set_prop props k v)) <-> k' = k \/ In k' (map fst props).
Proof.
  induction props as [|[k0 v0] props IH]; cbn [set_prop map fst In].
  - intuition congruence.
  - destruct (String.eqb_spec k0 k) as [->|Hne]; cbn [map fst In].
    + intuition congruence.
    + rewrite IH. intuition congruence.
Qed.

Lemma keys_spread (a b : list (string * value)) (k : string) :
  In k (map fst (spread a b)) <-> In k (map fst a) \/ In k (map fst b).
Proof.
  unfold spread. revert a.
  induction b as [|[k0 v0] b IH]; intros a; cbn [fold_left map fst snd In].
  - tauto.
  - rewrite IH, keys_set_prop. intuition congruence.
Qed.

Lemma keys_remove_prop_self (props : list (string * value)) (k : string) :
  ~ In k (map fst (remove_prop props k)).
Proof.
  unfold remove_prop. intros H. apply in_map_iff in H as ([k0 v0] & Hk & Hin).
  apply filter_In in Hin as [_ Hf]. cbn [fst] in Hk, Hf. subst k0.
  rewrite String.eqb_refl in Hf. discriminate Hf.
Qed.

Lemma has_prop_keys (props : list (string * value)) (k : string) :
  has_prop props k = false <-> ~ In k (map fst props).
Proof.
  unfold has_prop. induction props as [|[k0 v0] props IH];
    cbn [lookup_prop map fst In].
  - tauto.
  - destruct (String.eqb_spec k0 k) as [->|Hne].
    + split; [discriminate|]. intros H. exfalso. apply H. left. reflexivity.
    + rewrite IH. intuition congruence.
Qed.

(** X16: [renameTopAddressKey] touches only an object that has an
    [address]: it takes that key out and answers its value under
    [walletAddress], the other keys keeping their values.  But an
    object that already has a [walletAddress] keeps that one, and its
    [address] is lost.  What comes out has no [address], so renaming
    twice is renaming once. *)
Theorem renameTopAddressKey_moves_the_address :
  forall (props : list (string * value)),
    NoDup (map fst props) ->
    (lookup_prop props "address" = None ->
     renameTopAddressKey (JObject props) = JObject props)
    /\ (forall a,
          lookup_prop props "address" = Some a ->
          let out := renameTopAddressKey (JObject props) in
          ~ In "address" (keys out)
          /\ member out "walletAddress"
             = match lookup_prop props "walletAddress" with
               | Some w => w
               | None => a
               end
          /\ (forall k, k <> "address" -> k <> "walletAddress" ->
                        member out k = member (JObject props) k)
          /\ renameTopAddressKey out = out).
Proof.
  intros props Hnd. split.
  - intros Ha. unfold renameTopAddressKey, has_prop. rewrite Ha. reflexivity.
  - intros a Ha out.
    assert (Hout : out = JObject (spread [("walletAddress", a)]
                                    (remove_prop props "address"))).
    { unfold out, renameTopAddressKey, has_prop. rewrite Ha.
      cbn [member]. rewrite Ha. reflexivity. }
    assert (Hno : ~ In "address" (keys out)).
    { rewrite Hout. cbn [keys]. rewrite keys_spread. cbn [map fst In].
      intros [[H|[]]|H]; [discriminate H|].
      exact (keys_remove_prop_self _ _ H). }
    split; [exact Hno|]. split.
    { rewrite Hout. cbn [member].
      rewrite lookup_prop_spread by (apply NoDup_remove_prop, Hnd).
      rewrite lookup_prop_remove_prop by discriminate.
      destruct (lookup_prop props "walletAddress"); reflexivity. }
    split.
    { intros k Hk1 Hk2. apply member_renameTopAddressKey; assumption. }
    rewrite Hout in Hno |- *. cbn [keys] in Hno.
    apply has_prop_keys in Hno.
    unfold renameTopAddressKey. rewrite Hno. reflexivity.
Qed.

Lemma filterRiskFields_None (data : value) :
  filterRiskFields data = None <-> data = JNull \/ data = JUndefined.
Proof.
  unfold filterRiskFields. destruct data; cbn [renameTopAddressKey];
    try (split; [discriminate|intros [H|H]; discriminate H]).
  - split; [right; reflexivity|reflexivity].
  - split; [left; reflexivity|reflexivity].
  - destruct (has_prop props "address");
      (split; [discriminate|intros [H|H]; discriminate H]).
Qed.

(** X17: the single-address endpoints have an answer for every upstream
    body but [undefined]: nothing in [processValue] and
    [filterRiskFields] throws on it.  For a body that is no object, be
    it [null], a string, a number or an array, the answer is the empty
    object. *)
Theorem entity_answer_is_total :
  forall data : value,
    (entityResponse data = None <-> data = JUndefined)
    /\ ((forall props, data <> JObject props) -> data <> JUndefined ->
        entityResponse data = Some (JObject [])).
Proof.
  intros data. split.
  - unfold entityResponse. split.
    + intros H.
      destruct (filterRiskFields (processValue data)) eqn:E;
        [discriminate H|].
      apply filterRiskFields_None in E as [E|E];
        destruct data; try discriminate E; reflexivity.
    + intros ->. reflexivity.
  - intros Hobj Hund. destruct data; try reflexivity.
    + contradiction.
    + exfalso. exact (Hobj props eq_refl).
Qed.

Lemma sequence_app {A} (xs ys : list (option A)) :
  sequence (xs ++ ys)
  = match sequence xs, sequence ys with
    | Some a, Some b => Some (a ++ b)
    | _, _ => None
    end.
Proof.
  induction xs as [|[x|] xs IH]; cbn [app sequence].
  - destruct (sequence ys); reflexivity.
  - rewrite IH. destruct (sequence xs), (sequence ys); reflexivity.
  - reflexivity.
Qed.

Lemma sequence_length {A} (xs : list (option A)) (ys : list A) :
  sequence xs = Some ys -> length ys = length xs.
Proof.
  revert ys. induction xs as [|[x|] xs IH]; intros ys; cbn [sequence].
  - intros H. injection H as <-. reflexivity.
  - destruct (sequence xs) as [zs|]; [|discriminate].
    intros H. injection H as <-. cbn [length]. f_equal. apply IH. reflexivity.
  - discriminate.
Qed.

Lemma sequence_None {A} (xs : list (option A)) :
  sequence xs = None <-> In None xs.
Proof.
  induction xs as [|[x|] xs IH]; cbn [sequence In].
  - split; [discriminate|tauto].
  - destruct (sequence xs); cbn [option_map].
    + split; [discriminate|]. intros [H|H]; [discriminate H|].
      apply IH in H. discriminate H.
    + split; [|reflexivity]. intros _. right. apply IH. reflexivity.
  - split; [left|]; reflexivity.
Qed.

Lemma processBatchResults_app (xs ys : list value) :
  processBatchResults (xs ++ ys)
  = match processBatchResults xs, processBatchResults ys with
    | Some a, Some b => Some (a ++ b)
    | _, _ => None
    end.
Proof. unfold processBatchResults. rewrite map_app. apply sequence_app. Qed.

Lemma or_else_truthy (a b : value) :
  truthy b = true -> truthy (or_else a b) = true.
Proof. intros H. unfold or_else. destruct (truthy a) eqn:E; assumption. Qed.

Lemma processBatchResults_fetched (requests : list (string * Upstream)) :
  processBatchResults (map (fun r => fetched (fst r) (snd r)) requests)
  = sequence (map answered requests).
Proof.
  unfold processBatchResults. rewrite map_map. f_equal.
  apply map_ext. intros [address [data|message]]; cbn [fst snd fetched].
  - reflexivity.
  - unfold answered. cbn [fst snd batchResult].
    cbn [member lookup_prop String.eqb Ascii.eqb Bool.eqb].
    rewrite or_else_truthy by reflexivity. reflexivity.
Qed.

Lemma analyzeLoop_runs (requests : list (string * Upstream)) :
  forall fuel i results,
    (length requests - i + batchSize <= fuel * batchSize)%nat ->
    analyzeLoop fuel requests i results
    = match sequence (map answered (drop i requests)) with
      | Some processed => Finished (results ++ processed)
      | None => Threw
      end.
Proof.
  induction fuel as [|fuel IH]; intros i results Hfuel.
  - exfalso. unfold batchSize in Hfuel. lia.
  - cbn [analyzeLoop]. destruct (Nat.ltb_spec i (length requests)) as [Hi|Hi].
    + rewrite processBatchResults_fetched.
      rewrite <- (take_drop batchSize (drop i requests)) at 2.
      rewrite map_app, sequence_app.
      destruct (sequence (map answered (take batchSize (drop i requests))))
        as [processed|]; [|reflexivity].
      rewrite IH by (unfold batchSize in *; lia).
      rewrite drop_drop.
      destruct (sequence (map answered (drop (i + batchSize) requests)));
        [|reflexivity].
      rewrite <- app_assoc. reflexivity.
    + rewrite drop_ge by lia. cbn [map sequence]. rewrite app_nil_r.
      reflexivity.
Qed.

(** X18: the bulk endpoint works through the addresses ten at a time,
    and the batches do not show in the answer: the loop ends, and
    [results] has one entry for each address, in the order of the
    request, so that [totalAnalyzed] is the number of addresses; a
    failed request gives [{walletAddress, error}] with the upstream
    message or ["Failed to fetch risk assessment"].  But one upstream
    answer that is [null] or [undefined] makes the whole request fail
    with status 500, whatever the other answers were. *)
Theorem bulk_answer_is_one_entry_per_address :
  forall (timestamp : string) (requests : list (string * Upstream)),
    analyzeLoop (S (length requests)) requests 0 []
    = match sequence (map answered requests) with
      | Some results => Finished results
      | None => Threw
      end
    /\ (forall results,
          sequence (map answered requests) = Some results ->
          length results = length requests
          /\ analyzeBulk timestamp requests
             = Ok (json (JObject [
                      ("results", JArray results);
                      ("totalAnalyzed",
                       JNumber (Finite (Z.of_nat (length requests)) 0));
                      ("timestamp", JString timestamp)])))
    /\ (analyzeBulk timestamp requests = InternalServerError
        <-> exists address data,
              In (address, Answered data) requests
              /\ (data = JNull \/ data = JUndefined)).
Proof.
  intros timestamp requests.
  assert (Hloop : analyzeLoop (S (length requests)) requests 0 []
                  = match sequence (map answered requests) with
                    | Some results => Finished results
                    | None => Threw
                    end).
  { rewrite analyzeLoop_runs by (unfold batchSize; lia).
    rewrite drop_0. reflexivity. }
  split; [exact Hloop|]. split.
  - intros results H. pose proof (sequence_length _ _ H) as Hlen.
    rewrite length_map in Hlen. split; [exact Hlen|].
    unfold analyzeBulk. rewrite Hloop, H, Hlen. reflexivity.
  - unfold analyzeBulk. rewrite Hloop.
    destruct (sequence (map answered requests)) as [results|] eqn:E.
    + split; [discriminate|]. intros (address & data & Hin & Hd).
      exfalso.
      assert (Hnone : sequence (map answered requests) = None).
      { apply sequence_None. apply in_map_iff.
        exists (address, Answered data). split; [|exact Hin].
        unfold answered. cbn [snd]. apply filterRiskFields_None. exact Hd. }
      congruence.
    + split; [|reflexivity]. intros _.
      apply sequence_None in E. apply in_map_iff in E
        as ([address [data|message]] & Ha & Hin).
      * exists address, data. split; [exact Hin|].
        apply filterRiskFields_None. exact Ha.
      * discriminate Ha.
Qed.

End ProxyValues.

Section ProxyValueScenarios.
Import JS RiskProxy Terms Shapes Bulk Scenario Samples.


Lemma renameTopAddressKey_moves_the_address_witness :
  member
    (renameTopAddressKey
       (JObject [("address", JString bobHex);
                 ("walletAddress", JString aliceHex)]))
    "walletAddress" = JString aliceHex
  /\ renameTopAddressKey (JObject [("risk", JString "Low")])
     = JObject [("risk", JString "Low")].
Proof.
  assert (Hnd : NoDup (map fst [("address", JString bobHex);
                                ("walletAddress", JString aliceHex)])).
  { cbn [map fst]. repeat constructor;
      rewrite ?list_elem_of_In; cbn [In]; intuition discriminate. }
  assert (Hnd' : NoDup (map fst [("risk", JString "Low")])).
  { cbn [map fst]. repeat constructor.
    rewrite list_elem_of_In. cbn [In]. tauto. }
  split.
  - destruct (proj2 (renameTopAddressKey_moves_the_address _ Hnd)
                (JString bobHex) eq_refl) as (_ & H & _).
    exact H.
  - apply (proj1 (renameTopAddressKey_moves_the_address _ Hnd') eq_refl).
Defined.

Lemma entity_answer_is_total_witness :
  entityResponse JNull = Some (JObject [])
  /\ entityResponse (JArray [JNull]) = Some (JObject []).
Proof.
  split.
  - apply (proj2 (entity_answer_is_total JNull)); discriminate.
  - apply (proj2 (entity_answer_is_total (JArray [JNull]))); discriminate.
Defined.

Lemma bulk_answer_is_one_entry_per_address_witness :
  (exists results,
     analyzeBulk "2024-01-15T10:30:00.000Z" twelveRequests
     = Ok (json (JObject [("results", JArray results);
                          ("totalAnalyzed", JNumber (Finite 12 0));
                          ("timestamp",
                           JString "2024-01-15T10:30:00.000Z")]))
     /\ length results = 12%nat
     /\ last results
        = Some (JObject [("walletAddress", JString aliceHex);
                         ("error",
                          JString "Failed to fetch risk assessment")]))
  /\ analyzeBulk "2024-01-15T10:30:00.000Z"
       (twelveRequests ++ [(bobHex, Answered JNull)]) = InternalServerError.
Proof.
  split.
  - destruct (sequence (map answered twelveRequests)) as [results|] eqn:E;
      [|discriminate E].
    destruct (proj1 (proj2 (bulk_answer_is_one_entry_per_address
                              "2024-01-15T10:30:00.000Z" twelveRequests))
                results E) as [Hlen Hb].
    exists results. split; [exact Hb|]. split; [exact Hlen|].
    cbv in E. injection E as <-. reflexivity.
  - apply (proj2 (proj2 (bulk_answer_is_one_entry_per_address
                           "2024-01-15T10:30:00.000Z"
                           (twelveRequests ++ [(bobHex, Answered JNull)])))).
    exists bobHex, JNull. split; [|left; reflexivity].
    apply in_or_app. right. left. reflexivity.
Defined.

End ProxyValueScenarios.

(** ** The page *)

Section PageFacts.
Import Page.

(** X19: the page keeps the latest ten transaction logs, the newest
    first: after any number of logs, what [handleTransactionLog] has
    left in the state is the last ten of them (all of them, if fewer),
    in the reverse of the order of arrival. *)
Theorem transaction_log_keeps_the_latest_ten :
  forall (A : Type) (logs : list A),
    let kept :=
      fold_left (fun prev log => handleTransactionLog log prev) logs [] in
    kept = take 10 (rev logs)
    /\ length kept = Nat.min 10 (length logs).
Proof.
  intros A logs kept.
  assert (H : kept = take 10 (rev logs)).
  { unfold kept. clear kept. induction logs as [|log logs IH] using rev_ind.
    - reflexivity.
    - rewrite fold_left_app. cbn [fold_left]. rewrite IH.
      unfold handleTransactionLog. rewrite take_take.
      rewrite rev_app_distr. reflexivity. }
  split; [exact H|].
  rewrite H, length_take, length_rev. reflexivity.
Qed.

End PageFacts.
